(** * FbsHealthcare backend: authentication and time-gated authorization

    A shallow embedding of the authentication core of the repository:
    the time window evaluator [checkLoginTime], the request guards
    [authenticateToken], [isAdmin] and [protect], the [login] controller,
    the express-validator rules for the time bounds, and the
    [LoginSession] model, followed by the properties the specification
    states about them.  Around that core it embeds the [User] model, the
    account controllers ([register], [changePassword], [updateUser],
    [deleteUser], [resetUserPassword]), the seeding of the default
    administrator and the status changes of orders, with the properties
    the code itself shows for them. *)

From Stdlib Require Import ZArith String Ascii Bool List Lia.
From stdpp Require Import gmap strings list fin_maps sorting.

Local Open Scope Z_scope.
Local Open Scope string_scope.

(** ** JavaScript values used by the core *)

Module Js.

(** A value that the code treats as "a string, or nothing": a field of a
    JSON request body can be missing ([undefined]), [null] or a string;
    a nullable text column is [null] or a string. *)
Inductive value : Type :=
| Undefined
| Null
| Str (s : string).

(** JavaScript truthiness: [undefined], [null] and the empty string are
    falsy, every other string is truthy. *)
Definition truthy (v : value) : bool :=
  match v with
  | Str s => negb (String.eqb s "")
  | _ => false
  end.

(** [!v] *)
Definition not (v : value) : bool := negb (truthy v).

(** [v || null], as stored in a nullable column. *)
Definition or_null (v : value) : option string :=
  match v with
  | Str s => if String.eqb s "" then None else Some s
  | _ => None
  end.

(** A nullable column read back as a JavaScript value. *)
Definition of_column (c : option string) : value :=
  match c with
  | Some s => Str s
  | None => Null
  end.

(** The relational operators on two strings compare them code unit by
    code unit; strings are modelled as byte strings, which is exact on
    the ASCII range the time-of-day strings live in. *)
Definition gt (a b : string) : bool :=
  match String.compare a b with Gt => true | _ => false end.
Definition ge (a b : string) : bool :=
  match String.compare a b with Lt => false | _ => true end.
Definition le (a b : string) : bool :=
  match String.compare a b with Gt => false | _ => true end.

(** Template literal interpolation [`${v}`]. *)
Definition to_string (v : value) : string :=
  match v with
  | Undefined => "undefined"
  | Null => "null"
  | Str s => s
  end.

(** [s.split(sep)] for a one-character separator: cut at every occurrence;
    neighbouring separators give empty pieces. *)
Fixpoint split_aux (sep : ascii) (cur : string) (s : string) : list string :=
  match s with
  | EmptyString => [cur]
  | String c rest =>
      if Ascii.eqb c sep
      then cur :: split_aux sep "" rest
      else split_aux sep (cur ++ String c "") rest
  end.
Definition split (sep : ascii) (s : string) : list string := split_aux sep "" s.

(** [s.startsWith(p)] *)
Definition startsWith (p s : string) : bool := String.prefix p s.

(** [s.length]: the number of UTF-16 code units of the text, read off the
    bytes of its UTF-8 form.  A byte that continues a character counts
    nothing, the first byte of a four-byte character counts two (a
    surrogate pair), every other first byte one. *)
Definition units (c : ascii) : nat :=
  let n := N_of_ascii c in
  if (n <? 128)%N then 1
  else if (n <? 192)%N then 0
  else if (n <? 240)%N then 1
  else 2.

Fixpoint length (s : string) : nat :=
  match s with
  | EmptyString => 0
  | String c rest => units c + length rest
  end.

End Js.

(** ** Lexicographic order on strings, stated independently of the code *)

(** [lex_lt a b]: [a] is a proper prefix of [b], or the two differ first at
    a position where [a] has the smaller character code. *)
Inductive lex_lt : string -> string -> Prop :=
| lex_lt_prefix c t : lex_lt EmptyString (String c t)
| lex_lt_head c d s t :
    (N_of_ascii c < N_of_ascii d)%N -> lex_lt (String c s) (String d t)
| lex_lt_tail c s t : lex_lt s t -> lex_lt (String c s) (String c t).

Definition lex_le (a b : string) : Prop := a = b \/ lex_lt a b.

(** ** Time Window Evaluator (middleware/auth.js, [checkLoginTime]) *)

Record TimeCheck : Type := mkTimeCheck {
  allowed : bool;
  message : option string;
  currentTime : option string
}.

(** [checkLoginTime(loginStartTime, loginEndTime)].  The first argument of
    the model is the value the code computes from the wall clock,
    [new Date().toTimeString().slice(0, 8)]. *)
Definition checkLoginTime (now : string)
    (loginStartTime loginEndTime : Js.value) : TimeCheck :=
  if Js.not loginStartTime || Js.not loginEndTime then
    mkTimeCheck true None None
  else
    let currentTime := now in
    let start := Js.to_string loginStartTime in
    let end_ := Js.to_string loginEndTime in
    let denied :=
      mkTimeCheck false
        (Some ("Login allowed only between " ++ Js.to_string loginStartTime
               ++ " and " ++ Js.to_string loginEndTime))
        (Some currentTime) in
    if Js.gt start end_ then
      if Js.ge currentTime start || Js.le currentTime end_
      then mkTimeCheck true None None
      else denied
    else
      if Js.ge currentTime start && Js.le currentTime end_
      then mkTimeCheck true None None
      else denied.

(** The clock string: [toTimeString()] starts with the local time as
    zero-padded [HH:MM:SS]; [slice(0, 8)] keeps exactly that. *)
Definition digit (n : nat) : ascii := ascii_of_nat (48 + n).
Definition pad2 (n : nat) : string :=
  String (digit (n / 10)) (String (digit (n mod 10)) EmptyString).
Definition toTimeString8 (h m s : nat) : string :=
  pad2 h ++ ":" ++ pad2 m ++ ":" ++ pad2 s.


(** ** Regular expressions (the fragment the validators use) *)

Module Regex.

Inductive regex : Type :=
| Chr (c : ascii)                 (* a literal character *)
| Range (lo hi : ascii)           (* [lo-hi] *)
| Class (cs : list ascii)         (* [abc] *)
| Seq (r1 r2 : regex)             (* r1 r2 *)
| Alt (r1 r2 : regex)             (* r1|r2 *)
| Opt (r : regex)                 (* r? *)
| Eps                             (* the empty word *)
| Void.                           (* no word at all *)

(** The words of a regular expression. *)
Inductive lang : regex -> string -> Prop :=
| lang_chr c : lang (Chr c) (String c EmptyString)
| lang_range lo hi c :
    (N_of_ascii lo <= N_of_ascii c)%N -> (N_of_ascii c <= N_of_ascii hi)%N ->
    lang (Range lo hi) (String c EmptyString)
| lang_class cs c : In c cs -> lang (Class cs) (String c EmptyString)
| lang_seq r1 r2 s1 s2 : lang r1 s1 -> lang r2 s2 -> lang (Seq r1 r2) (s1 ++ s2)
| lang_alt_l r1 r2 s : lang r1 s -> lang (Alt r1 r2) s
| lang_alt_r r1 r2 s : lang r2 s -> lang (Alt r1 r2) s
| lang_opt_none r : lang (Opt r) EmptyString
| lang_opt_some r s : lang r s -> lang (Opt r) s
| lang_eps : lang Eps EmptyString.

Fixpoint nullable (r : regex) : bool :=
  match r with
  | Chr _ | Range _ _ | Class _ | Void => false
  | Seq r1 r2 => nullable r1 && nullable r2
  | Alt r1 r2 => nullable r1 || nullable r2
  | Opt _ | Eps => true
  end.

Definition in_range (lo hi c : ascii) : bool :=
  (N_of_ascii lo <=? N_of_ascii c)%N && (N_of_ascii c <=? N_of_ascii hi)%N.

Definition in_class (cs : list ascii) (c : ascii) : bool :=
  existsb (Ascii.eqb c) cs.

(** Brzozowski derivative: what is left to match after reading [c]. *)
Fixpoint deriv (c : ascii) (r : regex) : regex :=
  match r with
  | Chr d => if Ascii.eqb c d then Eps else Void
  | Range lo hi => if in_range lo hi c then Eps else Void
  | Class cs => if in_class cs c then Eps else Void
  | Seq r1 r2 =>
      if nullable r1
      then Alt (Seq (deriv c r1) r2) (deriv c r2)
      else Seq (deriv c r1) r2
  | Alt r1 r2 => Alt (deriv c r1) (deriv c r2)
  | Opt r1 => deriv c r1
  | Eps | Void => Void
  end.

(** [/^r$/.test(s)]: the whole string is a word of [r] (without the [m]
    flag [$] only matches at the very end of the input). *)
Fixpoint test (r : regex) (s : string) : bool :=
  match s with
  | EmptyString => nullable r
  | String c rest => test (deriv c r) rest
  end.

End Regex.

(** ** Upstream validators of the time bounds (middleware/validators.js) *)

(** [/^([01]?[0-9]|2[0-3]):[0-5][0-9](:[0-5][0-9])?$/] *)
Definition timeFormat : Regex.regex :=
  let d09 := Regex.Range "0" "9" in
  let d05 := Regex.Range "0" "5" in
  Regex.Seq
    (Regex.Alt (Regex.Seq (Regex.Opt (Regex.Class ["0"; "1"]%char)) d09)
               (Regex.Seq (Regex.Chr "2") (Regex.Range "0" "3")))
    (Regex.Seq (Regex.Chr ":")
       (Regex.Seq d05
          (Regex.Seq d09
             (Regex.Opt (Regex.Seq (Regex.Chr ":") (Regex.Seq d05 d09)))))).

(** express-validator hands a standard validator the field as a string;
    [null] and [undefined] become the empty string. *)
Definition validatorString (v : Js.value) : string :=
  match v with
  | Js.Str s => s
  | _ => ""
  end.

(** [registerValidation], the rule of [loginStartTime] and of
    [loginEndTime]: [.optional().matches(timeFormat)].  [true] means that the
    rule reports no error. *)
Definition registerValidation_time (v : Js.value) : bool :=
  match v with
  | Js.Undefined => true
  | _ => Regex.test timeFormat (validatorString v)
  end.

(** [updateUserValidation], the rule of the same two fields:
    [.optional({ nullable: true }).custom(...)]. *)
Definition updateUserValidation_time (v : Js.value) : bool :=
  match v with
  | Js.Undefined | Js.Null => true
  | Js.Str s =>
      if String.eqb s "" then true
      else Regex.test timeFormat s
  end.

(** What a validated bound becomes in the store: [User.create] writes
    [loginStartTime || null], and [updateUser] writes the same when the
    field is not [undefined]. *)
Definition storedBound (v : Js.value) : option string := Js.or_null v.

(** The time of day a bound denotes, in seconds after midnight: decimal
    fields separated by colons, hours first, seconds optional. *)
Definition digitValue (c : ascii) : option Z :=
  if Regex.in_range "0" "9" c then Some (Z.of_N (N_of_ascii c) - 48) else None.

Fixpoint decimal (acc : Z) (s : string) : option Z :=
  match s with
  | EmptyString => Some acc
  | String c rest =>
      match digitValue c with
      | Some d => decimal (10 * acc + d) rest
      | None => None
      end
  end.

Definition timeField (s : string) : option Z :=
  match s with
  | EmptyString => None
  | _ => decimal 0 s
  end.

Definition secondsOfDay (s : string) : option Z :=
  match Js.split ":" s with
  | [h; m] =>
      match timeField h, timeField m with
      | Some h, Some m => Some (3600 * h + 60 * m)
      | _, _ => None
      end
  | [h; m; sec] =>
      match timeField h, timeField m, timeField sec with
      | Some h, Some m, Some sec => Some (3600 * h + 60 * m + sec)
      | _, _, _ => None
      end
  | _ => None
  end.


(** ** Session Tracker (models/LoginSession.js) *)

(** Outcome of a storage call that may raise. *)
Inductive result (A : Type) : Type :=
| Ok (a : A)
| Raise (code : string).
Arguments Ok {A} a.
Arguments Raise {A} code.

Module LoginSession.

(** A row of the [loginSession] table; the primary key [id] is the key of
    the table below.  Timestamps are milliseconds since the epoch. *)
Record row : Type := mkRow {
  userId : Z;
  loginTime : Z;
  logoutTime : option Z;
  ipAddress : option string;
  userAgent : option string;
  isValid : bool
}.

Abbreviation table := (gmap Z row).

(** The object Prisma hands back: the row together with its id. *)
Definition record : Type := (Z * row)%type.

(** Auto-increment primary key: one more than the largest id in use. *)
Definition nextId (t : table) : Z :=
  foldr (fun kr acc => Z.max kr.1 acc) 0 (map_to_list t) + 1.

(** Modelled from the spec: the column defaults of the Prisma schema, which
    is not among the sources.  The data model gives [loginTime] "set at
    creation", [logoutTime] "nullable", and [isValid] "true until ended". *)
Definition defaults (now uid : Z) (ip ua : option string) : row :=
  {| userId := uid; loginTime := now; logoutTime := None;
     ipAddress := ip; userAgent := ua; isValid := true |}.

(** [LoginSession.create({ userId, ipAddress, userAgent })] *)
Definition create (now : Z) (uid : Z) (ip ua : Js.value) (t : table)
  : record * table :=
  let r := defaults now uid (Js.or_null ip) (Js.or_null ua) in
  let id := nextId t in
  ((id, r), <[id := r]> t).

(** First record of a list in descending [loginTime] order. *)
Fixpoint latest (l : list record) : option record :=
  match l with
  | [] => None
  | x :: rest =>
      match latest rest with
      | None => Some x
      | Some y => if Z.ltb (loginTime y.2) (loginTime x.2) then Some x else Some y
      end
  end.

(** [findFirst({ where, orderBy: { loginTime: "desc" } })] *)
Definition findFirst (where_ : row -> bool) (t : table) : option record :=
  latest (filter (fun kr => where_ kr.2 = true) (map_to_list t)).

(** [update({ where: { id }, data })]; Prisma raises P2025 when no row has
    that id. *)
Definition update (id : Z) (data : row -> row) (t : table)
  : result record * table :=
  match t !! id with
  | Some r => (Ok (id, data r), <[id := data r]> t)
  | None => (Raise "P2025", t)
  end.

(** [updateMany({ where, data })], with the number of rows it changed. *)
Definition updateMany (where_ : row -> bool) (data : row -> row) (t : table)
  : nat * table :=
  (length (filter (fun kr => where_ kr.2 = true) (map_to_list t)),
   (fun r => if where_ r then data r else r) <$> t).

(** The [data] of both updates: [{ logoutTime: new Date(), isValid: false }]. *)
Definition close (now : Z) (r : row) : row :=
  {| userId := userId r; loginTime := loginTime r; logoutTime := Some now;
     ipAddress := ipAddress r; userAgent := userAgent r; isValid := false |}.

Definition isNull (o : option Z) : bool :=
  match o with None => true | Some _ => false end.

(** [LoginSession.endSession(userId)] *)
Definition endSession (now : Z) (uid : Z) (t : table)
  : result (option record) * table :=
  let session :=
    findFirst (fun r => Z.eqb (userId r) uid && isNull (logoutTime r)) t in
  match session with
  | None => (Ok None, t)
  | Some s =>
      match update s.1 (close now) t with
      | (Ok r, t') => (Ok (Some r), t')
      | (Raise e, t') => (Raise e, t')
      end
  end.

(** [LoginSession.invalidateAllSessions(userId)] *)
Definition invalidateAllSessions (now : Z) (uid : Z) (t : table)
  : nat * table :=
  updateMany (fun r => Z.eqb (userId r) uid && isValid r) (close now) t.

(** [count({ where })] *)
Definition count (where_ : row -> bool) (t : table) : nat :=
  length (filter (fun kr => where_ kr.2 = true) (map_to_list t)).

(** Records in descending [loginTime] order; the order among records with
    the same [loginTime] is the database's choice, here that of insertion
    into the sorted list. *)
Fixpoint insertDesc (x : record) (l : list record) : list record :=
  match l with
  | [] => [x]
  | y :: rest =>
      if Z.leb (loginTime y.2) (loginTime x.2)
      then x :: y :: rest
      else y :: insertDesc x rest
  end.

Definition sortDesc (l : list record) : list record := foldr insertDesc [] l.

(** [findMany({ where, orderBy: { loginTime: "desc" } })] *)
Definition findMany (where_ : row -> bool) (t : table) : list record :=
  sortDesc (filter (fun kr => where_ kr.2 = true) (map_to_list t)).

(** [LoginSession.findById(id)] *)
Definition findById (id : Z) (t : table) : option record :=
  match t !! id with
  | Some r => Some (id, r)
  | None => None
  end.

(** A number as JavaScript hands it over: a whole number, or NaN (what
    [parseInt] makes of a text that is no number). *)
Inductive number : Type :=
| Int (z : Z)
| NaN.

(** [findMany({ where, orderBy: { loginTime: "desc" }, take, skip })].
    Among records with the same [loginTime] the order is the database's
    choice, and it may choose differently for every query: [order] is what
    it chooses for this one.  Prisma refuses a [take] or [skip] that is no
    whole number and a negative [skip]; a negative [take] counts from the
    end of the ordered list. *)
Definition findManyPage (order : list record -> list record)
    (where_ : row -> bool) (take_ skip_ : number) (t : table)
  : result (list record) :=
  let ordered := order (filter (fun kr => where_ kr.2 = true) (map_to_list t)) in
  match take_, skip_ with
  | Int n, Int k =>
      if Z.ltb k 0 then Raise "PrismaClientValidationError"
      else if Z.ltb n 0
      then Ok (reverse (take (Z.to_nat (- n))
                          (drop (Z.to_nat k) (reverse ordered))))
      else Ok (take (Z.to_nat n) (drop (Z.to_nat k) ordered))
  | _, _ => Raise "PrismaClientValidationError"
  end.

(** [LoginSession.findByUserId(userId, { limit = 20, offset = 0 })]; a
    missing option is [None].  The page and the count are two queries. *)
Definition findByUserId (order : list record -> list record) (uid : Z)
    (limit offset : option number) (t : table)
  : result (list record * nat) :=
  let limit := match limit with Some n => n | None => Int 20 end in
  let offset := match offset with Some n => n | None => Int 0 end in
  match findManyPage order (fun r => Z.eqb (userId r) uid) limit offset t with
  | Ok sessions_ => Ok (sessions_, count (fun r => Z.eqb (userId r) uid) t)
  | Raise e => Raise e
  end.

(** [LoginSession.getActiveSessions(userId)] *)
Definition getActiveSessions (uid : Z) (t : table) : list record :=
  findMany (fun r => Z.eqb (userId r) uid && isValid r && isNull (logoutTime r)) t.

(** The object [getStats] returns. *)
Record stats : Type := mkStats {
  total_logins : nat;
  logins_last_30_days : nat;
  logins_last_7_days : nat;
  last_login : option Z
}.

(** [LoginSession.getStats(userId)].  [daysAgo n] is the instant the code
    gets from [new Date()] by [setDate(getDate() - n)], a calendar
    computation of the runtime in local time. *)
Definition getStats (daysAgo : Z -> Z) (uid : Z) (t : table) : stats :=
  let thirtyDaysAgo := daysAgo 30 in
  let sevenDaysAgo := daysAgo 7 in
  let totalLogins := count (fun r => Z.eqb (userId r) uid) t in
  let loginsLast30Days :=
    count (fun r => Z.eqb (userId r) uid && Z.leb thirtyDaysAgo (loginTime r)) t in
  let loginsLast7Days :=
    count (fun r => Z.eqb (userId r) uid && Z.leb sevenDaysAgo (loginTime r)) t in
  let lastSession := findFirst (fun r => Z.eqb (userId r) uid) t in
  {| total_logins := totalLogins;
     logins_last_30_days := loginsLast30Days;
     logins_last_7_days := loginsLast7Days;
     last_login := match lastSession with
                   | Some s => Some (loginTime s.2)
                   | None => None
                   end |}.

(** [deleteMany({ where })], with the number of rows it removed. *)
Definition deleteMany (where_ : row -> bool) (t : table) : nat * table :=
  (count where_ t, filter (fun kr => where_ kr.2 = false) t).

(** [LoginSession.deleteOldSessions(daysOld = 90)] *)
Definition deleteOldSessions (daysAgo : Z -> Z) (daysOld : option Z) (t : table)
  : nat * table :=
  let daysOld := match daysOld with Some d => d | None => 90 end in
  let cutoffDate := daysAgo daysOld in
  deleteMany (fun r => Z.ltb (loginTime r) cutoffDate) t.

End LoginSession.


(** ** Identities (models/User.js) *)

Inductive Role : Type := admin | employee.

Definition role_eqb (a b : Role) : bool :=
  match a, b with
  | admin, admin | employee, employee => true
  | _, _ => false
  end.

Definition role_name (r : Role) : string :=
  match r with admin => "admin" | employee => "employee" end.

Module User.

(** A row of the [user] table, keyed by its [id]. *)
Record row : Type := mkRow {
  name : string;
  email : string;
  phone : string;
  password : string;          (* the bcrypt hash *)
  role : Role;
  loginStartTime : option string;
  loginEndTime : option string;
  isActive : bool
}.

Abbreviation table := (gmap Z row).

(** [prisma.user.findUnique({ where: { id } })] *)
Definition findUniqueById (id : Z) (t : table) : option (Z * row) :=
  match t !! id with
  | Some r => Some (id, r)
  | None => None
  end.

(** [User.findByEmail(email)]: the column is unique, so the first match is
    the match. *)
Definition findByEmail (e : string) (t : table) : option (Z * row) :=
  head (filter (fun kr => email kr.2 = e) (map_to_list t)).

(** [User.findById(id)]: the row behind the selected columns. *)
Definition findById (id : Z) (t : table) : option (Z * row) :=
  findUniqueById id t.

(** [User.emailExists(email)] *)
Definition emailExists (e : string) (t : table) : bool :=
  match findByEmail e t with
  | Some _ => true
  | None => false
  end.

(** Auto-increment primary key: one more than the largest id in use. *)
Definition nextId (t : table) : Z :=
  foldr (fun kr acc => Z.max kr.1 acc) 0 (map_to_list t) + 1.

(** [User.create({ name, email, phone, password, role = "employee",
    loginStartTime, loginEndTime })].  [hash] is [bcrypt.hash] with the
    configured cost; [defaultIsActive] is the default of the [isActive]
    column, which the schema (not among the sources) fixes.  The [email]
    column is unique (the code looks rows up by it with [findUnique]), so
    Prisma raises P2002 for an email that is already stored. *)
Definition create (hash : string -> string) (defaultIsActive : bool)
    (name_ email_ phone_ password_ : string) (role_ : option Role)
    (loginStartTime_ loginEndTime_ : Js.value) (t : table)
  : result (Z * row) * table :=
  let hashedPassword := hash password_ in
  let r := {| name := name_; email := email_; phone := phone_;
              password := hashedPassword;
              role := match role_ with Some x => x | None => employee end;
              loginStartTime := Js.or_null loginStartTime_;
              loginEndTime := Js.or_null loginEndTime_;
              isActive := defaultIsActive |} in
  if emailExists email_ t then (Raise "P2002", t)
  else (Ok (nextId t, r), <[nextId t := r]> t).

(** A value of the [updates] object: a string, [null] or a boolean. *)
Inductive value : Type :=
| VStr (s : string)
| VNull
| VBool (b : bool).

Definition allowedFields : list string :=
  ["name"; "phone"; "role"; "loginStartTime"; "loginEndTime"; "isActive"].

Definition includes (l : list string) (key : string) : bool :=
  existsb (String.eqb key) l.

(** One field of [data] written to a row.  Prisma refuses a value that does
    not fit the column: [name] and [phone] hold strings, [role] one of the
    two role names, the two bounds a string or [null], [isActive] a
    boolean. *)
Definition setField (key : string) (v : value) (r : row) : option row :=
  if String.eqb key "name" then
    match v with
    | VStr s => Some {| name := s; email := email r; phone := phone r;
                        password := password r; role := role r;
                        loginStartTime := loginStartTime r;
                        loginEndTime := loginEndTime r; isActive := isActive r |}
    | _ => None
    end
  else if String.eqb key "phone" then
    match v with
    | VStr s => Some {| name := name r; email := email r; phone := s;
                        password := password r; role := role r;
                        loginStartTime := loginStartTime r;
                        loginEndTime := loginEndTime r; isActive := isActive r |}
    | _ => None
    end
  else if String.eqb key "role" then
    match v with
    | VStr s =>
        let set x := {| name := name r; email := email r; phone := phone r;
                        password := password r; role := x;
                        loginStartTime := loginStartTime r;
                        loginEndTime := loginEndTime r; isActive := isActive r |} in
        if String.eqb s "admin" then Some (set admin)
        else if String.eqb s "employee" then Some (set employee)
        else None
    | _ => None
    end
  else if String.eqb key "loginStartTime" then
    match v with
    | VStr s => Some {| name := name r; email := email r; phone := phone r;
                        password := password r; role := role r;
                        loginStartTime := Some s;
                        loginEndTime := loginEndTime r; isActive := isActive r |}
    | VNull => Some {| name := name r; email := email r; phone := phone r;
                       password := password r; role := role r;
                       loginStartTime := None;
                       loginEndTime := loginEndTime r; isActive := isActive r |}
    | VBool _ => None
    end
  else if String.eqb key "loginEndTime" then
    match v with
    | VStr s => Some {| name := name r; email := email r; phone := phone r;
                        password := password r; role := role r;
                        loginStartTime := loginStartTime r;
                        loginEndTime := Some s; isActive := isActive r |}
    | VNull => Some {| name := name r; email := email r; phone := phone r;
                       password := password r; role := role r;
                       loginStartTime := loginStartTime r;
                       loginEndTime := None; isActive := isActive r |}
    | VBool _ => None
    end
  else if String.eqb key "isActive" then
    match v with
    | VBool b => Some {| name := name r; email := email r; phone := phone r;
                         password := password r; role := role r;
                         loginStartTime := loginStartTime r;
                         loginEndTime := loginEndTime r; isActive := b |}
    | _ => None
    end
  else None.

(** All fields of [data] written to a row, or [None] when one is refused. *)
Fixpoint setFields (data : list (string * value)) (r : row) : option row :=
  match data with
  | [] => Some r
  | (key, v) :: rest =>
      match setField key v r with
      | Some r' => setFields rest r'
      | None => None
      end
  end.

(** [User.update(id, updates)]; [updates] is the list [Object.entries]
    gives.  Prisma raises P2025 when no row has that id. *)
Definition update (id : Z) (updates : list (string * value)) (t : table)
  : result (option (Z * row)) * table :=
  let data := List.filter (fun kv => includes allowedFields kv.1) updates in
  match data with
  | [] => (Ok None, t)
  | _ =>
      match t !! id with
      | None => (Raise "P2025", t)
      | Some r =>
          match setFields data r with
          | Some r' => (Ok (Some (id, r')), <[id := r']> t)
          | None => (Raise "PrismaClientValidationError", t)
          end
      end
  end.

(** [User.updatePassword(id, newPassword)] *)
Definition updatePassword (hash : string -> string) (id : Z)
    (newPassword : string) (t : table) : result bool * table :=
  let hashedPassword := hash newPassword in
  match t !! id with
  | None => (Raise "P2025", t)
  | Some r =>
      (Ok true,
       <[id := {| name := name r; email := email r; phone := phone r;
                  password := hashedPassword; role := role r;
                  loginStartTime := loginStartTime r;
                  loginEndTime := loginEndTime r; isActive := isActive r |}]> t)
  end.

(** [User.delete(id)]: the deleted row's id and email, or [null] when
    Prisma raised P2025. *)
Definition delete (id : Z) (t : table) : option (Z * string) * table :=
  match t !! id with
  | Some r => (Some (id, email r), base.delete id t)
  | None => (None, t)
  end.

End User.

(** ** HTTP responses and handler effects *)

#[local] Unset Elimination Schemes.
Inductive Json : Type :=
| JBool (b : bool)
| JString (s : string)
| JNum (z : Z)
| JNull
| JObj (fields : list (string * Json)).
#[local] Set Elimination Schemes.

Definition json_of_value (v : Js.value) : Json :=
  match v with
  | Js.Str s => JString s
  | _ => JNull
  end.

Definition json_of_column (c : option string) : Json :=
  json_of_value (Js.of_column c).

Record Response : Type := mkResponse {
  status : Z;
  body : list (string * Json)
}.

(** [res.status(code).json({ success: false, message })] *)
Definition failure (code : Z) (msg : string) : Response :=
  mkResponse code [("success", JBool false); ("message", JString msg)].

(** What a handler does that can be observed from outside it. *)
Inductive Event : Type :=
| JwtVerify (token : string)
| FindUserById (id : Z)
| FindUserByEmail (email : string)
| BcryptCompare (plain hash : string)
| CheckLoginTime (loginStartTime loginEndTime : Js.value)
| JwtSign (userId : Z)
| CreateSession (userId : Z).

Record World : Type := mkWorld {
  users : gmap Z User.row;
  sessions : gmap Z LoginSession.row;
  trace : list Event
}.

(** A step of a handler either goes on with a value, has sent the response
    (the [return res.status(..).json(..)] of the source), or has thrown an
    error with the given [name]. *)
Inductive Ctl (A : Type) : Type :=
| Value (a : A)
| Sent (r : Response)
| Thrown (name : string).
Arguments Value {A} a.
Arguments Sent {A} r.
Arguments Thrown {A} name.

Definition M (A : Type) : Type := World -> Ctl A * World.

Definition ret {A} (a : A) : M A := fun w => (Value a, w).

Definition bind {A B} (m : M A) (k : A -> M B) : M B :=
  fun w =>
    match m w with
    | (Value a, w') => k a w'
    | (Sent r, w') => (Sent r, w')
    | (Thrown e, w') => (Thrown e, w')
    end.

Definition send {A} (r : Response) : M A := fun w => (Sent r, w).

Definition throw {A} (name : string) : M A := fun w => (Thrown name, w).

Definition emit (e : Event) : M unit :=
  fun w => (Value tt, mkWorld (users w) (sessions w) (trace w ++ [e])).

Definition getUsers : M (gmap Z User.row) := fun w => (Value (users w), w).

Definition modifySessions {A}
    (f : gmap Z LoginSession.row -> A * gmap Z LoginSession.row) : M A :=
  fun w => let (a, s) := f (sessions w) in
           (Value a, mkWorld (users w) s (trace w)).

(** [try { m } catch (error) { handler(error.name) }] *)
Definition tryCatch {A} (m : M A) (handler : string -> M A) : M A :=
  fun w =>
    match m w with
    | (Thrown e, w') => handler e w'
    | other => other
    end.

Declare Scope handler_scope.
Delimit Scope handler_scope with handler.
Notation "x <- m ;; k" := (bind m (fun x => k))
  (at level 100, m at next level, right associativity) : handler_scope.
Notation "m ;; k" := (bind m (fun _ => k))
  (at level 100, right associativity) : handler_scope.
Local Open Scope handler_scope.

(** ** Requests *)

Record Claims : Type := mkClaims {
  claim_userId : Z;
  claim_email : string;
  claim_role : Role
}.

(** What [jwt.verify(token, secret)] does: it returns the decoded payload or
    throws an error whose [name] tells the kind ([TokenExpiredError],
    [JsonWebTokenError], ...). *)
Inductive JwtResult : Type :=
| Decoded (c : Claims)
| Throws (name : string).

(** [req.user] as [authenticateToken] leaves it: the selected columns. *)
Record AuthUser : Type := mkAuthUser {
  au_id : Z;
  au_name : string;
  au_email : string;
  au_phone : string;
  au_role : Role;
  au_loginStartTime : option string;
  au_loginEndTime : option string;
  au_isActive : bool
}.

Definition selectAuthUser (kr : Z * User.row) : AuthUser :=
  {| au_id := kr.1; au_name := User.name kr.2; au_email := User.email kr.2;
     au_phone := User.phone kr.2; au_role := User.role kr.2;
     au_loginStartTime := User.loginStartTime kr.2;
     au_loginEndTime := User.loginEndTime kr.2;
     au_isActive := User.isActive kr.2 |}.

(** [req.user]: nothing yet, the loaded identity, or (after [protect]) the
    id and role read from the token. *)
Inductive ReqUser : Type :=
| NoUser
| Loaded (u : AuthUser)
| FromToken (id : Z) (r : Role).

Definition reqUser_role (u : ReqUser) : option Role :=
  match u with
  | NoUser => None
  | Loaded a => Some (au_role a)
  | FromToken _ r => Some r
  end.

Definition reqUser_id (u : ReqUser) : option Z :=
  match u with
  | NoUser => None
  | Loaded a => Some (au_id a)
  | FromToken id _ => Some id
  end.

Record Request : Type := mkRequest {
  authorization : Js.value;       (* the Authorization header *)
  req_email : string;             (* req.body.email *)
  req_password : string;          (* req.body.password *)
  req_ip : Js.value;              (* req.ip || req.connection.remoteAddress *)
  req_userAgent : Js.value;       (* the User-Agent header *)
  req_user : ReqUser
}.

Definition setUser (u : ReqUser) (req : Request) : Request :=
  {| authorization := authorization req; req_email := req_email req;
     req_password := req_password req; req_ip := req_ip req;
     req_userAgent := req_userAgent req; req_user := u |}.

(** [authHeader && authHeader.split(" ")[1]] *)
Definition tokenOf (authHeader : Js.value) : Js.value :=
  if Js.truthy authHeader then
    match nth_error (Js.split " " (Js.to_string authHeader)) 1 with
    | Some t => Js.Str t
    | None => Js.Undefined
    end
  else authHeader.


(** ** Guards and the login controller *)

Section Handlers.

(** The collaborators outside the repository and the wall clock, as they
    answer during one request. *)
Variable jwt_verify : string -> JwtResult.      (* jwt.verify(token, JWT_SECRET) *)
Variable jwt_sign : Claims -> string.           (* jwt.sign(payload, JWT_SECRET, ..) *)
Variable bcrypt_compare : string -> string -> bool.
Variable clock : string.       (* new Date().toTimeString().slice(0, 8) *)
Variable timestamp : Z.        (* the time the database stamps rows with *)

(** [jwt.verify] as a handler step. *)
Definition verifyToken (token : string) : M Claims :=
  emit (JwtVerify token) ;;
  match jwt_verify token with
  | Decoded c => ret c
  | Throws name => throw name
  end.

(** The call of the evaluator from a handler. *)
Definition callCheckLoginTime (s e : option string) : M TimeCheck :=
  emit (CheckLoginTime (Js.of_column s) (Js.of_column e)) ;;
  ret (checkLoginTime clock (Js.of_column s) (Js.of_column e)).

(** A key whose value is [undefined] is left out by [res.json]. *)
Definition optField (key : string) (o : option string) : list (string * Json) :=
  match o with
  | Some v => [(key, JString v)]
  | None => []
  end.

(** ["Session expired: " + m] *)
Definition concatMessage (prefix : string) (m : option string) : string :=
  prefix ++ match m with Some x => x | None => "undefined" end.

(** [authenticateToken(req, res, next)]; a [Value] is the request handed to
    [next()]. *)
Definition authenticateToken (req : Request) : M Request :=
  tryCatch
    (let authHeader := authorization req in
     let token := tokenOf authHeader in
     if Js.not token then send (failure 401 "Access token required")
     else
       decoded <- verifyToken (Js.to_string token) ;;
       emit (FindUserById (claim_userId decoded)) ;;
       t <- getUsers ;;
       match User.findUniqueById (claim_userId decoded) t with
       | None => send (failure 401 "User not found")
       | Some kr =>
           let user := selectAuthUser kr in
           if negb (au_isActive user)
           then send (failure 403 "Account has been deactivated")
           else
             (if role_eqb (au_role user) employee then
                timeCheck <- callCheckLoginTime (au_loginStartTime user)
                                                (au_loginEndTime user) ;;
                if negb (allowed timeCheck)
                then send (mkResponse 403
                       ([("success", JBool false);
                         ("message", JString (concatMessage "Session expired: "
                                                (message timeCheck)))]
                        ++ optField "currentTime" (currentTime timeCheck)
                        ++ [("allowedStartTime",
                              json_of_column (au_loginStartTime user));
                            ("allowedEndTime",
                              json_of_column (au_loginEndTime user));
                            ("code", JString "OUTSIDE_ALLOWED_TIME")]))
                else ret tt
              else ret tt) ;;
             ret (setUser (Loaded user) req)
       end)
    (fun name =>
       if String.eqb name "TokenExpiredError"
       then send (failure 401 "Token has expired")
       else if String.eqb name "JsonWebTokenError"
       then send (failure 401 "Invalid token")
       else send (failure 500 "Internal server error")).

(** [isAdmin(req, res, next)] *)
Definition isAdmin (req : Request) : M Request :=
  match reqUser_role (req_user req) with
  | Some admin => ret req
  | Some employee => send (failure 403 "Admin access required")
  | None => throw "TypeError"
  end.

(** [protect(req, res, next)] *)
Definition protect (req : Request) : M Request :=
  tryCatch
    (let authHeader := authorization req in
     if Js.not authHeader
        || negb (Js.startsWith "Bearer " (Js.to_string authHeader))
     then send (mkResponse 401 [("message", JString "Unauthorized")])
     else
       decoded <-
         match nth_error (Js.split " " (Js.to_string authHeader)) 1 with
         | Some token => verifyToken token
         | None => throw "JsonWebTokenError"
         end ;;
       ret (setUser (FromToken (claim_userId decoded) (claim_role decoded)) req))
    (fun _ => send (mkResponse 401 [("message", JString "Invalid token")])).

(** [login(req, res)] of the auth controller. *)
Definition login (req : Request) : M unit :=
  tryCatch
    (let email := req_email req in
     let password := req_password req in
     let ipAddress := req_ip req in
     let userAgent := req_userAgent req in
     emit (FindUserByEmail email) ;;
     t <- getUsers ;;
     match User.findByEmail email t with
     | None => send (failure 401 "Invalid email or password")
     | Some (id, user) =>
         if negb (User.isActive user)
         then send (failure 403
                      "Account has been deactivated. Please contact admin.")
         else
           emit (BcryptCompare password (User.password user)) ;;
           if negb (bcrypt_compare password (User.password user))
           then send (failure 401 "Invalid email or password")
           else
             (if role_eqb (User.role user) employee then
                timeCheck <- callCheckLoginTime (User.loginStartTime user)
                                                (User.loginEndTime user) ;;
                if negb (allowed timeCheck)
                then send (mkResponse 403
                       ([("success", JBool false)]
                        ++ optField "message" (message timeCheck)
                        ++ optField "currentTime" (currentTime timeCheck)
                        ++ [("allowedStartTime",
                              json_of_column (User.loginStartTime user));
                            ("allowedEndTime",
                              json_of_column (User.loginEndTime user))]))
                else ret tt
              else ret tt) ;;
             emit (JwtSign id) ;;
             let token := jwt_sign (mkClaims id (User.email user) (User.role user)) in
             emit (CreateSession id) ;;
             modifySessions
               (LoginSession.create timestamp id ipAddress userAgent) ;;
             send (mkResponse 200
                     [("success", JBool true);
                      ("message", JString "Login successful");
                      ("data", JObj
                         [("token", JString token);
                          ("user", JObj
                             [("id", JNum id);
                              ("name", JString (User.name user));
                              ("email", JString (User.email user));
                              ("phone", JString (User.phone user));
                              ("role", JString (role_name (User.role user)));
                              ("loginStartTime",
                                json_of_column (User.loginStartTime user));
                              ("loginEndTime",
                                json_of_column (User.loginEndTime user))])])])
     end)
    (fun _ => send (failure 500 "Internal server error")).

(** [logout(req, res)] of the auth controller. *)
Definition logout (req : Request) : M unit :=
  tryCatch
    (match reqUser_id (req_user req) with
     | None => throw "TypeError"
     | Some id =>
         r <- modifySessions (LoginSession.endSession timestamp id) ;;
         match r with
         | Ok _ => send (mkResponse 200
                           [("success", JBool true);
                            ("message", JString "Logged out successfully")])
         | Raise e => throw e
         end
     end)
    (fun _ => send (failure 500 "Internal server error")).

(** *** Routes and their guards (routes/*.js) *)

Inductive Middleware : Type := MwAuthenticateToken | MwIsAdmin | MwProtect.

Inductive Route : Type :=
| AuthProfile | AuthLogout | AuthChangePassword | AuthRegister
| UsersList | UsersGet | UsersUpdate | UsersDelete
| UsersLoginHistory | UsersResetPassword
| LeadsCreate
| OrdersCreate | OrdersList | OrdersGet | OrdersStatus | OrdersDeliver
| OrdersRto.

Definition guardsOf (r : Route) : list Middleware :=
  match r with
  | AuthProfile | AuthLogout | AuthChangePassword => [MwAuthenticateToken]
  | AuthRegister => [MwAuthenticateToken; MwIsAdmin]
  | UsersList | UsersGet | UsersUpdate | UsersDelete
  | UsersLoginHistory | UsersResetPassword => [MwAuthenticateToken; MwIsAdmin]
  | LeadsCreate => [MwAuthenticateToken; MwIsAdmin]
  | OrdersCreate | OrdersList | OrdersGet | OrdersStatus | OrdersDeliver
  | OrdersRto => [MwProtect]
  end.

Definition runMiddleware (mw : Middleware) : Request -> M Request :=
  match mw with
  | MwAuthenticateToken => authenticateToken
  | MwIsAdmin => isAdmin
  | MwProtect => protect
  end.

(** Express runs the chain in order; a middleware that does not call
    [next()] ends it. *)
Fixpoint runChain (mws : list Middleware) (req : Request) : M Request :=
  match mws with
  | [] => ret req
  | mw :: rest => req' <- runMiddleware mw req ;; runChain rest req'
  end.

(** The guard of a route: a [Value] means the request reached the route's
    handler. *)
Definition guard (r : Route) (req : Request) : M Request :=
  runChain (guardsOf r) req.

End Handlers.


(** ** Account management (controllers/authController.js,
    controllers/userController.js, config/init-db.js) *)

(** The body of a registration request, as [registerValidation] lets it
    through: four strings, an optional role and the two optional bounds. *)
Record RegisterBody : Type := mkRegisterBody {
  rb_name : string;
  rb_email : string;
  rb_phone : string;
  rb_password : string;
  rb_role : option Role;
  rb_loginStartTime : Js.value;
  rb_loginEndTime : Js.value
}.

(** The body of an update request; [None] is a field that is missing
    ([undefined]). *)
Record UpdateBody : Type := mkUpdateBody {
  ub_name : option User.value;
  ub_phone : option User.value;
  ub_role : option User.value;
  ub_loginStartTime : option User.value;
  ub_loginEndTime : option User.value;
  ub_isActive : option User.value
}.

(** [v || null] on a value of the body. *)
Definition valueOrNull (v : User.value) : User.value :=
  match v with
  | User.VStr s => if String.eqb s "" then User.VNull else User.VStr s
  | User.VNull => User.VNull
  | User.VBool b => if b then User.VBool true else User.VNull
  end.

(** The [updates] object [updateUser] builds from the body. *)
Definition buildUpdates (b : UpdateBody) : list (string * User.value) :=
  (match ub_name b with Some v => [("name", v)] | None => [] end)
  ++ (match ub_phone b with Some v => [("phone", v)] | None => [] end)
  ++ (match ub_role b with Some v => [("role", v)] | None => [] end)
  ++ (match ub_loginStartTime b with
      | Some v => [("loginStartTime", valueOrNull v)] | None => [] end)
  ++ (match ub_loginEndTime b with
      | Some v => [("loginEndTime", valueOrNull v)] | None => [] end)
  ++ (match ub_isActive b with Some v => [("isActive", v)] | None => [] end).

Definition modifyUsers {A}
    (f : gmap Z User.row -> A * gmap Z User.row) : M A :=
  fun w => let (a, u) := f (users w) in
           (Value a, mkWorld u (sessions w) (trace w)).

(** Modelled from the spec: what deleting an identity does to its session
    records.  The schema is not among the sources; the data model says that
    a session lives on independently of its identity "except on cascade
    delete", so the sessions of a deleted identity go with it. *)
Definition cascadeSessions (id : Z) (ss : gmap Z LoginSession.row)
  : gmap Z LoginSession.row :=
  filter (fun kr => LoginSession.userId kr.2 <> id) ss.

(** [User.delete(id)] against the database. *)
Definition deleteIdentity (id : Z) : M (option (Z * string)) :=
  fun w =>
    match User.delete id (users w) with
    | (Some d, u) =>
        (Value (Some d), mkWorld u (cascadeSessions id (sessions w)) (trace w))
    | (None, u) => (Value None, mkWorld u (sessions w) (trace w))
    end.

Section Controllers.

(** The collaborators outside the repository. *)
Variable bcrypt_hash : string -> string.     (* bcrypt.hash(plain, saltRounds) *)
Variable bcrypt_compare : string -> string -> bool.
Variable parseInt : string -> option Z.      (* [None] is NaN *)
Variable userJson : Z * User.row -> Json.    (* the selected columns as JSON *)
Variable defaultIsActive : bool.             (* default of the isActive column *)

(** A step that raises what a storage call raised. *)
Definition orThrow {A} (r : result A) : M A :=
  match r with
  | Ok a => ret a
  | Raise e => throw e
  end.

(** [parseInt(id)] handed to Prisma as a key: NaN is refused. *)
Definition keyOf (id : string) : M Z :=
  match parseInt id with
  | Some k => ret k
  | None => throw "PrismaClientValidationError"
  end.

(** [register(req, res)] of the auth controller. *)
Definition register (b : RegisterBody) : M unit :=
  tryCatch
    (t <- getUsers ;;
     let existingUser := User.emailExists (rb_email b) t in
     if existingUser
     then send (failure 409 "User with this email already exists")
     else
       r <- modifyUsers
              (User.create bcrypt_hash defaultIsActive (rb_name b) (rb_email b)
                 (rb_phone b) (rb_password b) (rb_role b)
                 (rb_loginStartTime b) (rb_loginEndTime b)) ;;
       user <- orThrow r ;;
       send (mkResponse 201
               [("success", JBool true);
                ("message", JString "User registered successfully");
                ("data", userJson user)]))
    (fun _ => send (failure 500 "Internal server error")).

(** [changePassword(req, res)] of the auth controller. *)
Definition changePassword (currentPassword newPassword : Js.value)
    (req : Request) : M unit :=
  tryCatch
    (match req_user req with
     | Loaded u =>
         t <- getUsers ;;
         match User.findByEmail (au_email u) t with
         | None => throw "TypeError"
         | Some (_, user) =>
             match currentPassword with
             | Js.Str cur =>
                 let isPasswordValid := bcrypt_compare cur (User.password user) in
                 if negb isPasswordValid
                 then send (failure 400 "Current password is incorrect")
                 else
                   match newPassword with
                   | Js.Str new =>
                       r <- modifyUsers
                              (User.updatePassword bcrypt_hash (au_id u) new) ;;
                       orThrow r ;;
                       send (mkResponse 200
                               [("success", JBool true);
                                ("message", JString "Password changed successfully")])
                   | _ => throw "Error"
                   end
             | _ => throw "Error"
             end
         end
     | FromToken _ _ => throw "PrismaClientValidationError"
     | NoUser => throw "TypeError"
     end)
    (fun _ => send (failure 500 "Internal server error")).

(** [updateUser(req, res)] of the user controller. *)
Definition updateUser (id : string) (b : UpdateBody) : M unit :=
  tryCatch
    (k <- keyOf id ;;
     t <- getUsers ;;
     match User.findById k t with
     | None => send (failure 404 "User not found")
     | Some _ =>
         let updates := buildUpdates b in
         match updates with
         | [] => send (failure 400 "No fields to update")
         | _ =>
             r <- modifyUsers (User.update k updates) ;;
             user <- orThrow r ;;
             send (mkResponse 200
                     [("success", JBool true);
                      ("message", JString "User updated successfully");
                      ("data", match user with
                               | Some u => userJson u
                               | None => JNull
                               end)])
         end
     end)
    (fun _ => send (failure 500 "Internal server error")).

(** [deleteUser(req, res)] of the user controller. *)
Definition deleteUser (id : string) (req : Request) : M unit :=
  tryCatch
    (match reqUser_id (req_user req) with
     | None => throw "TypeError"
     | Some me =>
         if match parseInt id with Some k => Z.eqb k me | None => false end
         then send (failure 400 "Cannot delete your own account")
         else
           k <- keyOf id ;;
           deletedUser <- deleteIdentity k ;;
           match deletedUser with
           | None => send (failure 404 "User not found")
           | Some (did, demail) =>
               send (mkResponse 200
                       [("success", JBool true);
                        ("message", JString "User deleted successfully");
                        ("data", JObj [("id", JNum did);
                                       ("email", JString demail)])])
           end
     end)
    (fun _ => send (failure 500 "Internal server error")).

(** [resetUserPassword(req, res)] of the user controller. *)
Definition resetUserPassword (id : string) (newPassword : Js.value) : M unit :=
  tryCatch
    (if Js.not newPassword
        || Nat.ltb (Js.length (Js.to_string newPassword)) 6
     then send (failure 400 "New password must be at least 6 characters long")
     else
       k <- keyOf id ;;
       t <- getUsers ;;
       match User.findById k t with
       | None => send (failure 404 "User not found")
       | Some _ =>
           r <- modifyUsers
                  (User.updatePassword bcrypt_hash k (Js.to_string newPassword)) ;;
           orThrow r ;;
           send (mkResponse 200
                   [("success", JBool true);
                    ("message", JString "Password reset successfully")])
       end)
    (fun _ => send (failure 500 "Internal server error")).

(** [seedAdminUser()]: a [Thrown] is the error it throws again. *)
Definition seedAdminUser : M unit :=
  t <- getUsers ;;
  match User.findByEmail "admin@fbs.com" t with
  | None =>
      r <- modifyUsers
             (User.create bcrypt_hash defaultIsActive "Admin User"
                "admin@fbs.com" "9999999999" "admin123" (Some admin)
                Js.Undefined Js.Undefined) ;;
      orThrow r ;;
      ret tt
  | Some _ => ret tt
  end.

(** [initializeDatabase()], given [process.env.SEED_ADMIN]. *)
Definition initializeDatabase (SEED_ADMIN : Js.value) : M unit :=
  match SEED_ADMIN with
  | Js.Str s => if String.eqb s "true" then seedAdminUser else ret tt
  | _ => ret tt
  end.

End Controllers.


(** ** Orders (models/Orders.js, controllers/order.controller.js) *)

Module Order.

(** A row of the [order] table as far as the functions below read or write
    it: the assignment and the status.  [details] stands for the columns
    they carry along unread (customer, amounts, items and the like). *)
Record row (D : Type) : Type := mkRow {
  assignedToId : option Z;
  status : string;
  details : D
}.
Arguments mkRow {D} assignedToId status details.
Arguments assignedToId {D} r.
Arguments status {D} r.
Arguments details {D} r.

(** A row of the [orderStatusLog] table. *)
Record log : Type := mkLog {
  orderId : Z;
  logStatus : string;
  note : option string;
  createdAt : Z
}.

(** The two tables; the log rows in the order they were inserted. *)
Record store (D : Type) : Type := mkStore {
  orders : gmap Z (row D);
  statusLogs : list log
}.
Arguments mkStore {D} orders statusLogs.
Arguments orders {D} s.
Arguments statusLogs {D} s.

Definition withStatus {D} (s : string) (o : row D) : row D :=
  mkRow (assignedToId o) s (details o).

(** [Order.findById(id)]: Prisma refuses NaN as a key. *)
Definition findById {D} (parseInt : string -> option Z) (id : string)
    (s : store D) : result (option (Z * row D)) :=
  match parseInt id with
  | None => Raise "PrismaClientValidationError"
  | Some k =>
      Ok (match orders s !! k with
          | Some o => Some (k, o)
          | None => None
          end)
  end.

(** [Order.updateStatus(orderId, status, note)]: the update of the order
    and the new log row are one transaction, so either both are written or
    neither.  [column status] is what Prisma makes of the value handed in
    for the [status] column, [None] when it refuses it (the schema, which
    is not among the sources, decides); P2025 is the update of a row that
    does not exist. *)
Definition updateStatus {D} (parseInt : string -> option Z)
    (column : Js.value -> option string) (now : Z)
    (orderId_ : string) (status_ note_ : Js.value) (s : store D)
  : result unit * store D :=
  match parseInt orderId_ with
  | None => (Raise "PrismaClientValidationError", s)
  | Some k =>
      match column status_ with
      | None => (Raise "PrismaClientValidationError", s)
      | Some st =>
          match orders s !! k with
          | None => (Raise "P2025", s)
          | Some o =>
              (Ok tt,
               mkStore (<[k := withStatus st o]> (orders s))
                 (statusLogs s ++ [mkLog k st (Js.or_null note_) now]))
          end
      end
  end.

(** [Order.markDelivered(orderId)] *)
Definition markDelivered {D} (parseInt : string -> option Z)
    (column : Js.value -> option string) (now : Z) (orderId_ : string)
    (s : store D) : result unit * store D :=
  updateStatus parseInt column now orderId_ (Js.Str "delivered")
    (Js.Str "Order delivered") s.

End Order.

Section OrderControllers.

Variable D : Type.
Variable parseInt : string -> option Z.
Variable column : Js.value -> option string.
Variable orderJson : Z * Order.row D -> Json.   (* the order with its relations *)
Variable now : Z.                               (* the time the rows are stamped with *)

(** [getOrderById(req, res, next)]; a [Thrown] is the error handed to
    [next]. *)
Definition getOrderById (id : string) (req : Request) (s : Order.store D)
  : Ctl unit :=
  match Order.findById parseInt id s with
  | Raise e => Thrown e
  | Ok None => Sent (failure 404 "Order not found")
  | Ok (Some (k, order)) =>
      match reqUser_role (req_user req), reqUser_id (req_user req) with
      | Some role, Some uid =>
          if role_eqb role employee
             && negb (bool_decide (Order.assignedToId order = Some uid))
          then Sent (failure 403 "Access denied")
          else Sent (mkResponse 200
                       [("success", JBool true);
                        ("data", orderJson (k, order))])
      | _, _ => Thrown "TypeError"
      end
  end.

(** [updateOrderStatus(req, res, next)] *)
Definition updateOrderStatus (id : string) (status note : Js.value)
    (req : Request) (s : Order.store D) : Ctl unit * Order.store D :=
  match Order.updateStatus parseInt column now id status note s with
  | (Ok _, s') =>
      (Sent (mkResponse 200
               [("success", JBool true);
                ("message", JString "Order status updated")]), s')
  | (Raise e, s') => (Thrown e, s')
  end.

(** [markDelivered(req, res, next)] *)
Definition markDelivered (id : string) (req : Request) (s : Order.store D)
  : Ctl unit * Order.store D :=
  match Order.markDelivered parseInt column now id s with
  | (Ok _, s') =>
      (Sent (mkResponse 200
               [("success", JBool true);
                ("message", JString "Order marked as delivered")]), s')
  | (Raise e, s') => (Thrown e, s')
  end.

End OrderControllers.


(** ** Vocabulary of the properties *)

(** A bound that is absent or empty. *)
Definition absent (v : Js.value) : Prop :=
  v = Js.Undefined \/ v = Js.Null \/ v = Js.Str "".

(** An open session of identity [uid]: one whose [logoutTime] is null. *)
Definition openFor (uid : Z) (r : LoginSession.row) : Prop :=
  LoginSession.userId r = uid /\ LoginSession.logoutTime r = None.

(** A session record is consistent when it is valid exactly as long as it
    has no logout time. *)
Definition consistent (r : LoginSession.row) : Prop :=
  LoginSession.isValid r = true <-> LoginSession.logoutTime r = None.

Definition allConsistent (t : gmap Z LoginSession.row) : Prop :=
  forall id r, t !! id = Some r -> consistent r.

(** A record ended at time [now]. *)
Definition endedAt (now : Z) (r : LoginSession.row) : Prop :=
  LoginSession.logoutTime r = Some now /\ LoginSession.isValid r = false.


(** The world a request starts in: the two tables and an empty trace. *)
Definition fresh (us : gmap Z User.row) (ss : gmap Z LoginSession.row) : World :=
  mkWorld us ss [].

(** The failures of the Access Guard, the kind each is reported as, and
    the HTTP status of a kind. *)
Inductive GuardFailure : Type :=
| MissingToken
| ExpiredToken
| InvalidToken
| UnknownSubject
| AccountDeactivated
| OutsideAllowedWindow.

Inductive Kind : Type := Unauthenticated | Forbidden.

Definition kindOf (f : GuardFailure) : Kind :=
  match f with
  | MissingToken | ExpiredToken | InvalidToken | UnknownSubject => Unauthenticated
  | AccountDeactivated | OutsideAllowedWindow => Forbidden
  end.

Definition httpStatus (k : Kind) : Z :=
  match k with Unauthenticated => 401 | Forbidden => 403 end.

(** The position of the check that reports a failure: token presence (1),
    token validity (2), identity load (3), [isActive] (4), time window (5). *)
Definition stepOf (f : GuardFailure) : nat :=
  match f with
  | MissingToken => 1
  | ExpiredToken | InvalidToken => 2
  | UnknownSubject => 3
  | AccountDeactivated => 4
  | OutsideAllowedWindow => 5
  end.

Definition field (key : string) (r : Response) : option Json :=
  snd <$> head (filter (fun kv => kv.1 = key) (body r)).

(** The response that reports a failure. *)
Definition reports (f : GuardFailure) (r : Response) : Prop :=
  match f with
  | MissingToken => r = failure 401 "Access token required"
  | ExpiredToken => r = failure 401 "Token has expired"
  | InvalidToken => r = failure 401 "Invalid token"
  | UnknownSubject => r = failure 401 "User not found"
  | AccountDeactivated => r = failure 403 "Account has been deactivated"
  | OutsideAllowedWindow =>
      status r = 403 /\
      field "code" r = Some (JString "OUTSIDE_ALLOWED_TIME") /\
      exists m, field "message" r = Some (JString ("Session expired: " ++ m))
  end.

(** What one run of [authenticateToken] comes to: one of the failures it
    reports, the identity it attaches to the request, or the catch-all
    answer for an error it has no branch for. *)
Inductive Verdict : Type :=
| Fails (f : GuardFailure)
| Passes (u : AuthUser)
| Crashes (name : string).

(** The run of [authenticateToken] written as a decision list, branch by
    branch as the source has them: the [try] block top down, then the
    [catch] block, whose two tests of [error.name] leave every other error
    to the last answer ([Crashes]).  The second component is the list of
    collaborators consulted, in order. *)
Definition authenticateTokenSteps (jwt_verify : string -> JwtResult) (clock : string)
    (us : gmap Z User.row) (authHeader : Js.value) : Verdict * list Event :=
  match tokenOf authHeader with
  | Js.Str (String c tok') =>
      let tok := String c tok' in
      match jwt_verify tok with
      | Throws name =>
          (if String.eqb name "TokenExpiredError" then Fails ExpiredToken
           else if String.eqb name "JsonWebTokenError" then Fails InvalidToken
           else Crashes name,
           [JwtVerify tok])
      | Decoded c =>
          let id := claim_userId c in
          match us !! id with
          | None => (Fails UnknownSubject, [JwtVerify tok; FindUserById id])
          | Some u =>
              if negb (User.isActive u)
              then (Fails AccountDeactivated, [JwtVerify tok; FindUserById id])
              else
                let s := Js.of_column (User.loginStartTime u) in
                let e := Js.of_column (User.loginEndTime u) in
                match User.role u with
                | admin =>
                    (Passes (selectAuthUser (id, u)),
                     [JwtVerify tok; FindUserById id])
                | employee =>
                    (if allowed (checkLoginTime clock s e)
                     then Passes (selectAuthUser (id, u))
                     else Fails OutsideAllowedWindow,
                     [JwtVerify tok; FindUserById id; CheckLoginTime s e])
                end
          end
      end
  | _ => (Fails MissingToken, [])
  end.

(** How a run of [authenticateToken] shows a verdict. *)
Definition shows (req : Request) (v : Verdict) (c : Ctl Request) : Prop :=
  match v with
  | Fails f => exists r, c = Sent r /\ reports f r
  | Passes u => c = Value (setUser (Loaded u) req)
  | Crashes _ => c = Sent (failure 500 "Internal server error")
  end.

(** What the specification lets a run of the Access Guard come to: one of
    the listed failures, or the identity attached to the request. *)
Inductive Outcome : Type :=
| Refused (f : GuardFailure)
| Granted (u : AuthUser).

(** The Access Guard as the specification lists it (section 4.5): five
    checks in a fixed order, the first failure ends the run; an expired
    token is reported as expired and every other validation failure as an
    invalid token.  The token is taken from the header the way the code
    takes it.  The second component is the list of collaborators
    consulted, in order. *)
Definition accessGuardSteps (jwt_verify : string -> JwtResult) (clock : string)
    (us : gmap Z User.row) (authHeader : Js.value) : Outcome * list Event :=
  match tokenOf authHeader with
  | Js.Str (String c tok') =>
      let tok := String c tok' in
      match jwt_verify tok with
      | Throws name =>
          (Refused (if String.eqb name "TokenExpiredError"
                    then ExpiredToken else InvalidToken),
           [JwtVerify tok])
      | Decoded c =>
          let id := claim_userId c in
          match us !! id with
          | None => (Refused UnknownSubject, [JwtVerify tok; FindUserById id])
          | Some u =>
              if negb (User.isActive u)
              then (Refused AccountDeactivated,
                    [JwtVerify tok; FindUserById id])
              else
                let s := Js.of_column (User.loginStartTime u) in
                let e := Js.of_column (User.loginEndTime u) in
                match User.role u with
                | admin =>
                    (Granted (selectAuthUser (id, u)),
                     [JwtVerify tok; FindUserById id])
                | employee =>
                    (if allowed (checkLoginTime clock s e)
                     then Granted (selectAuthUser (id, u))
                     else Refused OutsideAllowedWindow,
                     [JwtVerify tok; FindUserById id; CheckLoginTime s e])
                end
          end
      end
  | _ => (Refused MissingToken, [])
  end.

(** A run of the guard that answers as the specification's outcome says. *)
Definition answers (req : Request) (o : Outcome) (c : Ctl Request) : Prop :=
  match o with
  | Refused f => exists r, c = Sent r /\ reports f r
  | Granted u => c = Value (setUser (Loaded u) req)
  end.

(** A verifier for the examples that knows one more token: signed, not
    expired, and not valid yet. *)
Definition exampleVerifyEarly (token : string) : JwtResult :=
  if String.eqb token "early-token-of-7" then Throws "NotBeforeError"
  else Throws "JsonWebTokenError".

(** A small environment for the examples: four tokens and their fate. *)
Definition exampleVerify (token : string) : JwtResult :=
  if String.eqb token "token-of-7"
  then Decoded (mkClaims 7 "asha@fbs.com" employee)
  else if String.eqb token "token-of-1"
  then Decoded (mkClaims 1 "admin@fbs.com" admin)
  else if String.eqb token "old-token-of-7"
  then Throws "TokenExpiredError"
  else Throws "JsonWebTokenError".

Definition exampleUsers (active : bool) : gmap Z User.row :=
  <[7 := User.mkRow "Asha" "asha@fbs.com" "9999999999" "$2a$12$hash" employee
           (Some "09:00:00") (Some "18:00:00") active]>
    (<[1 := User.mkRow "Admin User" "admin@fbs.com" "9999999999" "$2a$12$adm"
              admin None None true]> ∅).

(** An administrator who happens to have bounds stored. *)
Definition exampleAdmins : gmap Z User.row :=
  <[1 := User.mkRow "Admin User" "admin@fbs.com" "9999999999" "$2a$12$adm"
           admin (Some "09:00:00") (Some "10:00:00") true]> ∅.

Definition exampleRequest (authHeader : Js.value) : Request :=
  mkRequest authHeader "" "" Js.Undefined Js.Undefined NoUser.


(** The time [h:m:s] in seconds after midnight. *)
Definition secondsAfterMidnight (h m s : nat) : nat :=
  (3600 * h + 60 * m + s)%nat.


(** No two identities share an email (the unique index of the column). *)
Definition uniqueEmails (t : gmap Z User.row) : Prop :=
  forall i j r1 r2,
    t !! i = Some r1 -> t !! j = Some r2 ->
    User.email r1 = User.email r2 -> i = j.

(** A row with another password hash and everything else as before. *)
Definition withPassword (h : string) (r : User.row) : User.row :=
  {| User.name := User.name r; User.email := User.email r;
     User.phone := User.phone r; User.password := h;
     User.role := User.role r;
     User.loginStartTime := User.loginStartTime r;
     User.loginEndTime := User.loginEndTime r;
     User.isActive := User.isActive r |}.

(** A row with another [isActive] and everything else as before. *)
Definition withActive (b : bool) (r : User.row) : User.row :=
  {| User.name := User.name r; User.email := User.email r;
     User.phone := User.phone r; User.password := User.password r;
     User.role := User.role r;
     User.loginStartTime := User.loginStartTime r;
     User.loginEndTime := User.loginEndTime r;
     User.isActive := b |}.

(** A string without a space. *)
Definition spaceFree (s : string) : Prop :=
  forall i, String.get i s <> Some " "%char.


(** The row a registration stores. *)
Definition registeredRow (hash : string -> string) (defaultIsActive : bool)
    (b : RegisterBody) : User.row :=
  {| User.name := rb_name b; User.email := rb_email b;
     User.phone := rb_phone b; User.password := hash (rb_password b);
     User.role := match rb_role b with Some x => x | None => employee end;
     User.loginStartTime := Js.or_null (rb_loginStartTime b);
     User.loginEndTime := Js.or_null (rb_loginEndTime b);
     User.isActive := defaultIsActive |}.

(** An update body with nothing in it. *)
Definition emptyBody : UpdateBody := mkUpdateBody None None None None None None.

(** A login request with these credentials. *)
Definition credentials (email password : string) : Request :=
  mkRequest Js.Undefined email password Js.Undefined Js.Undefined NoUser.

(** Collaborators for the examples: a hash that can be recognised, the
    comparison that goes with it, the decimal reading of an id (anything
    else is NaN), the id as the JSON of a row, and a clock that counts
    days. *)
Definition exampleHash (plain : string) : string := "$2a$12$" ++ plain.

Definition exampleCompare (plain hash : string) : bool :=
  String.eqb hash (exampleHash plain).

Definition exampleParseInt (s : string) : option Z :=
  if String.eqb s "" then None else decimal 0 s.

Definition exampleJson (kr : Z * User.row) : Json := JNum kr.1.

Definition exampleDaysAgo (days : Z) : Z := 100 - days.

(** The employee of the examples, and the request of a caller who is
    already identified. *)
Definition exampleEmployee (active : bool) : User.row :=
  User.mkRow "Asha" "asha@fbs.com" "9999999999" "$2a$12$hash" employee
    (Some "09:00:00") (Some "18:00:00") active.

Definition requestOf (u : ReqUser) : Request :=
  mkRequest Js.Undefined "" "" Js.Undefined Js.Undefined u.


Definition exampleColumn (v : Js.value) : option string :=
  match v with
  | Js.Str s => Some s
  | _ => None
  end.


(** Two sessions of identity 7: one that has ended and one that is open. *)
Definition exampleSessions : gmap Z LoginSession.row :=
  <[2 := LoginSession.defaults 95 7 None None]>
    (<[1 := LoginSession.close 40 (LoginSession.defaults 10 7 None None)]> ∅).


(** * Properties *)

(** ** The string order of the evaluator *)

Lemma ascii_compare_lt (c d : ascii) :
  Ascii.compare c d = Lt <-> (N_of_ascii c < N_of_ascii d)%N.
Proof. unfold Ascii.compare. apply N.compare_lt_iff. Qed.

Lemma ascii_compare_refl (c : ascii) : Ascii.compare c c = Eq.
Proof. unfold Ascii.compare. apply N.compare_refl. Qed.

Lemma ascii_compare_eq (c d : ascii) : Ascii.compare c d = Eq -> c = d.
Proof. apply Ascii.compare_eq_iff. Qed.

Lemma string_compare_refl (s : string) : String.compare s s = Eq.
Proof.
  induction s as [|c s IH]; simpl; [reflexivity|].
  now rewrite ascii_compare_refl.
Qed.

Lemma string_compare_lt (a b : string) :
  String.compare a b = Lt <-> lex_lt a b.
Proof.
  revert b. induction a as [|c a IH]; intros [|d b]; simpl.
  - split; [discriminate | inversion 1].
  - split; [constructor | reflexivity].
  - split; [discriminate | inversion 1].
  - destruct (Ascii.compare c d) eqn:E.
    + apply ascii_compare_eq in E. subst d. rewrite IH. split.
      * apply lex_lt_tail.
      * inversion 1; subst; [lia | assumption].
    + apply ascii_compare_lt in E. split; [intros _; now constructor | reflexivity].
    + split; [discriminate|]. intros H.
      assert (Ascii.compare c d <> Gt) as Hn; [|congruence].
      inversion H; subst.
      * match goal with H : (_ < _)%N |- _ => apply ascii_compare_lt in H; congruence end.
      * rewrite ascii_compare_refl. discriminate.
Qed.

Lemma string_compare_gt (a b : string) :
  String.compare a b = Gt <-> lex_lt b a.
Proof.
  rewrite <- string_compare_lt, (String.compare_antisym b a).
  destruct (String.compare a b); simpl; split; congruence.
Qed.

Lemma string_compare_eq (a b : string) :
  String.compare a b = Eq <-> a = b.
Proof.
  split; [apply String.compare_eq_iff|]. intros ->. apply string_compare_refl.
Qed.

Lemma lex_lt_irrefl (a : string) : ~ lex_lt a a.
Proof.
  rewrite <- string_compare_lt, string_compare_refl. discriminate.
Qed.

Lemma lex_lt_asym (a b : string) : lex_lt a b -> ~ lex_lt b a.
Proof.
  rewrite <- string_compare_lt, <- string_compare_gt. congruence.
Qed.

Lemma lex_le_antisym (a b : string) : lex_le a b -> lex_le b a -> a = b.
Proof.
  intros [->|H1] [E|H2]; auto. now destruct (lex_lt_asym _ _ H1).
Qed.

Lemma lex_total (a b : string) : lex_le a b \/ lex_lt b a.
Proof.
  destruct (String.compare a b) eqn:E.
  - left; left. now apply string_compare_eq.
  - left; right. now apply string_compare_lt.
  - right. now apply string_compare_gt.
Qed.

Lemma js_le_iff (a b : string) : Js.le a b = true <-> lex_le a b.
Proof.
  unfold Js.le, lex_le.
  rewrite <- string_compare_lt, <- string_compare_eq.
  destruct (String.compare a b); intuition congruence.
Qed.

Lemma js_ge_iff (a b : string) : Js.ge a b = true <-> lex_le b a.
Proof.
  unfold Js.ge, lex_le.
  rewrite <- string_compare_gt, <- (string_compare_eq b a).
  rewrite (String.compare_antisym b a).
  destruct (String.compare a b); simpl; intuition congruence.
Qed.

Lemma js_gt_iff (a b : string) : Js.gt a b = true <-> lex_lt b a.
Proof.
  unfold Js.gt. rewrite <- string_compare_gt.
  destruct (String.compare a b); intuition congruence.
Qed.

Lemma js_gt_false_iff (a b : string) : Js.gt a b = false <-> lex_le a b.
Proof.
  rewrite <- js_le_iff. unfold Js.gt, Js.le.
  destruct (String.compare a b); intuition congruence.
Qed.

Lemma truthy_str (s : string) : s <> "" -> Js.truthy (Js.Str s) = true.
Proof.
  intros H. simpl. apply negb_true_iff. now apply String.eqb_neq.
Qed.

(** ** Time Window Evaluator *)

(** What the evaluator answers for two present bounds, as booleans. *)
Lemma checkLoginTime_present (now start end_ : string) :
  start <> "" -> end_ <> "" ->
  allowed (checkLoginTime now (Js.Str start) (Js.Str end_)) =
    if Js.gt start end_
    then Js.ge now start || Js.le now end_
    else Js.ge now start && Js.le now end_.
Proof.
  intros Hs He. unfold checkLoginTime, Js.not.
  rewrite !truthy_str by assumption. simpl.
  destruct (Js.gt start end_);
    [destruct (Js.ge now start || Js.le now end_)
    |destruct (Js.ge now start && Js.le now end_)]; reflexivity.
Qed.

(** C1. For present bounds [start], [end_] and any current time [now],
    compared as strings: when [start <= end_] the evaluator allows exactly
    when [start <= now <= end_]; when [start > end_] it allows exactly when
    [now >= start] or [now <= end_]; both ends are inclusive, and a window
    with [start = end_] allows exactly [now = start]. *)
Theorem checkLoginTime_window (start end_ now : string) :
  start <> "" -> end_ <> "" ->
  let ok := allowed (checkLoginTime now (Js.Str start) (Js.Str end_)) in
  (lex_le start end_ -> (ok = true <-> lex_le start now /\ lex_le now end_)) /\
  (lex_lt end_ start -> (ok = true <-> lex_le start now \/ lex_le now end_)) /\
  (start = end_ -> (ok = true <-> now = start)).
Proof.
  intros Hs He ok. subst ok. rewrite checkLoginTime_present by assumption.
  split; [|split].
  - intros Hle. apply js_gt_false_iff in Hle. rewrite Hle.
    now rewrite andb_true_iff, js_ge_iff, js_le_iff.
  - intros Hlt. apply js_gt_iff in Hlt. rewrite Hlt.
    now rewrite orb_true_iff, js_ge_iff, js_le_iff.
  - intros <-.
    assert (Js.gt start start = false) as ->
      by (apply js_gt_false_iff; now left).
    rewrite andb_true_iff, js_ge_iff, js_le_iff. split.
    + intros [H1 H2]. now apply lex_le_antisym.
    + intros ->. split; now left.
Qed.

Lemma checkLoginTime_window_witness :
  "09:00:00" <> "" /\ "18:00:00" <> "" /\
  (allowed (checkLoginTime "18:00:00" (Js.Str "09:00:00") (Js.Str "18:00:00"))
     = true <-> lex_le "09:00:00" "18:00:00" /\ lex_le "18:00:00" "18:00:00").
Proof.
  split; [discriminate|]. split; [discriminate|].
  apply (proj1 (checkLoginTime_window "09:00:00" "18:00:00" "18:00:00"
                  ltac:(discriminate) ltac:(discriminate))).
  apply js_le_iff. reflexivity.
Defined.

(** The concrete windows the specification lists. *)
Example day_window_start :
  allowed (checkLoginTime "09:00:00" (Js.Str "09:00:00") (Js.Str "18:00:00")) = true.
Proof. reflexivity. Qed.

Example day_window_after :
  allowed (checkLoginTime "18:00:01" (Js.Str "09:00:00") (Js.Str "18:00:00")) = false.
Proof. reflexivity. Qed.

Example day_window_before :
  allowed (checkLoginTime "08:59:59" (Js.Str "09:00:00") (Js.Str "18:00:00")) = false.
Proof. reflexivity. Qed.

Example evening_window :
  allowed (checkLoginTime "21:00:00" (Js.Str "20:00:00") (Js.Str "23:00:00")) = true
  /\ allowed (checkLoginTime "19:59:59" (Js.Str "20:00:00") (Js.Str "23:00:00")) = false
  /\ allowed (checkLoginTime "23:00:01" (Js.Str "20:00:00") (Js.Str "23:00:00")) = false.
Proof. repeat split. Qed.

Example overnight_window :
  allowed (checkLoginTime "23:30:00" (Js.Str "22:00:00") (Js.Str "06:00:00")) = true
  /\ allowed (checkLoginTime "06:00:00" (Js.Str "22:00:00") (Js.Str "06:00:00")) = true
  /\ allowed (checkLoginTime "12:00:00" (Js.Str "22:00:00") (Js.Str "06:00:00")) = false.
Proof. repeat split. Qed.

(** The falsy values are exactly [undefined], [null] and [""]. *)
Lemma truthy_false_iff (v : Js.value) : Js.truthy v = false <-> absent v.
Proof.
  unfold absent. destruct v as [| |s]; simpl.
  - intuition.
  - intuition.
  - rewrite negb_false_iff, String.eqb_eq. split.
    + intros ->. auto.
    + intros [H|[H|H]]; try discriminate. now inversion H.
Qed.

(** C9. When either bound is absent or empty ([undefined], [null] or the
    empty string), also when only one of them is, the evaluator allows,
    whatever the current time and the other bound, and reports no error. *)
Theorem checkLoginTime_unrestricted (now : string) (s e : Js.value) :
  absent s \/ absent e ->
  checkLoginTime now s e = mkTimeCheck true None None /\
  allowed (checkLoginTime now s e) = true.
Proof.
  intros H.
  assert (checkLoginTime now s e = mkTimeCheck true None None) as ->;
    [|split; reflexivity].
  unfold checkLoginTime, Js.not.
  destruct H as [H|H]; apply truthy_false_iff in H; rewrite H; simpl;
    [reflexivity|].
  now rewrite orb_true_r.
Qed.

Lemma checkLoginTime_unrestricted_witness :
  (absent (Js.Str "09:00:00") \/ absent Js.Null) /\
  allowed (checkLoginTime "23:59:59" (Js.Str "09:00:00") Js.Null) = true.
Proof.
  split; [right; right; left; reflexivity|].
  apply (checkLoginTime_unrestricted "23:59:59" (Js.Str "09:00:00") Js.Null).
  right; right; left; reflexivity.
Defined.

(** ** Session Tracker *)

Section SessionTracker.

Import LoginSession.

Implicit Types (t : gmap Z row) (r : row) (x y : record) (l : list record).

Lemma latest_None l : latest l = None <-> l = [].
Proof.
  destruct l as [|x l]; simpl; [tauto|].
  split; [|discriminate].
  destruct (latest l) as [y|]; [|discriminate].
  destruct (Z.ltb _ _); discriminate.
Qed.

Lemma latest_Some l x :
  latest l = Some x ->
  x ∈ l /\ forall y, y ∈ l -> loginTime y.2 <= loginTime x.2.
Proof.
  revert x. induction l as [|a l IH]; intros x; simpl; [discriminate|].
  destruct (latest l) as [b|] eqn:E.
  - destruct (IH b eq_refl) as [Hb Hmax].
    destruct (Z.ltb_spec (loginTime b.2) (loginTime a.2)) as [Hlt|Hge];
      intros [= <-]; split.
    + left.
    + intros y [->|Hy]%elem_of_cons; [lia|]. specialize (Hmax y Hy). lia.
    + now right.
    + intros y [->|Hy]%elem_of_cons; [lia|]. now apply Hmax.
  - apply latest_None in E. subst l. intros [= <-]. split; [left|].
    intros y [->|Hy]%elem_of_cons; [lia|]. now apply elem_of_nil in Hy.
Qed.

Lemma findFirst_Some (where_ : row -> bool) t id r :
  findFirst where_ t = Some (id, r) ->
  t !! id = Some r /\ where_ r = true /\
  forall id' r', t !! id' = Some r' -> where_ r' = true ->
                 loginTime r' <= loginTime r.
Proof.
  unfold findFirst. intros H. apply latest_Some in H as [Hin Hmax].
  apply list_elem_of_filter in Hin as [Hw Hin]. simpl in Hw.
  apply elem_of_map_to_list in Hin. repeat split; try assumption.
  intros id' r' Hl Hw'. apply (Hmax (id', r')).
  apply list_elem_of_filter. split; [exact Hw'|].
  now apply elem_of_map_to_list.
Qed.

Lemma findFirst_None (where_ : row -> bool) t :
  findFirst where_ t = None <->
  forall id r, t !! id = Some r -> where_ r = false.
Proof.
  unfold findFirst. rewrite latest_None. split.
  - intros H id r Hl. destruct (where_ r) eqn:E; [|reflexivity].
    assert ((id, r) ∈ filter (fun kr => where_ kr.2 = true) (map_to_list t)) as Hin.
    { apply list_elem_of_filter. split; [exact E|].
      now apply elem_of_map_to_list. }
    rewrite H in Hin. now apply elem_of_nil in Hin.
  - intros H. apply elem_of_nil_inv. intros [id r] Hin.
    apply list_elem_of_filter in Hin as [Hw Hin]. simpl in Hw.
    apply elem_of_map_to_list in Hin. rewrite (H _ _ Hin) in Hw. discriminate.
Qed.

Lemma openFor_test uid r :
  Z.eqb (userId r) uid && isNull (logoutTime r) = true <-> openFor uid r.
Proof.
  unfold openFor. rewrite andb_true_iff, Z.eqb_eq.
  destruct (logoutTime r); simpl; intuition congruence.
Qed.

Lemma keys_below_nextId t id r : t !! id = Some r -> id < nextId t.
Proof.
  unfold nextId. intros H. apply elem_of_map_to_list in H.
  induction (map_to_list t) as [|a l IH]; simpl.
  - now apply elem_of_nil in H.
  - apply elem_of_cons in H as [<-|H]; simpl; [lia|].
    specialize (IH H). lia.
Qed.

Lemma nextId_fresh t : t !! nextId t = None.
Proof.
  destruct (t !! nextId t) as [r|] eqn:E; [|reflexivity].
  apply keys_below_nextId in E. lia.
Qed.

(** [endSession] on its own: which record it ends and what it leaves. *)
Lemma endSession_cases now uid t :
  (exists id r,
      t !! id = Some r /\ openFor uid r /\
      (forall id' r', t !! id' = Some r' -> openFor uid r' ->
                      loginTime r' <= loginTime r) /\
      endSession now uid t
        = (Ok (Some (id, close now r)), <[id := close now r]> t))
  \/ ((forall id r, t !! id = Some r -> ~ openFor uid r) /\
      endSession now uid t = (Ok None, t)).
Proof.
  unfold endSession.
  destruct (findFirst _ t) as [[id r]|] eqn:E.
  - left. apply findFirst_Some in E as (Hl & Hw & Hmax).
    exists id, r. apply openFor_test in Hw. repeat split; try assumption.
    + apply Hw.
    + apply Hw.
    + intros id' r' Hl' Ho. apply (Hmax id' r' Hl'). now apply openFor_test.
    + unfold update. simpl. now rewrite Hl.
  - right. split; [|reflexivity].
    intros id r Hl Ho. apply openFor_test in Ho.
    rewrite (proj1 (findFirst_None _ t) E id r Hl) in Ho. discriminate.
Qed.

Lemma close_not_open now uid r : ~ openFor uid (close now r).
Proof. intros [_ H]. discriminate. Qed.

End SessionTracker.

Section SessionProperties.

Import LoginSession.

Implicit Types (t : gmap Z row) (r : row).

Lemma create_unfold now uid ip ua t :
  create now uid ip ua t
  = ((nextId t, defaults now uid (Js.or_null ip) (Js.or_null ua)),
     <[nextId t := defaults now uid (Js.or_null ip) (Js.or_null ua)]> t).
Proof. reflexivity. Qed.

Lemma defaults_open now uid ip ua : openFor uid (defaults now uid ip ua).
Proof. split; reflexivity. Qed.

(** C7. [endSession] ends the most recent open session of the identity:
    that record gets [logoutTime = now] and [isValid = false], keeps its
    other fields, and every other record stays as it was; with no open
    session it answers none and leaves the table alone; it never raises.
    Hence a session that was just started is ended by the next
    [endSession] (exactly one record changes), and when the identity had no
    other open session the record ended is the new one and a second
    [endSession] does nothing and answers none. *)
Theorem endSession_contract (now uid : Z) (t : gmap Z row) :
  ((exists id r,
       t !! id = Some r /\ openFor uid r /\
       (forall id' r', t !! id' = Some r' -> openFor uid r' ->
                       loginTime r' <= loginTime r) /\
       endSession now uid t
         = (Ok (Some (id, close now r)), <[id := close now r]> t) /\
       endedAt now (close now r) /\
       userId (close now r) = userId r /\
       loginTime (close now r) = loginTime r /\
       ipAddress (close now r) = ipAddress r /\
       userAgent (close now r) = userAgent r /\
       forall j, j <> id -> (<[id := close now r]> t) !! j = t !! j)
   \/ ((forall id r, t !! id = Some r -> ~ openFor uid r) /\
       endSession now uid t = (Ok None, t)))
  /\
  (forall now0 ip ua now',
      let new := (create now0 uid ip ua t).1 in
      let t1 := (create now0 uid ip ua t).2 in
      t !! new.1 = None /\
      (forall j, j <> new.1 -> t1 !! j = t !! j) /\
      (exists id r,
          t1 !! id = Some r /\ openFor uid r /\
          endSession now uid t1
            = (Ok (Some (id, close now r)), <[id := close now r]> t1)) /\
      ((forall id r, t !! id = Some r -> ~ openFor uid r) ->
       endSession now uid t1
         = (Ok (Some (new.1, close now new.2)), <[new.1 := close now new.2]> t)
       /\ endSession now' uid (<[new.1 := close now new.2]> t)
          = (Ok None, <[new.1 := close now new.2]> t))).
Proof.
  split.
  - destruct (endSession_cases now uid t) as [(id & r & Hl & Ho & Hmax & E)|[Hn E]].
    + left. exists id, r. repeat split; try assumption; try apply Ho.
      intros j Hj. now apply lookup_insert_ne.
    + right. now split.
  - intros now0 ip ua now'. rewrite create_unfold. simpl.
    set (nid := nextId t).
    set (r0 := defaults now0 uid (Js.or_null ip) (Js.or_null ua)).
    assert (t !! nid = None) as Hfresh by apply nextId_fresh.
    assert (openFor uid r0) as Hopen0 by apply defaults_open.
    split; [exact Hfresh|]. split.
    { intros j Hj. now apply lookup_insert_ne. }
    split.
    + destruct (endSession_cases now uid (<[nid := r0]> t))
        as [(id & r & Hl & Ho & _ & E)|[Hn _]].
      * exists id, r. split; [exact Hl|]. split; [exact Ho|exact E].
      * destruct (Hn nid r0); [apply lookup_insert_eq | exact Hopen0].
    + intros Hnone. split.
      * destruct (endSession_cases now uid (<[nid := r0]> t))
          as [(id & r & Hl & Ho & _ & E)|[Hn _]].
        -- destruct (decide (id = nid)) as [->|Hne].
           ++ rewrite lookup_insert_eq in Hl. injection Hl as <-.
              rewrite E. now rewrite insert_insert_eq.
           ++ rewrite lookup_insert_ne in Hl by congruence.
              now destruct (Hnone id r Hl).
        -- destruct (Hn nid r0); [apply lookup_insert_eq | exact Hopen0].
      * destruct (endSession_cases now' uid (<[nid := close now r0]> t))
          as [(id & r & Hl & Ho & _ & E)|[_ E]]; [|exact E].
        destruct (decide (id = nid)) as [->|Hne].
        -- rewrite lookup_insert_eq in Hl. injection Hl as <-.
           now destruct (close_not_open now uid r0).
        -- rewrite lookup_insert_ne in Hl by congruence.
           now destruct (Hnone id r Hl).
Qed.

Lemma endSession_contract_witness :
  (forall id r, (∅ : gmap Z row) !! id = Some r -> ~ openFor 7 r) /\
  let new := (create 100 7 (Js.Str "10.0.0.1") Js.Undefined ∅).1 in
  endSession 200 7 (create 100 7 (Js.Str "10.0.0.1") Js.Undefined ∅).2
    = (Ok (Some (new.1, close 200 new.2)), <[new.1 := close 200 new.2]> ∅)
  /\ endSession 300 7 (<[new.1 := close 200 new.2]> ∅)
     = (Ok None, <[new.1 := close 200 new.2]> ∅).
Proof.
  split.
  - intros id r H. rewrite lookup_empty in H. discriminate.
  - apply (proj2 (endSession_contract 200 7 ∅) 100 (Js.Str "10.0.0.1")
             Js.Undefined 300).
    intros id r H. rewrite lookup_empty in H. discriminate.
Defined.

(** The same on a table with an older, already ended session and two open
    ones: the newer open one is ended. *)
Example endSession_picks_latest :
  let t : gmap Z row :=
    <[3 := defaults 50 7 None None]>
      (<[2 := defaults 30 7 None None]>
         (<[1 := close 40 (defaults 10 7 None None)]> ∅)) in
  endSession 200 7 t
  = (Ok (Some (3, close 200 (defaults 50 7 None None))),
     <[3 := close 200 (defaults 50 7 None None)]> t).
Proof. vm_compute. reflexivity. Qed.

Lemma close_endedAt now r : endedAt now (close now r).
Proof. split; reflexivity. Qed.

Lemma endedAt_consistent now r : endedAt now r -> consistent r.
Proof. intros [H1 H2]. unfold consistent. rewrite H1, H2. split; discriminate. Qed.

Lemma invalidateAllSessions_lookup now uid t id :
  (invalidateAllSessions now uid t).2 !! id
  = (fun r => if Z.eqb (userId r) uid && isValid r then close now r else r)
      <$> t !! id.
Proof. unfold invalidateAllSessions, updateMany. simpl. apply lookup_fmap. Qed.

(** C10. A session record is valid exactly when its [logoutTime] is null:
    [create] makes a valid record without logout time, and [create],
    [endSession] and [invalidateAllSessions] keep every record of the table
    that way; the two closing operations change a record only by setting
    [isValid = false] and [logoutTime = now] together. *)
Theorem session_validity_invariant (now uid : Z) (t : gmap Z row) :
  allConsistent t ->
  (forall ip ua,
      isValid (create now uid ip ua t).1.2 = true /\
      logoutTime (create now uid ip ua t).1.2 = None /\
      allConsistent (create now uid ip ua t).2) /\
  allConsistent (endSession now uid t).2 /\
  allConsistent (invalidateAllSessions now uid t).2 /\
  (forall id r',
      (endSession now uid t).2 !! id = Some r' ->
      t !! id = Some r' \/ (endedAt now r' /\ exists r, t !! id = Some r /\ r' = close now r)) /\
  (forall id r',
      (invalidateAllSessions now uid t).2 !! id = Some r' ->
      t !! id = Some r' \/ (endedAt now r' /\ exists r, t !! id = Some r /\ r' = close now r)).
Proof.
  intros Hinv.
  assert (forall id r',
      (endSession now uid t).2 !! id = Some r' ->
      t !! id = Some r' \/ (endedAt now r' /\ exists r, t !! id = Some r /\ r' = close now r))
    as Hend.
  { intros id r'.
    destruct (endSession_cases now uid t) as [(k & r & Hl & _ & _ & E)|[_ E]];
      rewrite E; simpl; [|now left].
    destruct (decide (k = id)) as [->|Hne].
    - rewrite lookup_insert_eq. intros [= <-]. right.
      split; [apply close_endedAt|]. now exists r.
    - rewrite lookup_insert_ne by assumption. now left. }
  assert (forall id r',
      (invalidateAllSessions now uid t).2 !! id = Some r' ->
      t !! id = Some r' \/ (endedAt now r' /\ exists r, t !! id = Some r /\ r' = close now r))
    as Hall.
  { intros id r'. rewrite invalidateAllSessions_lookup.
    destruct (t !! id) as [r|]; simpl; [|discriminate].
    destruct (Z.eqb (userId r) uid && isValid r); intros [= <-].
    - right. split; [apply close_endedAt|]. now exists r.
    - now left. }
  split; [|split; [|split; [|split; [exact Hend|exact Hall]]]].
  - intros ip ua. split; [reflexivity|]. split; [reflexivity|].
    intros id r. rewrite create_unfold. simpl.
    destruct (decide (nextId t = id)) as [->|Hne].
    + rewrite lookup_insert_eq. intros [= <-]. unfold consistent. simpl. tauto.
    + rewrite lookup_insert_ne by assumption. apply Hinv.
  - intros id r' H. destruct (Hend id r' H) as [H0|[H0 _]].
    + now apply (Hinv id).
    + now apply (endedAt_consistent now).
  - intros id r' H. destruct (Hall id r' H) as [H0|[H0 _]].
    + now apply (Hinv id).
    + now apply (endedAt_consistent now).
Qed.

Lemma session_validity_invariant_witness :
  let t : gmap Z row :=
    <[2 := defaults 30 7 None None]>
      (<[1 := close 40 (defaults 10 7 None None)]> ∅) in
  allConsistent t /\
  allConsistent (endSession 200 7 t).2 /\
  allConsistent (invalidateAllSessions 200 7 t).2.
Proof.
  intros t.
  assert (allConsistent t) as H.
  { intros id r. unfold t.
    destruct (decide (id = 2)) as [->|H2].
    - rewrite lookup_insert_eq. intros [= <-]. unfold consistent. simpl. tauto.
    - rewrite lookup_insert_ne by congruence.
      destruct (decide (id = 1)) as [->|H1].
      + rewrite lookup_insert_eq. intros [= <-]. unfold consistent. simpl.
        split; discriminate.
      + rewrite lookup_insert_ne by congruence. rewrite lookup_empty.
        discriminate. }
  split; [exact H|].
  split; apply (session_validity_invariant 200 7 t H).
Defined.

End SessionProperties.

(** ** Access Guard *)

Ltac run_handler :=
  unfold authenticateToken, protect, login, tryCatch, bind, verifyToken,
    callCheckLoginTime, getUsers, emit, send, ret, throw, fresh,
    User.findUniqueById; simpl.

Ltac in_trace :=
  repeat (rewrite ?elem_of_cons, ?elem_of_nil in *);
  intuition (try discriminate; try congruence).

Section AccessGuard.

Variable jwt_verify : string -> JwtResult.
Variable clock : string.

Implicit Types (us : gmap Z User.row) (ss : gmap Z LoginSession.row).

Lemma field_failure_message code msg :
  field "message" (failure code msg) = Some (JString msg).
Proof. reflexivity. Qed.

Lemma field_failure_code code msg : field "code" (failure code msg) = None.
Proof. reflexivity. Qed.

Lemma reports_status f r : reports f r -> status r = httpStatus (kindOf f).
Proof. destruct f; simpl; try (intros ->; reflexivity). now intros [H _]. Qed.

Lemma reports_unique f g r : reports f r -> reports g r -> f = g.
Proof.
  destruct f, g; simpl; intros Hf Hg; try reflexivity;
    try (rewrite Hf in Hg; discriminate Hg);
    try (destruct Hf as (_ & Hc & _); rewrite Hg in Hc; discriminate Hc);
    try (destruct Hg as (_ & Hc & _); rewrite Hf in Hc; discriminate Hc).
Qed.

(** The guard, run on a fresh request, is the decision list. *)
Lemma authenticateToken_steps us ss req :
  let run := authenticateToken jwt_verify clock req (fresh us ss) in
  let spec := authenticateTokenSteps jwt_verify clock us (authorization req) in
  shows req spec.1 run.1 /\ run.2 = mkWorld us ss spec.2.
Proof.
  unfold authenticateTokenSteps. run_handler.
  destruct (tokenOf (authorization req)) as [| |[|c tok]]; simpl;
    try (split; [eexists; split; reflexivity | reflexivity]).
  destruct (jwt_verify (String c tok)) as [cl|name]; simpl.
  - destruct (us !! claim_userId cl) as [u|]; simpl;
      [|split; [eexists; split; reflexivity | reflexivity]].
    destruct (User.isActive u); simpl;
      [|split; [eexists; split; reflexivity | reflexivity]].
    destruct (User.role u); simpl; [split; reflexivity|].
    destruct (checkLoginTime clock _ _) as [[|] msg cur] eqn:E; simpl;
      [split; reflexivity|].
    split; [|reflexivity].
    eexists. split; [reflexivity|]. simpl. split; [reflexivity|].
    split.
    + unfold field. simpl. destruct cur; reflexivity.
    + eexists. reflexivity.
  - destruct (String.eqb name "TokenExpiredError"); simpl;
      [split; [eexists; split; reflexivity | reflexivity]|].
    destruct (String.eqb name "JsonWebTokenError"); simpl;
      [split; [eexists; split; reflexivity | reflexivity]|].
    split; reflexivity.
Qed.

Lemma authenticateTokenSteps_prefix us authHeader :
  exists tok id s e,
    (authenticateTokenSteps jwt_verify clock us authHeader).2
      `prefix_of` [JwtVerify tok; FindUserById id; CheckLoginTime s e].
Proof.
  unfold authenticateTokenSteps.
  destruct (tokenOf authHeader) as [| |[|c tok]]; simpl;
    try (exists "", 0, Js.Null, Js.Null; apply prefix_nil).
  destruct (jwt_verify (String c tok)) as [cl|name]; simpl.
  - destruct (us !! claim_userId cl) as [u|]; simpl.
    + exists (String c tok), (claim_userId cl),
        (Js.of_column (User.loginStartTime u)),
        (Js.of_column (User.loginEndTime u)).
      destruct (User.isActive u); simpl;
        [destruct (User.role u); simpl|];
        try (eexists; reflexivity).
    + exists (String c tok), (claim_userId cl), Js.Null, Js.Null.
      eexists; reflexivity.
  - exists (String c tok), 0, Js.Null, Js.Null. eexists; reflexivity.
Qed.

(** The specification's list and the code's agree on what is consulted,
    and on the outcome wherever the code does not fall through to its
    catch-all answer. *)
Lemma steps_compared us authHeader :
  let code := authenticateTokenSteps jwt_verify clock us authHeader in
  let spec := accessGuardSteps jwt_verify clock us authHeader in
  code.2 = spec.2 /\
  match code.1 with
  | Fails f => spec.1 = Refused f
  | Passes u => spec.1 = Granted u
  | Crashes name =>
      spec.1 = Refused InvalidToken /\
      exists tok, tokenOf authHeader = Js.Str tok /\
                  jwt_verify tok = Throws name /\
                  name <> "TokenExpiredError" /\ name <> "JsonWebTokenError"
  end.
Proof.
  unfold authenticateTokenSteps, accessGuardSteps.
  destruct (tokenOf authHeader) as [| |[|c tok]]; simpl; try (split; reflexivity).
  destruct (jwt_verify (String c tok)) as [cl|name] eqn:Hv; simpl.
  - destruct (us !! claim_userId cl) as [u|]; simpl; [|split; reflexivity].
    destruct (User.isActive u); simpl; [|split; reflexivity].
    destruct (User.role u); simpl; [split; reflexivity|].
    destruct (allowed _); split; reflexivity.
  - destruct (String.eqb_spec name "TokenExpiredError") as [->|H1]; simpl;
      [split; reflexivity|].
    destruct (String.eqb_spec name "JsonWebTokenError") as [->|H2]; simpl;
      [split; reflexivity|].
    split; [reflexivity|]. split; [reflexivity|].
    exists (String c tok). auto.
Qed.

Lemma accessGuardSteps_order us authHeader f :
  (accessGuardSteps jwt_verify clock us authHeader).1 = Refused f ->
  let consulted := (accessGuardSteps jwt_verify clock us authHeader).2 in
  ((stepOf f <= 1)%nat -> consulted = []) /\
  ((stepOf f <= 2)%nat -> forall id, FindUserById id ∉ consulted) /\
  ((stepOf f <= 4)%nat -> forall s e, CheckLoginTime s e ∉ consulted).
Proof.
  unfold accessGuardSteps.
  destruct (tokenOf authHeader) as [| |[|c tok]]; simpl;
    try (intros [= <-]; simpl; repeat split; intros; in_trace; lia).
  destruct (jwt_verify (String c tok)) as [cl|name]; simpl.
  - destruct (us !! claim_userId cl) as [u|]; simpl;
      [|intros [= <-]; simpl; repeat split; intros; in_trace; lia].
    destruct (User.isActive u); simpl;
      [|intros [= <-]; simpl; repeat split; intros; in_trace; lia].
    destruct (User.role u); simpl; [discriminate|].
    destruct (allowed _); [discriminate|].
    intros [= <-]; simpl; repeat split; intros; in_trace; lia.
  - destruct (String.eqb name "TokenExpiredError");
      intros [= <-]; simpl; repeat split; intros; in_trace; lia.
Qed.

(** C3. The Access Guard of the specification checks token presence, token
    validity, identity load, [isActive] and the time window in this order,
    stops at the first failure, and reports a missing, expired or invalid
    token and an unknown subject with status 401, a deactivated account
    and a closed window with status 403.  [authenticateToken] consults
    [jwt.verify], the identity store and the evaluator in that order and
    nothing behind the failing check, and it answers as the specification
    says whenever [jwt.verify] succeeds or throws a [TokenExpiredError] or
    a [JsonWebTokenError].  It does not for any other error of
    [jwt.verify] (a token that is not valid yet throws [NotBeforeError]):
    the specification's outcome is the invalid token, with status 401,
    and the code answers 500 "Internal server error". *)
Theorem accessGuard_order_and_kinds us ss req :
  let run := authenticateToken jwt_verify clock req (fresh us ss) in
  let spec := accessGuardSteps jwt_verify clock us (authorization req) in
  (forall tok name,
     tokenOf (authorization req) = Js.Str tok -> tok <> "" ->
     jwt_verify tok = Throws name ->
     name <> "TokenExpiredError" -> name <> "JsonWebTokenError" ->
     spec.1 = Refused InvalidToken /\
     stepOf InvalidToken = 2%nat /\
     httpStatus (kindOf InvalidToken) = 401 /\
     run.1 = Sent (failure 500 "Internal server error") /\
     ~ answers req spec.1 run.1) /\
  ((forall tok name,
       tokenOf (authorization req) = Js.Str tok ->
       jwt_verify tok = Throws name ->
       name = "TokenExpiredError" \/ name = "JsonWebTokenError") ->
   answers req spec.1 run.1) /\
  trace run.2 = spec.2 /\
  (exists tok id s e,
      trace run.2 `prefix_of`
        [JwtVerify tok; FindUserById id; CheckLoginTime s e]) /\
  (forall f, spec.1 = Refused f ->
     ((stepOf f <= 1)%nat -> trace run.2 = []) /\
     ((stepOf f <= 2)%nat -> forall id, FindUserById id ∉ trace run.2) /\
     ((stepOf f <= 4)%nat -> forall s e, CheckLoginTime s e ∉ trace run.2)) /\
  (forall f,
     ((stepOf f <= 3)%nat -> httpStatus (kindOf f) = 401) /\
     ((4 <= stepOf f)%nat -> httpStatus (kindOf f) = 403)) /\
  (forall f r, reports f r -> status r = httpStatus (kindOf f)) /\
  (forall f g r, reports f r -> reports g r -> f = g).
Proof.
  intros run spec.
  destruct (authenticateToken_steps us ss req) as [Hshow Hw].
  destruct (steps_compared us (authorization req)) as [Htr Hcmp].
  fold run in Hshow, Hw. fold spec in Htr, Hcmp.
  assert (trace run.2 = spec.2) as Htrace by (rewrite Hw; exact Htr).
  split.
  { intros tok name Ht Hne Hv H1 H2.
    assert (authenticateTokenSteps jwt_verify clock us (authorization req)
            = (Crashes name, [JwtVerify tok])) as Hc.
    { unfold authenticateTokenSteps. rewrite Ht.
      destruct tok as [|c tok]; [now destruct Hne|]. rewrite Hv.
      apply String.eqb_neq in H1, H2. now rewrite H1, H2. }
    rewrite Hc in Hshow, Hcmp. simpl in Hshow, Hcmp.
    destruct Hcmp as [Hs _].
    split; [exact Hs|]. split; [reflexivity|]. split; [reflexivity|].
    split; [exact Hshow|].
    rewrite Hs, Hshow. simpl. intros (r & [= <-] & Hr). discriminate. }
  split.
  { intros Hnames.
    destruct (authenticateTokenSteps jwt_verify clock us (authorization req)).1
      as [f|u|name]; simpl in Hshow, Hcmp.
    - rewrite Hcmp. exact Hshow.
    - rewrite Hcmp. exact Hshow.
    - destruct Hcmp as (_ & tok & Ht & Hv & H1 & H2).
      destruct (Hnames tok name Ht Hv); contradiction. }
  split; [exact Htrace|]. rewrite Htrace, <- Htr.
  split; [apply authenticateTokenSteps_prefix|]. rewrite Htr.
  split; [intros f Hf; now apply accessGuardSteps_order|].
  split; [intros []; simpl; split; intros; (reflexivity || lia)|].
  split; [apply reports_status | apply reports_unique].
Qed.

End AccessGuard.

(** The token that is not valid yet, at both guards: [authenticateToken]
    answers 500, [protect] answers 401 "Invalid token". *)
Example guard_not_before_token :
  let req := exampleRequest (Js.Str "Bearer early-token-of-7") in
  let w := fresh (exampleUsers true) ∅ in
  exampleVerifyEarly "early-token-of-7" = Throws "NotBeforeError" /\
  (accessGuardSteps exampleVerifyEarly "10:00:00" (exampleUsers true)
     (authorization req)).1 = Refused InvalidToken /\
  (authenticateToken exampleVerifyEarly "10:00:00" req w).1
  = Sent (failure 500 "Internal server error") /\
  (protect exampleVerifyEarly req w).1
  = Sent (mkResponse 401 [("message", JString "Invalid token")]).
Proof. repeat split. Qed.

(** A deactivated account fails at the fourth check, with status 403 and
    without the evaluator being consulted. *)
Example guard_deactivated_account :
  let req := exampleRequest (Js.Str "Bearer token-of-7") in
  let us := exampleUsers false in
  (accessGuardSteps exampleVerify "23:00:00" us (authorization req)).1
    = Refused AccountDeactivated /\
  stepOf AccountDeactivated = 4%nat /\
  authenticateToken exampleVerify "23:00:00" req (fresh us ∅)
  = (Sent (failure 403 "Account has been deactivated"),
     mkWorld us ∅ [JwtVerify "token-of-7"; FindUserById 7]) /\
  httpStatus (kindOf AccountDeactivated) = 403.
Proof. repeat split. Qed.

(** One request for each outcome of the guard. *)
Example guard_missing_token :
  (authenticateToken exampleVerify "10:00:00" (exampleRequest Js.Undefined)
     (fresh (exampleUsers true) ∅)).1
  = Sent (failure 401 "Access token required").
Proof. reflexivity. Qed.

Example guard_expired_token :
  (authenticateToken exampleVerify "10:00:00"
     (exampleRequest (Js.Str "Bearer old-token-of-7"))
     (fresh (exampleUsers true) ∅)).1
  = Sent (failure 401 "Token has expired").
Proof. reflexivity. Qed.

Example guard_invalid_token :
  (authenticateToken exampleVerify "10:00:00"
     (exampleRequest (Js.Str "Bearer garbage"))
     (fresh (exampleUsers true) ∅)).1
  = Sent (failure 401 "Invalid token").
Proof. reflexivity. Qed.

Example guard_unknown_subject :
  (authenticateToken exampleVerify "10:00:00"
     (exampleRequest (Js.Str "Bearer token-of-7")) (fresh ∅ ∅)).1
  = Sent (failure 401 "User not found").
Proof. reflexivity. Qed.

Example guard_outside_window :
  (authenticateToken exampleVerify "18:01:00"
     (exampleRequest (Js.Str "Bearer token-of-7"))
     (fresh (exampleUsers true) ∅)).1
  = Sent (mkResponse 403
      [("success", JBool false);
       ("message", JString
          "Session expired: Login allowed only between 09:00:00 and 18:00:00");
       ("currentTime", JString "18:01:00");
       ("allowedStartTime", JString "09:00:00");
       ("allowedEndTime", JString "18:00:00");
       ("code", JString "OUTSIDE_ALLOWED_TIME")]).
Proof. vm_compute. reflexivity. Qed.

Example guard_inside_window :
  exists u,
    (authenticateToken exampleVerify "09:30:00"
       (exampleRequest (Js.Str "Bearer token-of-7"))
       (fresh (exampleUsers true) ∅)).1
    = Value (setUser (Loaded u) (exampleRequest (Js.Str "Bearer token-of-7")))
    /\ au_id u = 7.
Proof. eexists. split; [vm_compute; reflexivity | reflexivity]. Qed.

(** An error the guard has no name for ends in the catch-all answer. *)
Example guard_other_error :
  (authenticateToken (fun _ => Throws "NotBeforeError") "10:00:00"
     (exampleRequest (Js.Str "Bearer token-of-7"))
     (fresh (exampleUsers true) ∅)).1
  = Sent (failure 500 "Internal server error").
Proof. reflexivity. Qed.

(** ** Who is subject to the time window *)

Section TimeWindowSubjects.

Variable jwt_verify : string -> JwtResult.
Variable jwt_sign : Claims -> string.
Variable bcrypt_compare : string -> string -> bool.
Variable clock : string.
Variable timestamp : Z.

Implicit Types (us : gmap Z User.row) (ss : gmap Z LoginSession.row).

(** The evaluator is consulted by the guard only for a loaded employee, and
    with that employee's stored bounds. *)
Lemma guard_checks_only_employees us ss req s e :
  CheckLoginTime s e
    ∈ trace (authenticateToken jwt_verify clock req (fresh us ss)).2 ->
  exists id u,
    us !! id = Some u /\ User.role u = employee /\
    s = Js.of_column (User.loginStartTime u) /\
    e = Js.of_column (User.loginEndTime u).
Proof.
  destruct (authenticateToken_steps jwt_verify clock us ss req) as [_ ->].
  unfold authenticateTokenSteps. simpl.
  destruct (tokenOf (authorization req)) as [| |[|c tok]]; simpl;
    try (intros H; in_trace; fail).
  destruct (jwt_verify (String c tok)) as [cl|name]; simpl;
    [|intros H; in_trace].
  destruct (us !! claim_userId cl) as [u|] eqn:Hu; simpl;
    [|intros H; in_trace].
  destruct (User.isActive u); simpl; [|intros H; in_trace].
  destruct (User.role u) eqn:Hr; simpl; [intros H; in_trace|].
  intros H. exists (claim_userId cl), u.
  repeat (rewrite ?elem_of_cons, ?elem_of_nil in H).
  destruct H as [H|[H|[H|[]]]]; try discriminate.
  injection H as -> ->. auto.
Qed.

(** The same for the login controller. *)
Lemma login_checks_only_employees us ss req s e :
  CheckLoginTime s e
    ∈ trace (login jwt_sign bcrypt_compare clock timestamp req (fresh us ss)).2 ->
  exists id u,
    User.findByEmail (req_email req) us = Some (id, u) /\
    User.role u = employee /\
    s = Js.of_column (User.loginStartTime u) /\
    e = Js.of_column (User.loginEndTime u).
Proof.
  run_handler.
  destruct (User.findByEmail (req_email req) us) as [[id u]|]; simpl;
    [|intros H; in_trace].
  destruct (User.isActive u); simpl; [|intros H; in_trace].
  destruct (bcrypt_compare _ _); simpl; [|intros H; in_trace].
  destruct (User.role u) eqn:Hr; simpl.
  - unfold modifySessions. simpl. intros H; in_trace.
  - destruct (allowed (checkLoginTime clock _ _)); simpl;
      unfold modifySessions; simpl; intros H; exists id, u;
      (split; [reflexivity|]); (split; [exact Hr|]);
      repeat (rewrite ?elem_of_cons, ?elem_of_nil in H);
      repeat (destruct H as [H|H]; try discriminate; try contradiction);
      injection H as -> ->; auto.
Qed.

(** An active administrator with a good token passes the guard. *)
Lemma guard_admits_admin us ss req c tok cl u :
  tokenOf (authorization req) = Js.Str (String c tok) ->
  jwt_verify (String c tok) = Decoded cl ->
  us !! claim_userId cl = Some u ->
  User.role u = admin -> User.isActive u = true ->
  (authenticateToken jwt_verify clock req (fresh us ss)).1
  = Value (setUser (Loaded (selectAuthUser (claim_userId cl, u))) req).
Proof.
  intros Ht Hv Hu Hr Ha.
  destruct (authenticateToken_steps jwt_verify clock us ss req) as [H _].
  revert H. unfold authenticateTokenSteps. rewrite Ht, Hv, Hu, Hr, Ha. simpl. auto.
Qed.

(** An active administrator with the right password logs in. *)
Lemma login_admits_admin us ss req id u :
  User.findByEmail (req_email req) us = Some (id, u) ->
  User.role u = admin -> User.isActive u = true ->
  bcrypt_compare (req_password req) (User.password u) = true ->
  exists r,
    (login jwt_sign bcrypt_compare clock timestamp req (fresh us ss)).1 = Sent r
    /\ status r = 200.
Proof.
  intros Hf Hr Ha Hp. run_handler. rewrite Hf. simpl. rewrite Ha. simpl.
  rewrite Hp. simpl. rewrite Hr. simpl. unfold modifySessions. simpl.
  eexists. split; reflexivity.
Qed.

(** C5. For an identity whose role is admin the time window is never
    evaluated, neither by the Access Guard nor at login, whatever its
    stored [loginStartTime] and [loginEndTime] and whatever the time: the
    evaluator is not consulted, and an active admin is let through.  The
    evaluator is consulted only for an identity whose role is employee. *)
Theorem admin_never_time_checked us ss req :
  (forall tok cl u s e,
      tokenOf (authorization req) = Js.Str tok ->
      jwt_verify tok = Decoded cl ->
      us !! claim_userId cl = Some u -> User.role u = admin ->
      CheckLoginTime s e
        ∉ trace (authenticateToken jwt_verify clock req (fresh us ss)).2) /\
  (forall id u s e,
      User.findByEmail (req_email req) us = Some (id, u) ->
      User.role u = admin ->
      CheckLoginTime s e
        ∉ trace (login jwt_sign bcrypt_compare clock timestamp req
                   (fresh us ss)).2) /\
  (forall c tok cl u,
      tokenOf (authorization req) = Js.Str (String c tok) ->
      jwt_verify (String c tok) = Decoded cl ->
      us !! claim_userId cl = Some u ->
      User.role u = admin -> User.isActive u = true ->
      (authenticateToken jwt_verify clock req (fresh us ss)).1
      = Value (setUser (Loaded (selectAuthUser (claim_userId cl, u))) req)) /\
  (forall id u,
      User.findByEmail (req_email req) us = Some (id, u) ->
      User.role u = admin -> User.isActive u = true ->
      bcrypt_compare (req_password req) (User.password u) = true ->
      exists r,
        (login jwt_sign bcrypt_compare clock timestamp req (fresh us ss)).1
        = Sent r /\ status r = 200) /\
  (forall s e,
      CheckLoginTime s e
        ∈ trace (authenticateToken jwt_verify clock req (fresh us ss)).2 ->
      exists id u, us !! id = Some u /\ User.role u = employee) /\
  (forall s e,
      CheckLoginTime s e
        ∈ trace (login jwt_sign bcrypt_compare clock timestamp req
                   (fresh us ss)).2 ->
      exists id u, User.findByEmail (req_email req) us = Some (id, u)
                   /\ User.role u = employee).
Proof.
  split; [|split; [|split; [|split; [|split]]]].
  - intros tok cl u s e Ht Hv Hu Hr.
    destruct (authenticateToken_steps jwt_verify clock us ss req) as [_ ->].
    unfold authenticateTokenSteps. rewrite Ht. simpl.
    destruct tok as [|c tok]; simpl; [intros H; in_trace|].
    rewrite Hv, Hu. simpl.
    destruct (User.isActive u); simpl; [|intros H; in_trace].
    rewrite Hr. simpl. intros H; in_trace.
  - intros id u s e Hf Hr Hin.
    apply login_checks_only_employees in Hin as (id' & u' & Hf' & Hr' & _).
    rewrite Hf in Hf'. injection Hf' as <- <-. congruence.
  - intros c tok cl u. apply guard_admits_admin.
  - intros id u. apply login_admits_admin.
  - intros s e Hin.
    apply guard_checks_only_employees in Hin as (id & u & Hu & Hr & _).
    now exists id, u.
  - intros s e Hin.
    apply login_checks_only_employees in Hin as (id & u & Hu & Hr & _).
    now exists id, u.
Qed.

End TimeWindowSubjects.

Lemma admin_never_time_checked_witness :
  let req := exampleRequest (Js.Str "Bearer token-of-1") in
  (exists u, exampleAdmins !! 1 = Some u /\ User.role u = admin
             /\ User.loginStartTime u = Some "09:00:00") /\
  (forall s e,
      CheckLoginTime s e
        ∉ trace (authenticateToken exampleVerify "23:00:00" req
                   (fresh exampleAdmins ∅)).2) /\
  exists u,
    (authenticateToken exampleVerify "23:00:00" req (fresh exampleAdmins ∅)).1
    = Value (setUser (Loaded u) req).
Proof.
  intros req.
  pose proof (admin_never_time_checked exampleVerify (fun _ => "jwt")
                (fun _ _ => true) "23:00:00" 0 exampleAdmins ∅ req)
    as (Hguard & _ & Hpass & _).
  split; [|split].
  - eexists. split; [reflexivity|]. split; reflexivity.
  - intros s e. eapply (Hguard "token-of-1"); reflexivity.
  - eexists. eapply (Hpass "t"%char "oken-of-1"); reflexivity.
Defined.

(** ** Login *)

Section Login.

Variable jwt_sign : Claims -> string.
Variable bcrypt_compare : string -> string -> bool.
Variable clock : string.
Variable timestamp : Z.

Implicit Types (us : gmap Z User.row) (ss : gmap Z LoginSession.row).

(** C6. A login attempt with an email no identity has and a login attempt
    with the email of an active identity and a password that does not match
    get the same answer, status 401 with the message "Invalid email or
    password"; inside, the two runs differ (only the second one compares a
    password), and neither touches the tables. *)
Theorem login_hides_unknown_account us ss req1 req2 id u :
  User.findByEmail (req_email req1) us = None ->
  User.findByEmail (req_email req2) us = Some (id, u) ->
  User.isActive u = true ->
  bcrypt_compare (req_password req2) (User.password u) = false ->
  let run1 := login jwt_sign bcrypt_compare clock timestamp req1 (fresh us ss) in
  let run2 := login jwt_sign bcrypt_compare clock timestamp req2 (fresh us ss) in
  run1.1 = Sent (failure 401 "Invalid email or password") /\
  run2.1 = run1.1 /\
  status (failure 401 "Invalid email or password") = 401 /\
  trace run1.2 = [FindUserByEmail (req_email req1)] /\
  trace run2.2 = [FindUserByEmail (req_email req2);
                  BcryptCompare (req_password req2) (User.password u)] /\
  users run1.2 = us /\ sessions run1.2 = ss /\
  users run2.2 = us /\ sessions run2.2 = ss.
Proof.
  intros H1 H2 Ha Hp. run_handler. rewrite H1, H2. simpl.
  rewrite Ha. simpl. rewrite Hp. simpl. repeat split.
Qed.

End Login.

Lemma login_hides_unknown_account_witness :
  let us := exampleUsers true in
  let req1 := mkRequest Js.Undefined "nobody@fbs.com" "secret" Js.Undefined
                Js.Undefined NoUser in
  let req2 := mkRequest Js.Undefined "asha@fbs.com" "secret" Js.Undefined
                Js.Undefined NoUser in
  let compare := fun plain hash : string => String.eqb plain "test123" in
  User.findByEmail "nobody@fbs.com" us = None /\
  (exists id u, User.findByEmail "asha@fbs.com" us = Some (id, u)
                /\ User.isActive u = true
                /\ compare "secret" (User.password u) = false) /\
  (login (fun _ => "jwt") compare "10:00:00" 0 req2 (fresh us ∅)).1
  = (login (fun _ => "jwt") compare "10:00:00" 0 req1 (fresh us ∅)).1.
Proof.
  intros us req1 req2 compare.
  split; [vm_compute; reflexivity|]. split.
  - eexists _, _. split; [vm_compute; reflexivity|]. split; reflexivity.
  - eapply (login_hides_unknown_account (fun _ => "jwt") compare "10:00:00" 0
              us ∅ req1 req2).
    + vm_compute. reflexivity.
    + vm_compute. reflexivity.
    + reflexivity.
    + reflexivity.
Defined.

(** The successful login of the same identity, for comparison. *)
Example login_success :
  let us := exampleUsers true in
  let req := mkRequest Js.Undefined "asha@fbs.com" "test123" (Js.Str "10.0.0.1")
               Js.Undefined NoUser in
  let run := login (fun _ => "jwt") (fun plain _ => String.eqb plain "test123")
               "10:00:00" 1700000000000 req (fresh us ∅) in
  (exists r, run.1 = Sent r /\ status r = 200) /\
  sessions run.2
  = <[1 := LoginSession.defaults 1700000000000 7 (Some "10.0.0.1") None]> ∅.
Proof. split; [eexists; split; vm_compute; reflexivity | vm_compute; reflexivity]. Qed.

(** ** The two guards on the protected routes *)

Section Guards.

Variable jwt_verify : string -> JwtResult.
Variable clock : string.

Implicit Types (us : gmap Z User.row) (ss : gmap Z LoginSession.row).


(** [isAdmin] hands on the request it was given. *)
Lemma isAdmin_passes req w req' w' :
  isAdmin req w = (Value req', w') -> req' = req /\ w' = w.
Proof.
  unfold isAdmin. destruct (reqUser_role (req_user req)) as [[|]|];
    unfold ret, send, throw; intros [= <- <-] || intros [=]; auto.
Qed.

(** The request that [authenticateToken] lets through carries the subject
    of its own token, as the store has it at that moment. *)
Lemma authenticateToken_grants_subject us ss req req' :
  (authenticateToken jwt_verify clock req (fresh us ss)).1 = Value req' ->
  exists tok cl u,
    tokenOf (authorization req) = Js.Str tok /\
    jwt_verify tok = Decoded cl /\
    us !! claim_userId cl = Some u /\ User.isActive u = true /\
    (User.role u = employee ->
     allowed (checkLoginTime clock (Js.of_column (User.loginStartTime u))
                (Js.of_column (User.loginEndTime u))) = true) /\
    req' = setUser (Loaded (selectAuthUser (claim_userId cl, u))) req.
Proof.
  destruct (authenticateToken_steps jwt_verify clock us ss req) as [H _].
  revert H. unfold authenticateTokenSteps.
  destruct (tokenOf (authorization req)) as [| |[|c tok]]; simpl;
    try (intros (r & -> & _); discriminate).
  destruct (jwt_verify (String c tok)) as [cl|name] eqn:Hv; simpl.
  - destruct (us !! claim_userId cl) as [u|] eqn:Hu; simpl;
      [|intros (r & -> & _); discriminate].
    destruct (User.isActive u) eqn:Ha; simpl;
      [|intros (r & -> & _); discriminate].
    destruct (User.role u) eqn:Hr; simpl.
    + intros -> [= <-]. exists (String c tok), cl, u.
      split; [reflexivity|]. split; [exact Hv|]. split; [exact Hu|].
      split; [exact Ha|]. split; [congruence | reflexivity].
    + destruct (allowed _) eqn:Hal; simpl.
      * intros -> [= <-]. exists (String c tok), cl, u.
        split; [reflexivity|]. split; [exact Hv|]. split; [exact Hu|].
        split; [exact Ha|]. split; [intros _; exact Hal | reflexivity].
      * intros (r & -> & _); discriminate.
  - destruct (String.eqb name "TokenExpiredError"); simpl;
      [intros (r & -> & _); discriminate|].
    destruct (String.eqb name "JsonWebTokenError"); simpl;
      [intros (r & -> & _); discriminate|].
    intros ->. discriminate.
Qed.

(** X27. On every route behind [authenticateToken] a request that reaches
    the handler carries a token that [jwt.verify] accepts, and the subject
    of that token is stored, active at that moment and, if an employee,
    inside its stored window at the time of the request; it is this
    identity that the handler finds attached to the request. *)
Lemma authenticated_routes_recheck (r : Route) us ss req req' :
  head (guardsOf r) = Some MwAuthenticateToken ->
  (guard jwt_verify clock r req (fresh us ss)).1 = Value req' ->
  exists tok cl u,
    tokenOf (authorization req) = Js.Str tok /\
    jwt_verify tok = Decoded cl /\
    us !! claim_userId cl = Some u /\ User.isActive u = true /\
    (User.role u = employee ->
     allowed (checkLoginTime clock (Js.of_column (User.loginStartTime u))
                (Js.of_column (User.loginEndTime u))) = true) /\
    req' = setUser (Loaded (selectAuthUser (claim_userId cl, u))) req.
Proof.
  unfold guard. intros Hh.
  assert (guardsOf r = [MwAuthenticateToken]
          \/ guardsOf r = [MwAuthenticateToken; MwIsAdmin]) as [-> | ->]
    by (destruct r; simpl in *; auto; discriminate).
  - simpl. unfold bind, ret.
    destruct (authenticateToken jwt_verify clock req (fresh us ss))
      as [[q| |] w] eqn:E; simpl; try discriminate.
    intros [= <-]. apply (authenticateToken_grants_subject us ss). now rewrite E.
  - simpl. unfold bind, ret.
    destruct (authenticateToken jwt_verify clock req (fresh us ss))
      as [[q| |] w] eqn:E; simpl; try discriminate.
    intros Hadm.
    assert (req' = q) as ->.
    { destruct (isAdmin q w) as [[q'| |] w'] eqn:Ea; simpl in Hadm;
        try discriminate.
      injection Hadm as <-. now apply isAdmin_passes in Ea as [-> _]. }
    apply (authenticateToken_grants_subject us ss). now rewrite E.
Qed.


End Guards.

Lemma authenticated_routes_recheck_witness :
  let req := exampleRequest (Js.Str "Bearer token-of-7") in
  exists tok cl u,
    tokenOf (authorization req) = Js.Str tok /\
    exampleVerify tok = Decoded cl /\
    exampleUsers true !! claim_userId cl = Some u /\ User.isActive u = true /\
    (User.role u = employee ->
     allowed (checkLoginTime "10:00:00" (Js.of_column (User.loginStartTime u))
                (Js.of_column (User.loginEndTime u))) = true) /\
    setUser (Loaded (selectAuthUser (7, exampleEmployee true))) req
    = setUser (Loaded (selectAuthUser (claim_userId cl, u))) req.
Proof.
  intros req.
  apply (authenticated_routes_recheck exampleVerify "10:00:00" AuthProfile
           (exampleUsers true) ∅ req
           (setUser (Loaded (selectAuthUser (7, exampleEmployee true))) req)).
  - reflexivity.
  - vm_compute. reflexivity.
Defined.

(** C2. On the order routes, which are behind [protect], a request with a
    good token is granted although the identity is deactivated and the
    clock is outside the identity's stored window: [protect] validates the
    token and consults nothing else.  The routes behind
    [authenticateToken] refuse the same request. *)
Theorem protect_skips_stored_state :
  let req := exampleRequest (Js.Str "Bearer token-of-7") in
  guardsOf OrdersCreate = [MwProtect] /\
  exampleUsers false !! 7
  = Some (User.mkRow "Asha" "asha@fbs.com" "9999999999" "$2a$12$hash" employee
            (Some "09:00:00") (Some "18:00:00") false) /\
  allowed (checkLoginTime "23:00:00" (Js.Str "09:00:00") (Js.Str "18:00:00"))
  = false /\
  guard exampleVerify "23:00:00" OrdersCreate req (fresh (exampleUsers false) ∅)
  = (Value (setUser (FromToken 7 employee) req),
     mkWorld (exampleUsers false) ∅ [JwtVerify "token-of-7"]) /\
  guard exampleVerify "23:00:00" OrdersCreate req (fresh (exampleUsers true) ∅)
  = (Value (setUser (FromToken 7 employee) req),
     mkWorld (exampleUsers true) ∅ [JwtVerify "token-of-7"]) /\
  (guard exampleVerify "23:00:00" AuthProfile req
     (fresh (exampleUsers false) ∅)).1
  = Sent (failure 403 "Account has been deactivated") /\
  exists r,
    (guard exampleVerify "23:00:00" AuthProfile req
       (fresh (exampleUsers true) ∅)).1 = Sent r
    /\ reports OutsideAllowedWindow r.
Proof.
  intros req. split; [reflexivity|]. split; [vm_compute; reflexivity|].
  split; [reflexivity|]. split; [vm_compute; reflexivity|].
  split; [vm_compute; reflexivity|]. split; [vm_compute; reflexivity|].
  eexists. split; [vm_compute; reflexivity|].
  split; [reflexivity|]. split; [reflexivity|]. eexists. reflexivity.
Qed.

(** C4. [protect] answers an expired token and a malformed token with the
    same response, status 401 and "Invalid token", so the caller cannot
    tell the two failures apart; [authenticateToken] answers the expired
    one with "Token has expired" and the malformed one with "Invalid
    token". *)
Theorem protect_conflates_token_failures :
  let expired := exampleRequest (Js.Str "Bearer old-token-of-7") in
  let malformed := exampleRequest (Js.Str "Bearer garbage") in
  let w := fresh (exampleUsers true) ∅ in
  exampleVerify "old-token-of-7" = Throws "TokenExpiredError" /\
  exampleVerify "garbage" = Throws "JsonWebTokenError" /\
  (protect exampleVerify expired w).1
  = Sent (mkResponse 401 [("message", JString "Invalid token")]) /\
  (protect exampleVerify malformed w).1 = (protect exampleVerify expired w).1 /\
  (authenticateToken exampleVerify "10:00:00" expired w).1
  = Sent (failure 401 "Token has expired") /\
  (authenticateToken exampleVerify "10:00:00" malformed w).1
  = Sent (failure 401 "Invalid token").
Proof. repeat split. Qed.

(** ** The regular expression matcher *)

Section RegexMatcher.

Import Regex.

Lemma append_nil_l (s : string) : "" ++ s = s.
Proof. reflexivity. Qed.

Lemma append_cons (c : ascii) (a b : string) :
  String c a ++ b = String c (a ++ b).
Proof. reflexivity. Qed.

Lemma append_nil_r (s : string) : s ++ "" = s.
Proof.
  induction s as [|c s IH]; [reflexivity|]. now rewrite append_cons, IH.
Qed.

Lemma append_assoc (a b c : string) : (a ++ b) ++ c = a ++ (b ++ c).
Proof.
  induction a as [|x a IH]; [reflexivity|]. now rewrite !append_cons, IH.
Qed.

Lemma append_nil_inv (a b : string) : a ++ b = "" -> a = "" /\ b = "".
Proof. destruct a; simpl; [auto | discriminate]. Qed.

Lemma lang_seq_inv r1 r2 s :
  lang (Seq r1 r2) s <-> exists s1 s2, s = s1 ++ s2 /\ lang r1 s1 /\ lang r2 s2.
Proof.
  split.
  - inversion 1; subst. eauto.
  - intros (s1 & s2 & -> & H1 & H2). now constructor.
Qed.

Lemma lang_alt_inv r1 r2 s : lang (Alt r1 r2) s <-> lang r1 s \/ lang r2 s.
Proof.
  split.
  - inversion 1; subst; auto.
  - intros [H|H]; [now apply lang_alt_l | now apply lang_alt_r].
Qed.

Lemma lang_opt_inv r s : lang (Opt r) s <-> s = "" \/ lang r s.
Proof.
  split.
  - inversion 1; subst; auto.
  - intros [->|H]; [apply lang_opt_none | now apply lang_opt_some].
Qed.

Lemma lang_eps_inv s : lang Eps s <-> s = "".
Proof. split; [inversion 1; reflexivity | intros ->; constructor]. Qed.

Lemma lang_void_inv s : ~ lang Void s.
Proof. inversion 1. Qed.

Lemma lang_chr_inv c s : lang (Chr c) s <-> s = String c "".
Proof. split; [inversion 1; reflexivity | intros ->; constructor]. Qed.

Lemma in_range_spec lo hi c :
  in_range lo hi c = true <->
  (N_of_ascii lo <= N_of_ascii c)%N /\ (N_of_ascii c <= N_of_ascii hi)%N.
Proof. unfold in_range. now rewrite andb_true_iff, !N.leb_le. Qed.

Lemma lang_range_inv lo hi s :
  lang (Range lo hi) s <-> exists c, s = String c "" /\ in_range lo hi c = true.
Proof.
  split.
  - inversion 1; subst. eexists. split; [reflexivity|]. now apply in_range_spec.
  - intros (c & -> & H). apply in_range_spec in H as [H1 H2]. now constructor.
Qed.

Lemma in_class_spec cs c : in_class cs c = true <-> In c cs.
Proof.
  unfold in_class. rewrite existsb_exists. split.
  - intros (d & Hd & E). apply Ascii.eqb_eq in E. now subst.
  - intros H. exists c. split; [assumption | apply Ascii.eqb_refl].
Qed.

Lemma lang_class_inv cs s :
  lang (Class cs) s <-> exists c, s = String c "" /\ in_class cs c = true.
Proof.
  split.
  - inversion 1; subst. eexists. split; [reflexivity|]. now apply in_class_spec.
  - intros (c & -> & H). apply in_class_spec in H. now constructor.
Qed.

Lemma nullable_lang r : nullable r = true <-> lang r "".
Proof.
  induction r as [c|lo hi|cs|r1 IH1 r2 IH2|r1 IH1 r2 IH2|r IH| |]; simpl.
  - rewrite lang_chr_inv. split; discriminate.
  - rewrite lang_range_inv. split; [discriminate | intros (c & E & _); discriminate].
  - rewrite lang_class_inv. split; [discriminate | intros (c & E & _); discriminate].
  - rewrite andb_true_iff, IH1, IH2, lang_seq_inv. split.
    + intros [H1 H2]. now exists "", "".
    + intros (s1 & s2 & E & H1 & H2). symmetry in E.
      apply append_nil_inv in E as [-> ->]. auto.
  - now rewrite orb_true_iff, IH1, IH2, lang_alt_inv.
  - rewrite lang_opt_inv. tauto.
  - rewrite lang_eps_inv. tauto.
  - split; [discriminate | intros H; now apply lang_void_inv in H].
Qed.

Lemma deriv_lang c r s : lang (deriv c r) s <-> lang r (String c s).
Proof.
  revert s.
  induction r as [d|lo hi|cs|r1 IH1 r2 IH2|r1 IH1 r2 IH2|r IH| |];
    intros s; simpl.
  - rewrite lang_chr_inv. destruct (Ascii.eqb_spec c d) as [->|Hne].
    + rewrite lang_eps_inv. split; [intros ->; reflexivity | now intros [= ->]].
    + split; [intros H; now apply lang_void_inv in H | intros [= E _]; congruence].
  - rewrite lang_range_inv. destruct (in_range lo hi c) eqn:E.
    + rewrite lang_eps_inv. split.
      * intros ->. now exists c.
      * now intros (d & [= <- ->] & _).
    + split; [intros H; now apply lang_void_inv in H|].
      intros (d & [= <- ->] & H). congruence.
  - rewrite lang_class_inv. destruct (in_class cs c) eqn:E.
    + rewrite lang_eps_inv. split.
      * intros ->. now exists c.
      * now intros (d & [= <- ->] & _).
    + split; [intros H; now apply lang_void_inv in H|].
      intros (d & [= <- ->] & H). congruence.
  - assert (lang (Seq (deriv c r1) r2) s \/ (lang r1 "" /\ lang r2 (String c s))
            <-> lang (Seq r1 r2) (String c s)) as Hseq.
    { rewrite !lang_seq_inv. split.
      - intros [(s1 & s2 & -> & H1 & H2)|[H1 H2]].
        + exists (String c s1), s2. rewrite <- IH1, append_cons. auto.
        + exists "", (String c s). auto.
      - intros (s1 & s2 & E & H1 & H2). destruct s1 as [|d s1].
        + rewrite append_nil_l in E. right. subst s2. auto.
        + rewrite append_cons in E. injection E as <- ->. left.
          exists s1, s2. rewrite IH1. auto. }
    rewrite <- Hseq. destruct (nullable r1) eqn:En.
    + rewrite lang_alt_inv, IH2. apply nullable_lang in En. tauto.
    + split; [auto|]. intros [H|[H _]]; [assumption|].
      apply nullable_lang in H. congruence.
  - now rewrite !lang_alt_inv, IH1, IH2.
  - rewrite lang_opt_inv, IH. split; [auto|]. intros [E|H]; [discriminate|assumption].
  - rewrite lang_eps_inv. split; [intros H; now apply lang_void_inv in H | discriminate].
  - split; intros H; now apply lang_void_inv in H.
Qed.

(** The matcher decides membership in the language. *)
Lemma test_lang r s : test r s = true <-> lang r s.
Proof.
  revert r. induction s as [|c s IH]; intros r; simpl.
  - apply nullable_lang.
  - now rewrite IH, deriv_lang.
Qed.

End RegexMatcher.

(** ** Clock strings and the order of times *)

Section ClockStrings.

Lemma compare_app_same_length (x y r r' : string) :
  String.length x = String.length y ->
  String.compare (x ++ r) (y ++ r')
  = match String.compare x y with
    | Eq => String.compare r r'
    | c => c
    end.
Proof.
  revert y. induction x as [|a x IH]; intros [|b y]; try discriminate.
  - reflexivity.
  - intros [= Hlen]. rewrite !append_cons. simpl.
    destruct (Ascii.compare a b); auto.
Qed.

Lemma forallb_below (f : nat -> bool) (n k : nat) :
  forallb f (seq 0 n) = true -> (k < n)%nat -> f k = true.
Proof.
  intros H Hk. rewrite forallb_forall in H. apply H. apply in_seq. lia.
Qed.

Lemma pad2_length n : String.length (pad2 n) = 2%nat.
Proof. reflexivity. Qed.

Lemma pad2_compare_table :
  forallb (fun a =>
    forallb (fun b =>
      match String.compare (pad2 a) (pad2 b), Nat.compare a b with
      | Eq, Eq | Lt, Lt | Gt, Gt => true
      | _, _ => false
      end) (seq 0 100)) (seq 0 100) = true.
Proof. vm_compute. reflexivity. Qed.

Lemma pad2_compare a b :
  (a < 100)%nat -> (b < 100)%nat ->
  String.compare (pad2 a) (pad2 b) = Nat.compare a b.
Proof.
  intros Ha Hb. pose proof pad2_compare_table as H.
  apply (forallb_below _ _ a) in H; [|exact Ha].
  apply (forallb_below _ _ b) in H; [|exact Hb].
  cbv beta in H. revert H.
  destruct (String.compare (pad2 a) (pad2 b)), (Nat.compare a b);
    (reflexivity || discriminate).
Qed.

Lemma compare_colon (r r' : string) :
  String.compare (":" ++ r) (":" ++ r') = String.compare r r'.
Proof. reflexivity. Qed.

(** On clock strings the string order is the order of the times. *)
Lemma toTimeString8_compare h m s h' m' s' :
  (h < 100)%nat -> (m < 60)%nat -> (s < 60)%nat ->
  (h' < 100)%nat -> (m' < 60)%nat -> (s' < 60)%nat ->
  String.compare (toTimeString8 h m s) (toTimeString8 h' m' s')
  = Nat.compare (secondsAfterMidnight h m s) (secondsAfterMidnight h' m' s').
Proof.
  intros Hh Hm Hs Hh' Hm' Hs'. unfold toTimeString8, secondsAfterMidnight.
  rewrite compare_app_same_length by reflexivity.
  rewrite pad2_compare by lia.
  destruct (Nat.compare_spec h h') as [->|Hlt|Hgt].
  - rewrite compare_colon, compare_app_same_length by reflexivity.
    rewrite pad2_compare by lia.
    destruct (Nat.compare_spec m m') as [->|Hlt|Hgt].
    + rewrite compare_colon, pad2_compare by lia.
      destruct (Nat.compare_spec s s') as [->|Hlt|Hgt]; symmetry.
      * apply Nat.compare_refl.
      * apply Nat.compare_lt_iff. lia.
      * apply Nat.compare_gt_iff. lia.
    + symmetry. apply Nat.compare_lt_iff. lia.
    + symmetry. apply Nat.compare_gt_iff. lia.
  - symmetry. apply Nat.compare_lt_iff. lia.
  - symmetry. apply Nat.compare_gt_iff. lia.
Qed.

Lemma toTimeString8_le h m s h' m' s' :
  (h < 100)%nat -> (m < 60)%nat -> (s < 60)%nat ->
  (h' < 100)%nat -> (m' < 60)%nat -> (s' < 60)%nat ->
  Js.le (toTimeString8 h m s) (toTimeString8 h' m' s')
  = (secondsAfterMidnight h m s <=? secondsAfterMidnight h' m' s')%nat.
Proof.
  intros. unfold Js.le. rewrite toTimeString8_compare by assumption.
  destruct (Nat.compare_spec (secondsAfterMidnight h m s)
              (secondsAfterMidnight h' m' s')) as [E|E|E]; symmetry.
  - apply Nat.leb_le. lia.
  - apply Nat.leb_le. lia.
  - apply Nat.leb_gt. lia.
Qed.

Lemma js_ge_le a b : Js.ge a b = Js.le b a.
Proof.
  unfold Js.ge, Js.le. rewrite (String.compare_antisym b a).
  destruct (String.compare a b); reflexivity.
Qed.

Lemma js_gt_le a b : Js.gt a b = negb (Js.le a b).
Proof. unfold Js.gt, Js.le. destruct (String.compare a b); reflexivity. Qed.

Lemma toTimeString8_present h m s : toTimeString8 h m s <> "".
Proof. discriminate. Qed.

(** X28. With both bounds and the clock in the form [HH:MM:SS], the evaluator
    decides by the times themselves: inside [start, end] for a day window,
    outside the open gap between [end] and [start] for a night window. *)
Lemma checkLoginTime_chronological h1 m1 s1 h2 m2 s2 h m s :
  (h1 < 24)%nat -> (m1 < 60)%nat -> (s1 < 60)%nat ->
  (h2 < 24)%nat -> (m2 < 60)%nat -> (s2 < 60)%nat ->
  (h < 24)%nat -> (m < 60)%nat -> (s < 60)%nat ->
  let start := secondsAfterMidnight h1 m1 s1 in
  let stop := secondsAfterMidnight h2 m2 s2 in
  let now := secondsAfterMidnight h m s in
  allowed (checkLoginTime (toTimeString8 h m s)
             (Js.Str (toTimeString8 h1 m1 s1))
             (Js.Str (toTimeString8 h2 m2 s2))) = true
  <-> ((start <= stop)%nat /\ (start <= now <= stop)%nat)
      \/ ((stop < start)%nat /\ ((start <= now)%nat \/ (now <= stop)%nat)).
Proof.
  intros. rewrite checkLoginTime_present by apply toTimeString8_present.
  rewrite js_gt_le, js_ge_le, !toTimeString8_le by lia.
  fold start stop now.
  destruct (Nat.leb_spec start stop) as [Hle|Hgt]; simpl.
  - rewrite andb_true_iff, !Nat.leb_le. lia.
  - rewrite orb_true_iff, !Nat.leb_le. lia.
Qed.

(** The facts about a two-digit field, checked for every value below 100. *)
Lemma pad2_table :
  forallb (fun n =>
    negb (Ascii.eqb (digit (n / 10)) ":") && negb (Ascii.eqb (digit (n mod 10)) ":")
    && Regex.test (Regex.Range "0" "9") (String (digit (n mod 10)) "")
    && match timeField (pad2 n) with
       | Some z => Z.eqb z (Z.of_nat n)
       | None => false
       end
    && (Nat.leb 60 n
        || Regex.test (Regex.Range "0" "5") (String (digit (n / 10)) ""))
    && (Nat.leb 24 n
        || Regex.test
             (Regex.Alt
                (Regex.Seq (Regex.Opt (Regex.Class ["0"; "1"]%char))
                           (Regex.Range "0" "9"))
                (Regex.Seq (Regex.Chr "2") (Regex.Range "0" "3")))
             (pad2 n)))
    (seq 0 100) = true.
Proof. vm_compute. reflexivity. Qed.

Lemma pad2_facts n :
  (n < 100)%nat ->
  digit (n / 10) <> ":"%char /\ digit (n mod 10) <> ":"%char /\
  Regex.lang (Regex.Range "0" "9") (String (digit (n mod 10)) "") /\
  timeField (pad2 n) = Some (Z.of_nat n) /\
  ((n < 60)%nat -> Regex.lang (Regex.Range "0" "5") (String (digit (n / 10)) "")) /\
  ((n < 24)%nat ->
   Regex.lang
     (Regex.Alt
        (Regex.Seq (Regex.Opt (Regex.Class ["0"; "1"]%char))
                   (Regex.Range "0" "9"))
        (Regex.Seq (Regex.Chr "2") (Regex.Range "0" "3")))
     (pad2 n)).
Proof.
  intros Hn. pose proof pad2_table as H.
  apply (forallb_below _ _ n) in H; [|exact Hn]. cbv beta in H.
  repeat (apply andb_true_iff in H as [H ?]).
  repeat match goal with
         | H : negb _ = true |- _ =>
             apply negb_true_iff, Ascii.eqb_neq in H
         end.
  split; [assumption|]. split; [assumption|].
  split; [now apply test_lang|]. split.
  - destruct (timeField (pad2 n)) as [z|]; [|discriminate].
    match goal with H : Z.eqb _ _ = true |- _ => apply Z.eqb_eq in H; now subst end.
  - split; intros Hlt.
    + match goal with
      | H : Nat.leb 60 n || _ = true |- _ =>
          apply orb_true_iff in H as [H|H];
          [apply Nat.leb_le in H; lia | now apply test_lang]
      end.
    + match goal with
      | H : Nat.leb 24 n || _ = true |- _ =>
          apply orb_true_iff in H as [H|H];
          [apply Nat.leb_le in H; lia | now apply test_lang]
      end.
Qed.

Lemma split_colon_two (a b : ascii) cur rest :
  a <> ":"%char -> b <> ":"%char ->
  Js.split_aux ":" cur (String a (String b "") ++ rest)
  = Js.split_aux ":" (cur ++ String a (String b "")) rest.
Proof.
  intros Ha Hb. apply Ascii.eqb_neq in Ha, Hb.
  rewrite !append_cons, append_nil_l.
  change (Js.split_aux ":" cur (String a (String b rest)))
    with (if Ascii.eqb a ":" then cur :: Js.split_aux ":" "" (String b rest)
          else if Ascii.eqb b ":"
               then (cur ++ String a "") :: Js.split_aux ":" "" rest
               else Js.split_aux ":" ((cur ++ String a "") ++ String b "") rest).
  rewrite Ha, Hb. f_equal.
  rewrite append_assoc. reflexivity.
Qed.

Lemma split_colon_pad2 n cur rest :
  (n < 100)%nat ->
  Js.split_aux ":" cur (pad2 n ++ rest)
  = Js.split_aux ":" (cur ++ pad2 n) rest.
Proof.
  intros Hn. destruct (pad2_facts n Hn) as (Ha & Hb & _).
  now apply split_colon_two.
Qed.

Lemma split_colon_sep cur rest :
  Js.split_aux ":" cur (":" ++ rest) = cur :: Js.split_aux ":" "" rest.
Proof. reflexivity. Qed.

Lemma split_colon_clock h m s :
  (h < 100)%nat -> (m < 100)%nat -> (s < 100)%nat ->
  Js.split ":" (toTimeString8 h m s) = [pad2 h; pad2 m; pad2 s].
Proof.
  intros Hh Hm Hs. unfold Js.split, toTimeString8.
  rewrite split_colon_pad2, append_nil_l, split_colon_sep by assumption.
  rewrite split_colon_pad2, append_nil_l, split_colon_sep by assumption.
  rewrite <- (append_nil_r (pad2 s)) at 1.
  rewrite split_colon_pad2, append_nil_l by assumption. reflexivity.
Qed.

Lemma pad2_split n :
  pad2 n = String (digit (n / 10)) "" ++ String (digit (n mod 10)) "".
Proof. reflexivity. Qed.

Lemma clock_strings_lang h m s :
  (h < 24)%nat -> (m < 60)%nat -> (s < 60)%nat ->
  Regex.lang timeFormat (toTimeString8 h m s).
Proof.
  intros Hh Hm Hs.
  destruct (pad2_facts h ltac:(lia)) as (_ & _ & _ & _ & _ & Lh).
  destruct (pad2_facts m ltac:(lia)) as (_ & _ & Lm2 & _ & Lm1 & _).
  destruct (pad2_facts s ltac:(lia)) as (_ & _ & Ls2 & _ & Ls1 & _).
  unfold timeFormat, toTimeString8.
  apply Regex.lang_seq; [now apply Lh|].
  apply (Regex.lang_seq _ _ (String ":" "")); [constructor|].
  rewrite (pad2_split m), append_assoc.
  apply Regex.lang_seq; [now apply Lm1|].
  apply Regex.lang_seq; [exact Lm2|].
  apply Regex.lang_opt_some.
  apply (Regex.lang_seq _ _ (String ":" "")); [constructor|].
  rewrite (pad2_split s).
  apply Regex.lang_seq; [now apply Ls1 | exact Ls2].
Qed.

(** X29. Every time of the day written as a clock string [HH:MM:SS] passes
    both validators and denotes that time. *)
Lemma clock_strings_accepted h m s :
  (h < 24)%nat -> (m < 60)%nat -> (s < 60)%nat ->
  registerValidation_time (Js.Str (toTimeString8 h m s)) = true /\
  updateUserValidation_time (Js.Str (toTimeString8 h m s)) = true /\
  secondsOfDay (toTimeString8 h m s)
  = Some (Z.of_nat (secondsAfterMidnight h m s)).
Proof.
  intros Hh Hm Hs.
  assert (Regex.test timeFormat (toTimeString8 h m s) = true) as Ht
    by (apply test_lang; now apply clock_strings_lang).
  destruct (pad2_facts h ltac:(lia)) as (_ & _ & _ & Fh & _).
  destruct (pad2_facts m ltac:(lia)) as (_ & _ & _ & Fm & _).
  destruct (pad2_facts s ltac:(lia)) as (_ & _ & _ & Fs & _).
  unfold registerValidation_time, updateUserValidation_time, validatorString.
  rewrite Ht. split; [reflexivity|]. split; [reflexivity|].
  unfold secondsOfDay. rewrite split_colon_clock by lia.
  rewrite Fh, Fm, Fs. f_equal. unfold secondsAfterMidnight. lia.
Qed.

End ClockStrings.

Lemma checkLoginTime_chronological_witness :
  allowed (checkLoginTime (toTimeString8 2 30 0)
             (Js.Str (toTimeString8 22 0 0))
             (Js.Str (toTimeString8 6 0 0))) = true.
Proof.
  apply (checkLoginTime_chronological 22 0 0 6 0 0 2 30 0); try lia.
  right. unfold secondsAfterMidnight. lia.
Defined.

Lemma clock_strings_accepted_witness :
  registerValidation_time (Js.Str (toTimeString8 23 59 59)) = true /\
  updateUserValidation_time (Js.Str (toTimeString8 23 59 59)) = true /\
  secondsOfDay (toTimeString8 23 59 59)
  = Some (Z.of_nat (secondsAfterMidnight 23 59 59)).
Proof. apply (clock_strings_accepted 23 59 59); lia. Defined.

(** ** Upstream validation of the time bounds *)

(** C8. Both validators accept the bound "9:00", whose hour has a single
    digit, and it is stored as it is.  The string order then places 9:00
    after 10:00:00, against the order of the times the two strings denote,
    and an employee registered with the window 9:00 to 18:00 is allowed at
    03:00:00, which the same window written 09:00 to 18:00 refuses. *)
Theorem validators_accept_unpadded_hour :
  registerValidation_time (Js.Str "9:00") = true /\
  updateUserValidation_time (Js.Str "9:00") = true /\
  storedBound (Js.Str "9:00") = Some "9:00" /\
  secondsOfDay "9:00" = Some 32400 /\
  secondsOfDay "10:00:00" = Some 36000 /\
  Js.gt "9:00" "10:00:00" = true /\
  allowed (checkLoginTime "03:00:00" (Js.Str "9:00") (Js.Str "18:00")) = true /\
  allowed (checkLoginTime "03:00:00" (Js.Str "09:00") (Js.Str "18:00")) = false.
Proof. repeat split. Qed.

(** A bound without seconds is accepted as well, and as a string it lies
    before the clock string of the very time it denotes: the window 09:00
    to 18:00 is closed at 18:00:00, the window 09:00:00 to 18:00:00 is not. *)
Example bound_without_seconds :
  registerValidation_time (Js.Str "18:00") = true /\
  secondsOfDay "18:00" = secondsOfDay "18:00:00" /\
  Js.le "18:00:00" "18:00" = false /\
  allowed (checkLoginTime "18:00:00" (Js.Str "09:00") (Js.Str "18:00")) = false /\
  allowed (checkLoginTime "18:00:00" (Js.Str "09:00:00") (Js.Str "18:00:00"))
  = true.
Proof. repeat split. Qed.

(** What the validators do refuse. *)
Example validators_refuse :
  registerValidation_time (Js.Str "24:00") = false /\
  registerValidation_time (Js.Str "09:60") = false /\
  registerValidation_time (Js.Str "0900") = false /\
  registerValidation_time (Js.Str "09:00:00 ") = false /\
  registerValidation_time (Js.Str "") = false /\
  registerValidation_time Js.Null = false /\
  updateUserValidation_time (Js.Str "9am") = false.
Proof. repeat split. Qed.

Example validators_accept :
  registerValidation_time Js.Undefined = true /\
  registerValidation_time (Js.Str "09:00") = true /\
  registerValidation_time (Js.Str "23:59:59") = true /\
  updateUserValidation_time Js.Null = true /\
  updateUserValidation_time (Js.Str "") = true /\
  updateUserValidation_time (Js.Str "18:00:00") = true.
Proof. repeat split. Qed.

(** ** Session queries and clean-up *)

Section SessionQueries.

Import LoginSession.

Implicit Types (t : gmap Z row) (r : row) (x y : record) (l : list record).

(** [x] is at least as recent as [y]. *)
Lemma insertDesc_perm x l : insertDesc x l ≡ₚ x :: l.
Proof.
  induction l as [|y l IH]; simpl; [reflexivity|].
  destruct (Z.leb _ _); [reflexivity|].
  rewrite IH. apply Permutation_swap.
Qed.

Lemma sortDesc_perm l : sortDesc l ≡ₚ l.
Proof.
  induction l as [|x l IH]; simpl; [reflexivity|].
  now rewrite insertDesc_perm, IH.
Qed.

Lemma insertDesc_sorted x l :
  StronglySorted (fun a b => loginTime b.2 <= loginTime a.2) l ->
  StronglySorted (fun a b => loginTime b.2 <= loginTime a.2) (insertDesc x l).
Proof.
  induction 1 as [|y l Hs IH Hall]; simpl.
  - repeat constructor.
  - destruct (Z.leb_spec (loginTime y.2) (loginTime x.2)) as [Hle|Hgt].
    + constructor; [now constructor|].
      constructor; [assumption|].
      eapply Forall_impl; [exact Hall|]. simpl. intros z Hz. lia.
    + constructor; [assumption|].
      rewrite insertDesc_perm. constructor; [lia | assumption].
Qed.

Lemma sortDesc_sorted l :
  StronglySorted (fun a b => loginTime b.2 <= loginTime a.2) (sortDesc l).
Proof.
  induction l as [|x l IH]; simpl; [constructor | now apply insertDesc_sorted].
Qed.

Lemma sorted_lookup (R : record -> record -> Prop) l i j x y :
  StronglySorted R l -> (i < j)%nat ->
  l !! i = Some x -> l !! j = Some y -> R x y.
Proof.
  intros Hs. revert i j. induction Hs as [|a l Hs IH Hall]; intros i j Hij Hi Hj.
  - now rewrite lookup_nil in Hi.
  - destruct j as [|j]; [lia|]. simpl in Hj. destruct i as [|i]; simpl in Hi.
    + injection Hi as ->. rewrite Forall_forall in Hall. apply Hall.
      eapply list_elem_of_lookup_2. exact Hj.
    + apply (IH i j); [lia | assumption | assumption].
Qed.

Lemma findMany_elem (where_ : row -> bool) t x :
  x ∈ findMany where_ t <-> t !! x.1 = Some x.2 /\ where_ x.2 = true.
Proof.
  unfold findMany. rewrite sortDesc_perm, list_elem_of_filter.
  destruct x as [id r]. simpl.
  pose proof (elem_of_map_to_list t id r). tauto.
Qed.

Lemma findMany_NoDup (where_ : row -> bool) t : NoDup (findMany where_ t).
Proof.
  unfold findMany. rewrite sortDesc_perm.
  apply NoDup_filter, NoDup_map_to_list.
Qed.

Lemma findMany_length (where_ : row -> bool) t :
  length (findMany where_ t) = count where_ t.
Proof. unfold findMany, count. now rewrite sortDesc_perm. Qed.

Lemma findMany_newest_first (where_ : row -> bool) t i j x y :
  (i < j)%nat -> findMany where_ t !! i = Some x ->
  findMany where_ t !! j = Some y -> loginTime y.2 <= loginTime x.2.
Proof.
  intros Hij Hi Hj.
  apply (sorted_lookup (fun a b => loginTime b.2 <= loginTime a.2)
           (findMany where_ t) i j x y); try assumption.
  apply sortDesc_sorted.
Qed.

Lemma count_zero (where_ : row -> bool) t :
  (forall id r, t !! id = Some r -> where_ r = false) -> count where_ t = 0%nat.
Proof.
  intros H. unfold count. apply length_zero_iff_nil.
  apply elem_of_nil_inv. intros [id r] Hin.
  apply list_elem_of_filter in Hin as [Hw Hin]. simpl in Hw.
  apply elem_of_map_to_list in Hin. rewrite (H _ _ Hin) in Hw. discriminate.
Qed.

Lemma count_pos (where_ : row -> bool) t id r :
  t !! id = Some r -> where_ r = true -> (1 <= count where_ t)%nat.
Proof.
  intros Hl Hw. unfold count.
  assert ((id, r) ∈ filter (fun kr : record => where_ kr.2 = true) (map_to_list t))
    as Hin.
  { apply list_elem_of_filter. split; [exact Hw|]. now apply elem_of_map_to_list. }
  destruct (filter _ (map_to_list t)); [now apply elem_of_nil in Hin | simpl; lia].
Qed.

Lemma count_mono (p q : row -> bool) t :
  (forall r, p r = true -> q r = true) -> (count p t <= count q t)%nat.
Proof.
  intros H. unfold count. induction (map_to_list t) as [|a l IH]; [reflexivity|].
  rewrite !filter_cons.
  destruct (decide (p a.2 = true)) as [Hp|Hp].
  - rewrite decide_True by now apply H. simpl. lia.
  - destruct (decide (q a.2 = true)); simpl; lia.
Qed.

(** An order the database may choose for [orderBy: { loginTime: "desc" }]:
    the same records, none before a more recent one. *)
Definition descending (order : list record -> list record) : Prop :=
  forall l, order l ≡ₚ l /\
            StronglySorted (fun a b => loginTime b.2 <= loginTime a.2) (order l).

Lemma sortDesc_descending : descending sortDesc.
Proof. intros l. split; [apply sortDesc_perm | apply sortDesc_sorted]. Qed.

Lemma ordered_elem order (where_ : row -> bool) t x :
  descending order ->
  x ∈ order (filter (fun kr : record => where_ kr.2 = true) (map_to_list t))
  <-> t !! x.1 = Some x.2 /\ where_ x.2 = true.
Proof.
  intros Ho. rewrite (proj1 (Ho _)), list_elem_of_filter.
  destruct x as [id r]. simpl.
  pose proof (elem_of_map_to_list t id r). tauto.
Qed.

Lemma ordered_NoDup order (where_ : row -> bool) t :
  descending order ->
  NoDup (order (filter (fun kr : record => where_ kr.2 = true) (map_to_list t))).
Proof.
  intros Ho. rewrite (proj1 (Ho _)). apply NoDup_filter, NoDup_map_to_list.
Qed.

Lemma ordered_length order (where_ : row -> bool) t :
  descending order ->
  length (order (filter (fun kr : record => where_ kr.2 = true) (map_to_list t)))
  = count where_ t.
Proof. intros Ho. unfold count. now rewrite (proj1 (Ho _)). Qed.

(** X1. One page of [findByUserId], for a limit and an offset that are not
    negative and whatever order the database chooses among equal login
    times: the page holds sessions of that identity only, newest first and
    without repetition, as many as [limit] allows of what lies behind
    [offset], and [total] counts the sessions of the identity: the page
    from offset 0 with limit [total] has [total] entries and lists exactly
    the sessions of the identity.  A negative offset and a limit or offset
    that is no number are refused; a negative limit gives at most that many
    sessions of the identity; the defaults are 20 and 0. *)
Theorem findByUserId_pages order uid (limit offset : Z) t :
  descending order -> 0 <= limit -> 0 <= offset ->
  exists page total,
    findByUserId order uid (Some (Int limit)) (Some (Int offset)) t
    = Ok (page, total) /\
    (forall x, x ∈ page -> t !! x.1 = Some x.2 /\ userId x.2 = uid) /\
    (forall i j x y, (i < j)%nat -> page !! i = Some x -> page !! j = Some y ->
                     loginTime y.2 <= loginTime x.2) /\
    NoDup page /\
    length page = Nat.min (Z.to_nat limit) (total - Z.to_nat offset) /\
    (forall order', descending order' ->
       exists all,
         findByUserId order' uid (Some (Int (Z.of_nat total))) (Some (Int 0)) t
         = Ok (all, total) /\
         length all = total /\ NoDup all /\
         forall x, x ∈ all <-> t !! x.1 = Some x.2 /\ userId x.2 = uid) /\
    (forall n k, k < 0 ->
       findByUserId order uid (Some (Int n)) (Some (Int k)) t
       = Raise "PrismaClientValidationError") /\
    (forall o, findByUserId order uid (Some NaN) o t
               = Raise "PrismaClientValidationError") /\
    (forall n, findByUserId order uid (Some (Int n)) (Some NaN) t
               = Raise "PrismaClientValidationError") /\
    (forall n, n < 0 ->
       exists last,
         findByUserId order uid (Some (Int n)) (Some (Int offset)) t
         = Ok (last, total) /\
         (length last <= Z.to_nat (- n))%nat /\
         forall x, x ∈ last -> t !! x.1 = Some x.2 /\ userId x.2 = uid) /\
    findByUserId order uid None None t
    = findByUserId order uid (Some (Int 20)) (Some (Int 0)) t.
Proof.
  intros Ho Hlimit Hoffset.
  set (mine := fun r : row => Z.eqb (userId r) uid).
  set (all := order (filter (fun kr : record => mine kr.2 = true) (map_to_list t))).
  assert (forall x, x ∈ all <-> t !! x.1 = Some x.2 /\ userId x.2 = uid) as Hall.
  { intros x. unfold all. rewrite (ordered_elem order mine t x Ho).
    unfold mine. now rewrite Z.eqb_eq. }
  assert (length all = count mine t) as Hlen by now apply ordered_length.
  exists (take (Z.to_nat limit) (drop (Z.to_nat offset) all)), (count mine t).
  split.
  { unfold findByUserId, findManyPage. fold mine. fold all.
    destruct (Z.ltb_spec offset 0) as [?|_]; [lia|].
    destruct (Z.ltb_spec limit 0) as [?|_]; [lia|]. reflexivity. }
  split.
  { intros x Hx. apply Hall. eapply elem_of_sublist; [exact Hx|].
    etrans; [apply sublist_take | apply sublist_drop]. }
  split.
  { intros i j x y Hij Hi Hj.
    apply lookup_take_Some in Hi as [Hi _]. apply lookup_take_Some in Hj as [Hj _].
    rewrite lookup_drop in Hi, Hj.
    apply (sorted_lookup (fun a b => loginTime b.2 <= loginTime a.2) all
             (Z.to_nat offset + i) (Z.to_nat offset + j) x y);
      [apply (proj2 (Ho _)) | lia | exact Hi | exact Hj]. }
  split.
  { eapply sublist_NoDup; [now apply (ordered_NoDup order mine t)|].
    etrans; [apply sublist_take | apply sublist_drop]. }
  split; [now rewrite length_take, length_drop, Hlen|].
  split.
  { intros order' Ho'.
    set (all' := order' (filter (fun kr : record => mine kr.2 = true)
                           (map_to_list t))).
    assert (length all' = count mine t) as Hlen' by now apply ordered_length.
    exists all'. split.
    { unfold findByUserId, findManyPage. fold mine. fold all'.
      destruct (Z.ltb_spec 0 0) as [?|_]; [lia|].
      destruct (Z.ltb_spec (Z.of_nat (count mine t)) 0) as [?|_]; [lia|].
      rewrite Nat2Z.id, drop_0, <- Hlen', firstn_all. reflexivity. }
    split; [exact Hlen'|].
    split; [now apply (ordered_NoDup order' mine t)|].
    intros x. unfold all'. rewrite (ordered_elem order' mine t x Ho').
    unfold mine. now rewrite Z.eqb_eq. }
  split.
  { intros n k Hk. unfold findByUserId, findManyPage.
    destruct (Z.ltb_spec k 0) as [_|?]; [reflexivity | lia]. }
  split; [intros [[k|]|]; reflexivity|].
  split; [reflexivity|].
  split.
  { intros n Hn.
    exists (reverse (take (Z.to_nat (- n))
                       (drop (Z.to_nat offset) (reverse all)))).
    split.
    { unfold findByUserId, findManyPage. fold mine. fold all.
      destruct (Z.ltb_spec offset 0) as [?|_]; [lia|].
      destruct (Z.ltb_spec n 0) as [_|?]; [reflexivity | lia]. }
    split.
    { rewrite length_reverse, length_take. lia. }
    intros x Hx. apply Hall. apply (proj1 (elem_of_reverse x _)) in Hx.
    apply (proj1 (elem_of_reverse x all)). eapply elem_of_sublist; [exact Hx|].
    etrans; [apply sublist_take | apply sublist_drop]. }
  reflexivity.
Qed.

Lemma active_test uid r :
  Z.eqb (userId r) uid && isValid r && isNull (logoutTime r) = true
  <-> userId r = uid /\ isValid r = true /\ logoutTime r = None.
Proof.
  rewrite !andb_true_iff, Z.eqb_eq.
  destruct (logoutTime r); simpl; intuition congruence.
Qed.

Lemma valid_test uid r :
  Z.eqb (userId r) uid && isValid r = true
  <-> userId r = uid /\ isValid r = true.
Proof. now rewrite andb_true_iff, Z.eqb_eq. Qed.

Lemma count_ext (p q : row -> bool) t :
  (forall id r, t !! id = Some r -> p r = q r) -> count p t = count q t.
Proof.
  intros H. unfold count.
  assert (forall kr, kr ∈ map_to_list t -> p kr.2 = q kr.2) as H'.
  { intros [id r] Hin. apply elem_of_map_to_list in Hin. now apply (H id). }
  induction (map_to_list t) as [|a l IH]; [reflexivity|].
  rewrite !filter_cons, (H' a) by left.
  destruct (decide (q a.2 = true)); simpl; rewrite IH; auto;
    intros kr Hkr; apply H'; now right.
Qed.

(** X2. [invalidateAllSessions] closes every valid session of the identity
    and nothing else: such a record gets [isValid = false] and
    [logoutTime = now], every other record stays as it is and no record is
    added or lost; afterwards the identity has no valid and no active
    session, and a second call changes nothing and reports 0.  When the
    table is consistent, the number reported is the number of sessions that
    were active. *)
Theorem invalidateAllSessions_contract now uid t :
  let n := (invalidateAllSessions now uid t).1 in
  let t' := (invalidateAllSessions now uid t).2 in
  (forall id, t' !! id
              = (fun r => if decide (userId r = uid /\ isValid r = true)
                          then close now r else r) <$> t !! id) /\
  (forall id r, t' !! id = Some r -> userId r = uid -> isValid r = false) /\
  getActiveSessions uid t' = [] /\
  (forall now', invalidateAllSessions now' uid t' = (0%nat, t')) /\
  (allConsistent t -> n = length (getActiveSessions uid t)).
Proof.
  intros n t'.
  assert (forall id, t' !! id
              = (fun r => if decide (userId r = uid /\ isValid r = true)
                          then close now r else r) <$> t !! id) as Hlk.
  { intros id. unfold t'. rewrite invalidateAllSessions_lookup.
    destruct (t !! id) as [r|]; simpl; [|reflexivity]. f_equal.
    destruct (Z.eqb (userId r) uid && isValid r) eqn:E.
    - apply valid_test in E. now rewrite decide_True.
    - rewrite decide_False; [reflexivity|].
      intros H. apply valid_test in H. congruence. }
  assert (forall id r, t' !! id = Some r -> userId r = uid -> isValid r = false)
    as Hnone.
  { intros id r. rewrite Hlk. destruct (t !! id) as [r0|]; simpl; [|discriminate].
    destruct (decide _) as [Hd|Hd]; intros [= <-]; [reflexivity|].
    simpl. intros Hu. destruct (isValid r0); [|reflexivity]. now destruct Hd. }
  split; [exact Hlk|]. split; [exact Hnone|]. split; [|split].
  - apply length_zero_iff_nil. unfold getActiveSessions.
    rewrite findMany_length. apply count_zero.
    intros id r Hl. destruct (_ && _) eqn:E; [|reflexivity].
    apply active_test in E as (Hu & Hv & _).
    rewrite (Hnone id r Hl Hu) in Hv. discriminate.
  - intros now'. unfold invalidateAllSessions at 1, updateMany. f_equal.
    + apply (count_zero (fun r => Z.eqb (userId r) uid && isValid r)).
      intros id r Hl.
      destruct (_ && _) eqn:E; [|reflexivity].
      apply valid_test in E as (Hu & Hv).
      rewrite (Hnone id r Hl Hu) in Hv. discriminate.
    + apply map_eq. intros id. rewrite lookup_fmap.
      destruct (t' !! id) as [r|] eqn:Hl; simpl; [|reflexivity]. f_equal.
      destruct (_ && _) eqn:E; [|reflexivity].
      apply valid_test in E as (Hu & Hv).
      rewrite (Hnone id r Hl Hu) in Hv. discriminate.
  - intros Hinv. unfold n, getActiveSessions.
    rewrite findMany_length. unfold invalidateAllSessions, updateMany. simpl.
    apply (count_ext (fun r => Z.eqb (userId r) uid && isValid r)).
    intros id r Hl.
    destruct (Hinv id r Hl) as [H1 H2].
    destruct (Z.eqb (userId r) uid); simpl; [|reflexivity].
    destruct (isValid r); simpl; [|reflexivity].
    now rewrite H1.
Qed.

(** X3. [getActiveSessions] lists exactly the sessions of the identity that
    are valid and have no logout time, newest first and each once; a
    session just created is among them; the session that [endSession]
    ends is no longer, while every other active session stays listed and
    none is added; and when [endSession] finds nothing to end, the list is
    as before. *)
Theorem getActiveSessions_contract uid t :
  (forall x, x ∈ getActiveSessions uid t <->
             t !! x.1 = Some x.2 /\ userId x.2 = uid /\
             isValid x.2 = true /\ logoutTime x.2 = None) /\
  NoDup (getActiveSessions uid t) /\
  (forall i j x y, (i < j)%nat ->
     getActiveSessions uid t !! i = Some x ->
     getActiveSessions uid t !! j = Some y ->
     loginTime y.2 <= loginTime x.2) /\
  (forall now ip ua,
     (create now uid ip ua t).1
       ∈ getActiveSessions uid (create now uid ip ua t).2) /\
  (forall now x,
     (endSession now uid t).1 = Ok (Some x) ->
     (x ∉ getActiveSessions uid (endSession now uid t).2) /\
     forall y, y ∈ getActiveSessions uid (endSession now uid t).2 <->
               y.1 <> x.1 /\ y ∈ getActiveSessions uid t) /\
  (forall now,
     (endSession now uid t).1 = Ok None ->
     getActiveSessions uid (endSession now uid t).2 = getActiveSessions uid t).
Proof.
  assert (forall t0 x, x ∈ getActiveSessions uid t0 <->
             t0 !! x.1 = Some x.2 /\ userId x.2 = uid /\
             isValid x.2 = true /\ logoutTime x.2 = None) as Hmem.
  { intros t0 x. unfold getActiveSessions.
    rewrite findMany_elem, active_test. tauto. }
  split; [apply Hmem|]. split; [apply findMany_NoDup|].
  split; [|split; [|split]].
  - intros i j x y. apply findMany_newest_first.
  - intros now ip ua. apply Hmem. rewrite create_unfold. simpl.
    rewrite lookup_insert_eq. auto.
  - intros now x Hx.
    destruct (endSession_cases now uid t) as [(id & r & Hl & Ho & _ & E)|[_ E]];
      rewrite E in Hx |- *; simpl in *; [|discriminate].
    injection Hx as <-. split.
    + rewrite Hmem. simpl. intros (_ & _ & Hv & _). discriminate.
    + intros y. rewrite !Hmem.
      destruct (decide (y.1 = id)) as [->|Hne].
      * rewrite lookup_insert_eq. simpl. split.
        -- intros ([= <-] & _ & Hv & _). discriminate.
        -- intros (Hc & _). now destruct Hc.
      * simpl. rewrite lookup_insert_ne by congruence. tauto.
  - intros now Hx.
    destruct (endSession_cases now uid t) as [(id & r & Hl & Ho & _ & E)|[_ E]];
      rewrite E in Hx |- *; simpl in *; [discriminate | reflexivity].
Qed.

(** X4. [deleteOldSessions] removes exactly the sessions that logged in
    before the cut-off (90 days back unless told otherwise), reports how
    many they were, leaves the other records as they are, and finds nothing
    left to remove when run again with the same cut-off. *)
Theorem deleteOldSessions_contract (daysAgo : Z -> Z) (daysOld : option Z) t :
  let cutoff := daysAgo (match daysOld with Some d => d | None => 90 end) in
  let n := (deleteOldSessions daysAgo daysOld t).1 in
  let t' := (deleteOldSessions daysAgo daysOld t).2 in
  (forall id r, t' !! id = Some r <-> t !! id = Some r /\ cutoff <= loginTime r) /\
  (n + size t' = size t)%nat /\
  deleteOldSessions daysAgo daysOld t' = (0%nat, t') /\
  (allConsistent t -> allConsistent t').
Proof.
  intros cutoff n t'.
  assert (forall id r, t' !! id = Some r <-> t !! id = Some r /\ cutoff <= loginTime r)
    as Hlk.
  { intros id r. unfold t', deleteOldSessions, deleteMany. simpl.
    rewrite map_lookup_filter_Some. simpl. fold cutoff.
    rewrite Z.ltb_ge. tauto. }
  split; [exact Hlk|]. split; [|split].
  - unfold n, t', deleteOldSessions, deleteMany, count. simpl. fold cutoff.
    rewrite <- !length_map_to_list.
    set (old := fun kr : record => Z.ltb (loginTime kr.2) cutoff = true).
    assert (map_to_list (filter (fun kr : Z * row => Z.ltb (loginTime kr.2) cutoff = false) t)
            ≡ₚ filter (fun kr => ~ old kr) (map_to_list t)) as ->.
    { apply NoDup_Permutation.
      - apply NoDup_map_to_list.
      - apply NoDup_filter, NoDup_map_to_list.
      - intros [id r]. rewrite elem_of_map_to_list, map_lookup_filter_Some,
          list_elem_of_filter. unfold old. simpl.
        pose proof (elem_of_map_to_list t id r).
        destruct (Z.ltb (loginTime r) cutoff); intuition congruence. }
    pose proof (filter_app_complement old (map_to_list t)) as Hp.
    apply Permutation_length in Hp. rewrite length_app in Hp. exact Hp.
  - unfold deleteOldSessions at 1, deleteMany. fold cutoff. f_equal.
    + apply (count_zero (fun r => Z.ltb (loginTime r) cutoff)).
      intros id r Hl. apply Hlk in Hl as [_ Hl].
      now apply Z.ltb_ge.
    + apply map_eq. intros id. apply option_eq. intros r.
      rewrite map_lookup_filter_Some. simpl. rewrite Z.ltb_ge.
      split; [tauto|]. intros Hl. split; [exact Hl|]. now apply Hlk in Hl.
  - intros Hinv id r Hl. apply Hlk in Hl as [Hl _]. now apply (Hinv id).
Qed.

(** X5. The statistics of [getStats]: when the 30-day mark is not after the
    7-day mark, the logins of the last 7 days are among those of the last
    30 days and these among all logins; [last_login] is missing exactly
    when the identity never logged in, and otherwise is the latest
    [loginTime] of the identity. *)
Theorem getStats_contract (daysAgo : Z -> Z) uid t :
  daysAgo 30 <= daysAgo 7 ->
  let s := getStats daysAgo uid t in
  (logins_last_7_days s <= logins_last_30_days s <= total_logins s)%nat /\
  (last_login s = None <-> total_logins s = 0%nat) /\
  (forall when, last_login s = Some when ->
     (exists id r, t !! id = Some r /\ userId r = uid /\ loginTime r = when) /\
     (forall id r, t !! id = Some r -> userId r = uid -> loginTime r <= when) /\
     (daysAgo 7 <= when -> (1 <= logins_last_7_days s)%nat)).
Proof.
  intros Hmark s. unfold s, getStats. simpl. split; [|split].
  - split; apply count_mono; intros r; rewrite ?andb_true_iff, ?Z.leb_le.
    + intros [H1 H2]. split; [exact H1 | lia].
    + tauto.
  - destruct (findFirst _ t) as [[id r]|] eqn:E.
    + split; [discriminate|]. intros Hz. exfalso.
      apply findFirst_Some in E as (Hl & Hw & _).
      pose proof (count_pos (fun r0 => Z.eqb (userId r0) uid) t id r Hl Hw). lia.
    + split; [intros _|reflexivity]. apply count_zero.
      now apply findFirst_None.
  - intros when. destruct (findFirst _ t) as [[id r]|] eqn:E; [|discriminate].
    intros [= <-]. simpl. apply findFirst_Some in E as (Hl & Hw & Hmax).
    split; [exists id, r; split; [exact Hl|]; split; [now apply Z.eqb_eq|reflexivity]|].
    split.
    + intros id' r' Hl' Hu'. apply (Hmax id' r' Hl'). now apply Z.eqb_eq.
    + intros Hrecent.
      apply (count_pos (fun r0 => Z.eqb (userId r0) uid
                                  && Z.leb (daysAgo 7) (loginTime r0)) t id r Hl).
      apply andb_true_iff. split; [exact Hw | now apply Z.leb_le].
Qed.

End SessionQueries.

Lemma findByUserId_pages_witness :
  exists page,
    LoginSession.findByUserId LoginSession.sortDesc 7
      (Some (LoginSession.Int 1)) (Some (LoginSession.Int 1)) exampleSessions
    = Ok (page, 2%nat) /\
    length page = 1%nat.
Proof.
  destruct (findByUserId_pages LoginSession.sortDesc 7 1 1 exampleSessions
              sortDesc_descending ltac:(lia) ltac:(lia))
    as (page & total & E & _ & _ & _ & Hlen & _).
  assert (total = 2%nat) as ->.
  { vm_compute in E. now injection E as _ <-. }
  exists page. split; [exact E | exact Hlen].
Defined.

Lemma getStats_contract_witness :
  let s := LoginSession.getStats exampleDaysAgo 7 exampleSessions in
  exampleDaysAgo 30 <= exampleDaysAgo 7 /\
  (LoginSession.logins_last_7_days s <= LoginSession.logins_last_30_days s
   <= LoginSession.total_logins s)%nat /\
  (LoginSession.last_login s = None <-> LoginSession.total_logins s = 0%nat).
Proof.
  intros s.
  assert (exampleDaysAgo 30 <= exampleDaysAgo 7) as H by (unfold exampleDaysAgo; lia).
  split; [exact H|].
  destruct (getStats_contract exampleDaysAgo 7 exampleSessions H) as (H1 & H2 & _).
  split; [exact H1 | exact H2].
Defined.

(** ** Identities: lookups and updates *)

Section Identities.

Implicit Types (t us : gmap Z User.row) (r : User.row).

Lemma findByEmail_Some e t id r :
  User.findByEmail e t = Some (id, r) -> t !! id = Some r /\ User.email r = e.
Proof.
  unfold User.findByEmail. intros H. apply head_Some_elem_of in H.
  apply list_elem_of_filter in H as [He Hin].
  apply elem_of_map_to_list in Hin. auto.
Qed.

Lemma findByEmail_None e t :
  User.findByEmail e t = None <->
  forall id r, t !! id = Some r -> User.email r <> e.
Proof.
  unfold User.findByEmail. rewrite head_None. split.
  - intros H id r Hl He.
    assert ((id, r) ∈ filter (fun kr : Z * User.row => User.email kr.2 = e)
                             (map_to_list t)) as Hin.
    { apply list_elem_of_filter. split; [exact He|].
      now apply elem_of_map_to_list. }
    rewrite H in Hin. now apply elem_of_nil in Hin.
  - intros H. apply elem_of_nil_inv. intros [id r] Hin.
    apply list_elem_of_filter in Hin as [He Hin].
    apply elem_of_map_to_list in Hin. now apply (H id r).
Qed.

Lemma findByEmail_unique e t id r :
  t !! id = Some r -> User.email r = e ->
  (forall j r', t !! j = Some r' -> User.email r' = e -> j = id) ->
  User.findByEmail e t = Some (id, r).
Proof.
  intros Hl He Hu.
  destruct (User.findByEmail e t) as [[j r']|] eqn:E.
  - apply findByEmail_Some in E as [Hl' He'].
    assert (j = id) as -> by now apply (Hu j r').
    rewrite Hl in Hl'. now injection Hl' as ->.
  - exfalso. apply (proj1 (findByEmail_None e t) E id r Hl He).
Qed.

Lemma emailExists_true e t :
  User.emailExists e t = true <->
  exists id r, t !! id = Some r /\ User.email r = e.
Proof.
  unfold User.emailExists. destruct (User.findByEmail e t) as [[id r]|] eqn:E.
  - apply findByEmail_Some in E. split; [intros _; now exists id, r | reflexivity].
  - split; [discriminate|]. intros (id & r & Hl & He).
    now destruct (proj1 (findByEmail_None e t) E id r Hl).
Qed.

Lemma user_keys_below_nextId t id r : t !! id = Some r -> id < User.nextId t.
Proof.
  unfold User.nextId. intros H. apply elem_of_map_to_list in H.
  induction (map_to_list t) as [|a l IH]; simpl.
  - now apply elem_of_nil in H.
  - apply elem_of_cons in H as [<-|H]; simpl; [lia|].
    specialize (IH H). lia.
Qed.

Lemma user_nextId_fresh t : t !! User.nextId t = None.
Proof.
  destruct (t !! User.nextId t) as [r|] eqn:E; [|reflexivity].
  apply user_keys_below_nextId in E. lia.
Qed.

Lemma setField_keeps key v r r' :
  User.setField key v r = Some r' ->
  User.email r' = User.email r /\ User.password r' = User.password r.
Proof.
  unfold User.setField.
  repeat match goal with
         | |- context [String.eqb key ?k] => destruct (String.eqb key k)
         end;
    destruct v as [s| |b]; try discriminate;
    repeat match goal with
           | |- context [String.eqb s ?k] => destruct (String.eqb s k)
           end;
    try discriminate; intros [= <-]; auto.
Qed.

Lemma setFields_keeps data r r' :
  User.setFields data r = Some r' ->
  User.email r' = User.email r /\ User.password r' = User.password r.
Proof.
  revert r. induction data as [|[key v] data IH]; intros r; simpl.
  - intros [= <-]. auto.
  - destruct (User.setField key v r) as [r1|] eqn:E; [|discriminate].
    intros H. apply IH in H as [H1 H2]. apply setField_keeps in E as [E1 E2].
    split; congruence.
Qed.

Lemma list_filter_idem {A} (f : A -> bool) (l : list A) :
  List.filter f (List.filter f l) = List.filter f l.
Proof.
  induction l as [|a l IH]; simpl; [reflexivity|].
  destruct (f a) eqn:E; simpl; [rewrite E, IH; reflexivity | exact IH].
Qed.

Lemma list_filter_none {A} (f : A -> bool) (l : list A) :
  (forall a, In a l -> f a = false) -> List.filter f l = [].
Proof.
  induction l as [|a l IH]; intros H; simpl; [reflexivity|].
  rewrite (H a) by now left. apply IH. intros x Hx. apply H. now right.
Qed.

(** X6. [User.update] writes the six listed fields and nothing else: whatever
    the [updates] object holds, keys outside the list have no effect, the
    email and the password hash of the row stay as they are, no other row is
    touched and none is added or removed; with no listed key present it
    answers [null] and writes nothing, and when it raises it writes
    nothing. *)
Theorem update_writes_listed_fields_only id (updates : list (string * User.value)) t :
  let res := (User.update id updates t).1 in
  let t' := (User.update id updates t).2 in
  User.update id updates t
  = User.update id
      (List.filter (fun kv => User.includes User.allowedFields kv.1) updates) t /\
  (forall j, j <> id -> t' !! j = t !! j) /\
  (forall r', t' !! id = Some r' ->
     exists r, t !! id = Some r /\ User.email r' = User.email r
               /\ User.password r' = User.password r) /\
  (t' !! id = None <-> t !! id = None) /\
  ((forall kv, In kv updates -> User.includes User.allowedFields kv.1 = false) ->
   res = Ok None /\ t' = t) /\
  (forall e, res = Raise e -> t' = t).
Proof.
  intros res t'. unfold res, t', User.update.
  rewrite list_filter_idem.
  set (data := List.filter _ updates).
  split; [reflexivity|].
  assert ((forall kv, In kv updates -> User.includes User.allowedFields kv.1 = false)
          -> data = []) as Hnil.
  { intros H. unfold data. now apply list_filter_none. }
  destruct data as [|d data'] eqn:Hd.
  { simpl. split; [reflexivity|]. split; [intros r' H; now exists r'|].
    split; [tauto|]. split; [intros _; split; reflexivity | intros; reflexivity]. }
  destruct (t !! id) as [r|] eqn:Hl.
  { destruct (User.setFields (d :: data') r) as [r1|] eqn:Hs; simpl.
    - split; [intros j Hj; now apply lookup_insert_ne|].
      split.
      + intros r'. rewrite lookup_insert_eq. intros [= <-].
        exists r. split; [reflexivity|]. now apply setFields_keeps in Hs.
      + split; [rewrite lookup_insert_eq; split; discriminate|].
        split; [intros H; apply Hnil in H; discriminate | discriminate].
    - split; [reflexivity|].
      split; [intros r' H; exists r'; split; [congruence|auto]|].
      split; [rewrite ?Hl; intuition congruence|].
      split; [intros H; apply Hnil in H; discriminate | reflexivity]. }
  simpl. split; [reflexivity|]. split; [intros r' H; congruence|].
  split; [rewrite ?Hl; intuition congruence|].
  split; [intros H; apply Hnil in H; discriminate | reflexivity].
Qed.

End Identities.

(** ** Account management *)

Section AccountManagement.

Variable bcrypt_hash : string -> string.
Variable bcrypt_compare : string -> string -> bool.
Variable parseInt : string -> option Z.
Variable userJson : Z * User.row -> Json.
Variable defaultIsActive : bool.
Variable jwt_verify : string -> JwtResult.
Variable jwt_sign : Claims -> string.
Variable clock : string.
Variable timestamp : Z.

Implicit Types (us : gmap Z User.row) (ss : gmap Z LoginSession.row).

Lemma uniqueEmails_insert_fresh us id r :
  uniqueEmails us -> us !! id = None ->
  (forall j r', us !! j = Some r' -> User.email r' <> User.email r) ->
  uniqueEmails (<[id := r]> us).
Proof.
  intros Hu Hf Hnew i j r1 r2.
  destruct (decide (i = id)) as [->|Hi], (decide (j = id)) as [->|Hj];
    rewrite ?lookup_insert_eq, ?lookup_insert_ne by congruence.
  - reflexivity.
  - intros [= <-] H2 He. symmetry in He. now destruct (Hnew j r2 H2).
  - intros H1 [= <-] He. now destruct (Hnew i r1 H1).
  - apply Hu.
Qed.

Lemma uniqueEmails_same_email us id r r' :
  uniqueEmails us -> us !! id = Some r -> User.email r' = User.email r ->
  uniqueEmails (<[id := r']> us).
Proof.
  intros Hu Hl He i j r1 r2.
  destruct (decide (i = id)) as [->|Hi], (decide (j = id)) as [->|Hj];
    rewrite ?lookup_insert_eq, ?lookup_insert_ne by congruence.
  - reflexivity.
  - intros [= <-] H2 E. symmetry. apply (Hu j id r2 r H2 Hl). congruence.
  - intros H1 [= <-] E. apply (Hu i id r1 r H1 Hl). congruence.
  - apply Hu.
Qed.

Lemma login_granted us ss req id u :
  User.findByEmail (req_email req) us = Some (id, u) ->
  User.isActive u = true ->
  bcrypt_compare (req_password req) (User.password u) = true ->
  (User.role u = employee ->
   allowed (checkLoginTime clock (Js.of_column (User.loginStartTime u))
              (Js.of_column (User.loginEndTime u))) = true) ->
  exists r tr,
    login jwt_sign bcrypt_compare clock timestamp req (fresh us ss)
    = (Sent r,
       mkWorld us
         (<[LoginSession.nextId ss :=
              LoginSession.defaults timestamp id (Js.or_null (req_ip req))
                (Js.or_null (req_userAgent req))]> ss) tr)
    /\ status r = 200.
Proof.
  intros Hf Ha Hp Hw. run_handler. rewrite Hf. simpl. rewrite Ha. simpl.
  rewrite Hp. simpl. destruct (User.role u); simpl.
  - unfold modifySessions. simpl. eexists _, _. split; reflexivity.
  - rewrite Hw by reflexivity. simpl. unfold modifySessions. simpl.
    eexists _, _. split; reflexivity.
Qed.

Lemma login_refused us ss req :
  (forall id u,
      User.findByEmail (req_email req) us = Some (id, u) ->
      ~ (User.isActive u = true /\
         bcrypt_compare (req_password req) (User.password u) = true /\
         (User.role u = employee ->
          allowed (checkLoginTime clock (Js.of_column (User.loginStartTime u))
                     (Js.of_column (User.loginEndTime u))) = true))) ->
  exists r tr,
    login jwt_sign bcrypt_compare clock timestamp req (fresh us ss)
    = (Sent r, mkWorld us ss tr)
    /\ (status r = 401 \/ status r = 403).
Proof.
  intros H. run_handler.
  destruct (User.findByEmail (req_email req) us) as [[id u]|]; simpl;
    [|eexists _, _; split; [reflexivity | now left]].
  specialize (H id u eq_refl).
  destruct (User.isActive u); simpl;
    [|eexists _, _; split; [reflexivity | now right]].
  destruct (bcrypt_compare _ _); simpl;
    [|eexists _, _; split; [reflexivity | now left]].
  destruct (User.role u); simpl.
  - exfalso. apply H. repeat split. discriminate.
  - destruct (allowed _) eqn:Hal; simpl.
    + exfalso. apply H. repeat split.
    + eexists _, _; split; [reflexivity | now right].
Qed.

Lemma register_fresh (b : RegisterBody) us ss :
  User.emailExists (rb_email b) us = false ->
  let id := User.nextId us in
  let r := registeredRow bcrypt_hash defaultIsActive b in
  register bcrypt_hash userJson defaultIsActive b (fresh us ss)
  = (Sent (mkResponse 201
             [("success", JBool true);
              ("message", JString "User registered successfully");
              ("data", userJson (id, r))]),
     fresh (<[id := r]> us) ss) /\
  us !! id = None /\
  (forall j r', us !! j = Some r' -> User.email r' <> rb_email b) /\
  User.findByEmail (rb_email b) (<[id := r]> us) = Some (id, r).
Proof.
  intros He id r. unfold register, tryCatch, bind, getUsers, fresh,
    modifyUsers, orThrow, send, ret.
  cbn -[User.emailExists User.create]. rewrite He. cbn [users sessions trace].
  unfold User.create. rewrite He. cbn. fold id.
  assert (us !! id = None) as Hf by apply user_nextId_fresh.
  assert (forall j r', us !! j = Some r' -> User.email r' <> rb_email b) as Hnew.
  { intros j r' Hl Heq.
    assert (User.emailExists (rb_email b) us = true) as Ht
      by (apply emailExists_true; now exists j, r').
    congruence. }
  split; [reflexivity|]. split; [exact Hf|]. split; [exact Hnew|].
  apply findByEmail_unique; [apply lookup_insert_eq | reflexivity |].
  intros j r' Hl Heq. destruct (decide (j = id)) as [->|Hne]; [reflexivity|].
  rewrite lookup_insert_ne in Hl by congruence. now destruct (Hnew j r' Hl).
Qed.

(** X7. [register] refuses an email that is already stored, with 409 and
    without writing; otherwise it stores one new identity under a fresh id,
    with the hash of the password, the role (employee when none is given)
    and the bounds ([null] when empty), answers 201, leaves the other
    identities and all sessions as they are, and keeps emails unique. *)
Theorem register_contract (b : RegisterBody) us ss :
  uniqueEmails us ->
  let run := register bcrypt_hash userJson defaultIsActive b (fresh us ss) in
  let id := User.nextId us in
  let r := registeredRow bcrypt_hash defaultIsActive b in
  (User.emailExists (rb_email b) us = true ->
   run = (Sent (failure 409 "User with this email already exists"),
          fresh us ss)) /\
  (User.emailExists (rb_email b) us = false ->
   us !! id = None /\
   run = (Sent (mkResponse 201
                  [("success", JBool true);
                   ("message", JString "User registered successfully");
                   ("data", userJson (id, r))]),
          fresh (<[id := r]> us) ss) /\
   uniqueEmails (<[id := r]> us) /\
   User.findByEmail (rb_email b) (<[id := r]> us) = Some (id, r)).
Proof.
  intros Hu run id r. split.
  - intros He. unfold run, register, tryCatch, bind, getUsers, fresh, send.
    cbn -[User.emailExists User.create]. now rewrite He.
  - intros He. destruct (register_fresh b us ss He) as (E & Hf & Hnew & Hfind).
    split; [exact Hf|]. split; [exact E|]. split; [|exact Hfind].
    apply uniqueEmails_insert_fresh; assumption.
Qed.

(** X8. A registered identity can log in at once with the registered email
    and password, when new identities are active by default and the
    registration is for an administrator or the clock is inside the
    registered window. *)
Theorem register_then_login (b : RegisterBody) us ss :
  User.emailExists (rb_email b) us = false ->
  defaultIsActive = true ->
  bcrypt_compare (rb_password b) (bcrypt_hash (rb_password b)) = true ->
  (rb_role b = Some admin \/
   allowed (checkLoginTime clock
              (Js.of_column (Js.or_null (rb_loginStartTime b)))
              (Js.of_column (Js.or_null (rb_loginEndTime b)))) = true) ->
  let w := (register bcrypt_hash userJson defaultIsActive b (fresh us ss)).2 in
  exists r,
    (login jwt_sign bcrypt_compare clock timestamp
       (credentials (rb_email b) (rb_password b))
       (fresh (users w) (sessions w))).1 = Sent r /\
    status r = 200 /\
    (forall j row, us !! j = Some row -> users w !! j = Some row).
Proof.
  intros He Hd Hp Hw w.
  destruct (register_fresh b us ss He) as (E & Hf & _ & Hfind).
  unfold w. rewrite E. cbn [snd users sessions fresh].
  destruct (login_granted (<[User.nextId us := registeredRow bcrypt_hash defaultIsActive b]> us)
              ss (credentials (rb_email b) (rb_password b))
              (User.nextId us) (registeredRow bcrypt_hash defaultIsActive b))
    as (r & tr & EL & Hs).
  - exact Hfind.
  - exact Hd.
  - exact Hp.
  - simpl. destruct Hw as [-> | Hw]; [discriminate | intros _; exact Hw].
  - exists r. rewrite EL. split; [reflexivity|]. split; [exact Hs|].
    intros j row Hl. rewrite lookup_insert_ne; [exact Hl | congruence].
Qed.

(** X9. [login] writes exactly one thing, and only when it succeeds: with a
    stored, active identity, the right password and (for an employee) an
    open window it answers 200 and adds one open session of that identity
    under a fresh id; in every other case it answers 401 or 403 and leaves
    the sessions as they are.  The identities are never written. *)
Theorem login_session_bookkeeping us ss req :
  let run := login jwt_sign bcrypt_compare clock timestamp req (fresh us ss) in
  let granted id u :=
    User.findByEmail (req_email req) us = Some (id, u) /\
    User.isActive u = true /\
    bcrypt_compare (req_password req) (User.password u) = true /\
    (User.role u = employee ->
     allowed (checkLoginTime clock (Js.of_column (User.loginStartTime u))
                (Js.of_column (User.loginEndTime u))) = true) in
  exists r,
    run.1 = Sent r /\ users run.2 = us /\
    (forall id u, granted id u ->
       status r = 200 /\
       ss !! LoginSession.nextId ss = None /\
       sessions run.2
       = <[LoginSession.nextId ss :=
             LoginSession.defaults timestamp id (Js.or_null (req_ip req))
               (Js.or_null (req_userAgent req))]> ss) /\
    ((forall id u, ~ granted id u) ->
       (status r = 401 \/ status r = 403) /\ sessions run.2 = ss).
Proof.
  intros run granted.
  assert ((exists id u, granted id u) \/ (forall id u, ~ granted id u)) as [Hg|Hn].
  { destruct (User.findByEmail (req_email req) us) as [[id u]|] eqn:Hf.
    - destruct (User.isActive u) eqn:Ha;
        [|right; intros i v (Hv & Hb & _); rewrite ?Hf in Hv; injection Hv as <- <-;
          congruence].
      destruct (bcrypt_compare (req_password req) (User.password u)) eqn:Hp;
        [|right; intros i v (Hv & _ & Hb & _); rewrite ?Hf in Hv;
          injection Hv as <- <-; congruence].
      destruct (User.role u) eqn:Hr.
      + left. exists id, u. unfold granted. rewrite ?Hf.
        repeat split; try assumption; try reflexivity; congruence.
      + destruct (allowed (checkLoginTime clock
                    (Js.of_column (User.loginStartTime u))
                    (Js.of_column (User.loginEndTime u)))) eqn:Hal.
        * left. exists id, u. unfold granted. rewrite ?Hf.
          repeat split; try assumption; try reflexivity. intros _. exact Hal.
        * right. intros i v (Hv & _ & _ & Hb). rewrite ?Hf in Hv.
          injection Hv as <- <-. specialize (Hb Hr). congruence.
    - right. intros i v (Hv & _). rewrite ?Hf in Hv. discriminate. }
  - destruct Hg as (id & u & Hf & Ha & Hp & Hw).
    destruct (login_granted us ss req id u Hf Ha Hp Hw) as (r & tr & E & Hs).
    exists r. unfold run. rewrite E. simpl.
    split; [reflexivity|]. split; [reflexivity|]. split.
    + intros id' u' (Hf' & _). rewrite Hf in Hf'. injection Hf' as <- <-.
      split; [exact Hs|]. split; [apply nextId_fresh | reflexivity].
    + intros Hno. now destruct (Hno id u).
  - destruct (login_refused us ss req) as (r & tr & E & Hs).
    { intros id u Hf Hg. apply (Hn id u). split; [exact Hf | exact Hg]. }
    exists r. unfold run. rewrite E. simpl.
    split; [reflexivity|]. split; [reflexivity|]. split.
    + intros id u Hg. now destruct (Hn id u).
    + intros _. split; [exact Hs | reflexivity].
Qed.

(** X10. A deactivated identity is refused at login before its password is
    looked at: the answer is 403 whatever password is sent, the password
    is not compared and the time window is not evaluated. *)
Theorem login_refuses_deactivated_first us ss req id u :
  User.findByEmail (req_email req) us = Some (id, u) ->
  User.isActive u = false ->
  login jwt_sign bcrypt_compare clock timestamp req (fresh us ss)
  = (Sent (failure 403 "Account has been deactivated. Please contact admin."),
     mkWorld us ss [FindUserByEmail (req_email req)]) /\
  forall password,
    (login jwt_sign bcrypt_compare clock timestamp
       (mkRequest (authorization req) (req_email req) password (req_ip req)
          (req_userAgent req) (req_user req)) (fresh us ss)).1
    = (login jwt_sign bcrypt_compare clock timestamp req (fresh us ss)).1.
Proof.
  intros Hf Ha. run_handler. rewrite Hf. simpl. rewrite Ha. simpl.
  split; reflexivity.
Qed.

(** X11. [logout] ends the most recent open session of the caller, if there
    is one, and answers 200 in either case; it writes no identity and no
    session of anybody else. *)
Theorem logout_contract us ss req id :
  reqUser_id (req_user req) = Some id ->
  let run := logout timestamp req (fresh us ss) in
  run.1 = Sent (mkResponse 200
                  [("success", JBool true);
                   ("message", JString "Logged out successfully")]) /\
  users run.2 = us /\
  sessions run.2 = (LoginSession.endSession timestamp id ss).2 /\
  (forall k r, ss !! k = Some r -> LoginSession.userId r <> id ->
               sessions run.2 !! k = Some r) /\
  ((forall k r, ss !! k = Some r -> ~ openFor id r) -> sessions run.2 = ss).
Proof.
  intros Hid run. unfold run, logout, tryCatch, bind, modifySessions, fresh.
  rewrite Hid. cbn [users sessions trace].
  destruct (endSession_cases timestamp id ss)
    as [(k & r & Hl & Ho & _ & E)|[Hn E]]; rewrite E; simpl.
  - split; [reflexivity|]. split; [reflexivity|]. split; [reflexivity|]. split.
    + intros j r' Hj Hu. destruct (decide (j = k)) as [->|Hne].
      * rewrite Hl in Hj. injection Hj as <-. now destruct Ho.
      * now rewrite lookup_insert_ne by congruence.
    + intros Hnone. now destruct (Hnone k r Hl).
  - split; [reflexivity|]. split; [reflexivity|]. split; [reflexivity|].
    split; [auto | reflexivity].
Qed.


(** *** Passwords *)

Lemma updatePassword_stored us id row p :
  us !! id = Some row ->
  User.updatePassword bcrypt_hash id p us
  = (Ok true, <[id := withPassword (bcrypt_hash p) row]> us).
Proof. intros H. unfold User.updatePassword. now rewrite H. Qed.

Lemma findByEmail_loaded us u row :
  uniqueEmails us ->
  us !! au_id u = Some row -> User.email row = au_email u ->
  User.findByEmail (au_email u) us = Some (au_id u, row).
Proof.
  intros Hu Hl He. apply findByEmail_unique; [exact Hl | exact He |].
  intros j r' Hj Hej. apply (Hu j (au_id u) r' row Hj Hl). congruence.
Qed.

Lemma changePassword_accepted us ss req u row cur new :
  uniqueEmails us ->
  req_user req = Loaded u ->
  us !! au_id u = Some row -> User.email row = au_email u ->
  bcrypt_compare cur (User.password row) = true ->
  changePassword bcrypt_hash bcrypt_compare (Js.Str cur) (Js.Str new) req
    (fresh us ss)
  = (Sent (mkResponse 200
             [("success", JBool true);
              ("message", JString "Password changed successfully")]),
     fresh (<[au_id u := withPassword (bcrypt_hash new) row]> us) ss).
Proof.
  intros Hu Hr Hl He Hp.
  unfold changePassword, tryCatch, bind, getUsers, fresh, modifyUsers,
    orThrow, send, ret.
  rewrite Hr. cbn [users sessions trace].
  rewrite (findByEmail_loaded us u row Hu Hl He). rewrite Hp.
  cbn [negb users sessions trace].
  rewrite (updatePassword_stored us (au_id u) row new Hl). reflexivity.
Qed.

(** X12. [changePassword] compares the current password with the stored hash
    of the caller: a wrong one gets 400 and nothing is written; a right one
    gets 200 and replaces the hash of the caller's row, and of that row
    only, by the hash of the new password.  In both cases the sessions are
    left as they are: the open sessions of the caller stay open. *)
Theorem changePassword_contract us ss req u row cur new :
  uniqueEmails us ->
  req_user req = Loaded u ->
  us !! au_id u = Some row -> User.email row = au_email u ->
  let run := changePassword bcrypt_hash bcrypt_compare (Js.Str cur)
               (Js.Str new) req (fresh us ss) in
  sessions run.2 = ss /\
  (bcrypt_compare cur (User.password row) = false ->
   run = (Sent (failure 400 "Current password is incorrect"), fresh us ss)) /\
  (bcrypt_compare cur (User.password row) = true ->
   run.1 = Sent (mkResponse 200
                   [("success", JBool true);
                    ("message", JString "Password changed successfully")]) /\
   users run.2 = <[au_id u := withPassword (bcrypt_hash new) row]> us /\
   (forall j, j <> au_id u -> users run.2 !! j = us !! j) /\
   uniqueEmails (users run.2)).
Proof.
  intros Hu Hr Hl He run.
  destruct (bcrypt_compare cur (User.password row)) eqn:Hp.
  - unfold run. rewrite (changePassword_accepted us ss req u row cur new) by assumption.
    cbn [fst snd fresh users sessions].
    split; [reflexivity|]. split; [discriminate|]. intros _.
    split; [reflexivity|]. split; [reflexivity|]. split.
    + intros j Hj. now rewrite lookup_insert_ne by congruence.
    + now apply (uniqueEmails_same_email us (au_id u) row).
  - assert (run = (Sent (failure 400 "Current password is incorrect"),
                   fresh us ss)) as E.
    { unfold run, changePassword, tryCatch, bind, getUsers, fresh, send.
      rewrite Hr. cbn [users sessions trace].
      rewrite (findByEmail_loaded us u row Hu Hl He). rewrite Hp. reflexivity. }
    rewrite E. split; [reflexivity|]. split; [reflexivity | discriminate].
Qed.

(** X13. After a password change the next login is decided by the new
    password alone: a password that does not match the new hash is refused
    with 401, whether or not it was the old one, and one that matches logs
    in. *)
Theorem changePassword_then_login us ss req u row cur new p :
  uniqueEmails us ->
  req_user req = Loaded u ->
  us !! au_id u = Some row -> User.email row = au_email u ->
  bcrypt_compare cur (User.password row) = true ->
  User.isActive row = true ->
  let w := (changePassword bcrypt_hash bcrypt_compare (Js.Str cur)
              (Js.Str new) req (fresh us ss)).2 in
  let attempt := login jwt_sign bcrypt_compare clock timestamp
                   (credentials (au_email u) p)
                   (fresh (users w) (sessions w)) in
  (bcrypt_compare p (bcrypt_hash new) = false ->
   attempt.1 = Sent (failure 401 "Invalid email or password")) /\
  (bcrypt_compare p (bcrypt_hash new) = true ->
   (User.role row = employee ->
    allowed (checkLoginTime clock (Js.of_column (User.loginStartTime row))
               (Js.of_column (User.loginEndTime row))) = true) ->
   exists r, attempt.1 = Sent r /\ status r = 200).
Proof.
  intros Hu Hr Hl He Hp Ha w attempt.
  unfold attempt, w.
  rewrite (changePassword_accepted us ss req u row cur new) by assumption.
  cbn [snd fresh users sessions].
  set (row' := withPassword (bcrypt_hash new) row).
  assert (User.findByEmail (au_email u) (<[au_id u := row']> us)
          = Some (au_id u, row')) as Hf.
  { apply findByEmail_unique; [apply lookup_insert_eq | exact He |].
    intros j r' Hj Hej. destruct (decide (j = au_id u)) as [->|Hne]; [reflexivity|].
    rewrite lookup_insert_ne in Hj by congruence.
    apply (Hu j (au_id u) r' row Hj Hl). congruence. }
  split.
  - intros Hq. run_handler. rewrite Hf. simpl. rewrite Ha. simpl.
    rewrite Hq. reflexivity.
  - intros Hq Hwin.
    destruct (login_granted (<[au_id u := row']> us) ss
                (credentials (au_email u) p) (au_id u) row')
      as (r & tr & E & Hs); try assumption.
    exists r. now rewrite E.
Qed.

(** X14. [resetUserPassword] checks the new password before it looks at the
    identity: a missing password or one of fewer than six characters (as
    JavaScript counts them, in UTF-16 code units) gets 400 even for an id
    that is not stored.  With an acceptable password, an id that is no
    number gets 500, an unknown id 404, and a stored id 200 with the hash
    of its row, and of that row only, replaced.  Nothing but that hash is
    written: sessions are left as they are. *)
Theorem resetUserPassword_contract us ss id (newPassword : Js.value) :
  let run := resetUserPassword bcrypt_hash parseInt id newPassword
               (fresh us ss) in
  sessions run.2 = ss /\
  ((Js.truthy newPassword = false
    \/ (Js.length (Js.to_string newPassword) < 6)%nat) ->
   run = (Sent (failure 400
                  "New password must be at least 6 characters long"),
          fresh us ss)) /\
  (forall p, newPassword = Js.Str p -> (6 <= Js.length p)%nat ->
     (parseInt id = None ->
      run = (Sent (failure 500 "Internal server error"), fresh us ss)) /\
     (forall k, parseInt id = Some k -> us !! k = None ->
        run = (Sent (failure 404 "User not found"), fresh us ss)) /\
     (forall k row, parseInt id = Some k -> us !! k = Some row ->
        run = (Sent (mkResponse 200
                       [("success", JBool true);
                        ("message", JString "Password reset successfully")]),
               fresh (<[k := withPassword (bcrypt_hash p) row]> us) ss))).
Proof.
  intros run.
  assert (forall p, newPassword = Js.Str p -> (6 <= Js.length p)%nat ->
            Js.not newPassword
            || Nat.ltb (Js.length (Js.to_string newPassword)) 6 = false)
    as Hgood.
  { intros p -> Hlen. apply orb_false_iff. split.
    - destruct p; [simpl in Hlen; lia | reflexivity].
    - apply Nat.ltb_ge. exact Hlen. }
  assert ((Js.truthy newPassword = false
           \/ (Js.length (Js.to_string newPassword) < 6)%nat) ->
          Js.not newPassword
          || Nat.ltb (Js.length (Js.to_string newPassword)) 6 = true)
    as Hbad.
  { intros [H|H]; apply orb_true_iff.
    - left. unfold Js.not. now rewrite H.
    - right. now apply Nat.ltb_lt. }
  unfold run, resetUserPassword, keyOf, tryCatch, bind, getUsers, fresh,
    modifyUsers, orThrow, send, ret, throw, User.findById, User.findUniqueById.
  split; [|split].
  - destruct (Js.not newPassword || _); [reflexivity|].
    destruct (parseInt id) as [k|]; [|reflexivity].
    cbn [users sessions trace].
    destruct (us !! k) as [row|] eqn:Hl; [|reflexivity].
    cbn [users sessions trace].
    rewrite (updatePassword_stored us k row _ Hl). reflexivity.
  - intros H. now rewrite (Hbad H).
  - intros p Hp Hlen. rewrite (Hgood p Hp Hlen). subst newPassword.
    split; [intros ->; reflexivity|]. split.
    + intros k -> Hl. cbn [users sessions trace]. now rewrite Hl.
    + intros k row -> Hl. cbn [users sessions trace]. rewrite Hl.
      cbn [users sessions trace].
      rewrite (updatePassword_stored us k row _ Hl). reflexivity.
Qed.

(** *** Removing and changing identities *)

(** X15. [deleteUser] never removes the caller: whatever id is asked for, the
    caller's own row is still there afterwards, and asking for one's own id
    gets 400 with nothing written.  For another id, a stored identity is
    removed with 200 and its id and email in the answer, an unknown one
    gets 404, and an id that is no number 500; no row other than the one
    asked for is touched. *)
Theorem deleteUser_contract us ss id req me :
  reqUser_id (req_user req) = Some me ->
  let run := deleteUser parseInt id req (fresh us ss) in
  users run.2 !! me = us !! me /\
  (forall j, parseInt id <> Some j -> users run.2 !! j = us !! j) /\
  (parseInt id = Some me ->
   run = (Sent (failure 400 "Cannot delete your own account"), fresh us ss)) /\
  (parseInt id = None ->
   run = (Sent (failure 500 "Internal server error"), fresh us ss)) /\
  (forall k, parseInt id = Some k -> k <> me ->
     match us !! k with
     | Some row =>
         run.1 = Sent (mkResponse 200
                         [("success", JBool true);
                          ("message", JString "User deleted successfully");
                          ("data", JObj [("id", JNum k);
                                         ("email", JString (User.email row))])])
         /\ users run.2 = base.delete k us
     | None => run = (Sent (failure 404 "User not found"), fresh us ss)
     end).
Proof.
  intros Hme run.
  unfold run, deleteUser, keyOf, deleteIdentity, tryCatch, bind, fresh, send,
    ret, throw, User.delete.
  rewrite Hme.
  destruct (parseInt id) as [k|] eqn:Hk; cbn [users sessions trace].
  - destruct (Z.eqb_spec k me) as [->|Hne]; cbn [users sessions trace fst snd].
    + split; [reflexivity|]. split; [reflexivity|]. split; [reflexivity|].
      split; [discriminate|]. intros k' [= <-] Hc. now destruct Hc.
    + destruct (us !! k) as [row|] eqn:Hl; cbn [users sessions trace fst snd].
      * split; [apply lookup_delete_ne; congruence|].
        split; [intros j Hj; apply lookup_delete_ne; congruence|].
        split; [intros [= E]; now destruct Hne|].
        split; [discriminate|].
        intros k' [= <-] _. rewrite Hl. split; reflexivity.
      * split; [reflexivity|]. split; [reflexivity|].
        split; [intros [= E]; now destruct Hne|].
        split; [discriminate|].
        intros k' [= <-] _. rewrite Hl. reflexivity.
  - split; [reflexivity|]. split; [reflexivity|]. split; [discriminate|].
    split; [reflexivity|]. discriminate.
Qed.

(** X16. An identity that was deleted can no longer get through the guard:
    a token of the deleted identity, however valid, is answered with 401
    "User not found". *)
Theorem deleteUser_revokes_access us ss id req me k row tokReq c tok cl :
  reqUser_id (req_user req) = Some me -> me <> k ->
  parseInt id = Some k -> us !! k = Some row ->
  tokenOf (authorization tokReq) = Js.Str (String c tok) ->
  jwt_verify (String c tok) = Decoded cl -> claim_userId cl = k ->
  let w := (deleteUser parseInt id req (fresh us ss)).2 in
  (authenticateToken jwt_verify clock tokReq (fresh (users w) (sessions w))).1
  = Sent (failure 401 "User not found").
Proof.
  intros Hid Hme Hk Hl Ht Hv Hc w.
  assert (users w = base.delete k us) as ->.
  { unfold w, deleteUser, keyOf, deleteIdentity, tryCatch, bind, fresh, send,
      ret, throw, User.delete.
    rewrite Hid, Hk. cbn [users sessions trace].
    destruct (Z.eqb_spec k me) as [->|Hne]; [now destruct Hme|].
    cbn [users sessions trace]. rewrite Hl. reflexivity. }
  run_handler. rewrite Ht. simpl. unfold bind, emit. simpl.
  rewrite Hv. simpl. rewrite Hc.
  unfold User.findUniqueById. rewrite lookup_delete_eq. reflexivity.
Qed.

(** *** Updating an identity *)

Lemma setFields_app l1 l2 r :
  User.setFields (l1 ++ l2) r
  = match User.setFields l1 r with
    | Some r1 => User.setFields l2 r1
    | None => None
    end.
Proof.
  revert r. induction l1 as [|[key v] l1 IH]; intros r; simpl; [reflexivity|].
  destruct (User.setField key v r); [apply IH | reflexivity].
Qed.



(** Every key [updateUser] puts into [updates] is one [User.update]
    writes. *)
Lemma buildUpdates_listed (b : UpdateBody) :
  List.filter (fun kv : string * User.value =>
                 User.includes User.allowedFields kv.1) (buildUpdates b)
  = buildUpdates b.
Proof.
  unfold buildUpdates.
  destruct (ub_name b), (ub_phone b), (ub_role b), (ub_loginStartTime b),
    (ub_loginEndTime b), (ub_isActive b); reflexivity.
Qed.

(** What a run of [updateUser] comes to, by cases. *)
Lemma updateUser_cases us ss id (b : UpdateBody) :
  let run := updateUser parseInt userJson id b (fresh us ss) in
  (exists k row row',
      parseInt id = Some k /\ us !! k = Some row /\ buildUpdates b <> [] /\
      User.setFields (buildUpdates b) row = Some row' /\
      run = (Sent (mkResponse 200
                     [("success", JBool true);
                      ("message", JString "User updated successfully");
                      ("data", userJson (k, row'))]),
             fresh (<[k := row']> us) ss))
  \/ (run.2 = fresh us ss /\
      ((parseInt id = None
        /\ run.1 = Sent (failure 500 "Internal server error"))
       \/ (exists k, parseInt id = Some k /\ us !! k = None
                     /\ run.1 = Sent (failure 404 "User not found"))
       \/ (exists k row, parseInt id = Some k /\ us !! k = Some row
                         /\ buildUpdates b = []
                         /\ run.1 = Sent (failure 400 "No fields to update"))
       \/ (exists k row, parseInt id = Some k /\ us !! k = Some row
                         /\ buildUpdates b <> []
                         /\ User.setFields (buildUpdates b) row = None
                         /\ run.1 = Sent (failure 500 "Internal server error")))).
Proof.
  intros run. unfold run, updateUser, keyOf, tryCatch, bind, getUsers, fresh,
    modifyUsers, orThrow, send, ret, throw, User.findById, User.findUniqueById.
  destruct (parseInt id) as [k|]; cbn [users sessions trace];
    [|right; split; [reflexivity | left; split; reflexivity]].
  destruct (us !! k) as [row|] eqn:Hl; cbn [users sessions trace];
    [|right; split; [reflexivity | right; left; exists k; auto]].
  destruct (buildUpdates b) as [|d ds] eqn:Hb;
    [right; split; [reflexivity | right; right; left; exists k, row; auto]|].
  cbn [users sessions trace]. unfold User.update.
  rewrite <- Hb, buildUpdates_listed, Hb, Hl.
  destruct (User.setFields (d :: ds) row) as [row'|] eqn:Hs.
  - left. exists k, row, row'. repeat split; try reflexivity; try assumption; discriminate.
  - right. split; [reflexivity|]. right; right; right. exists k, row.
    repeat split; try reflexivity; try assumption; discriminate.
Qed.

(** X17. [updateUser] writes at most the row it is asked for, and of that row
    never the email or the password hash; it adds and removes no row and
    leaves the sessions as they are.  An id that is no number gets 500, an
    unknown id 404, a body with none of the six fields 400, and whenever
    the answer is not 200 nothing is written. *)
Theorem updateUser_contract us ss id (b : UpdateBody) :
  let run := updateUser parseInt userJson id b (fresh us ss) in
  sessions run.2 = ss /\
  (forall j, parseInt id <> Some j -> users run.2 !! j = us !! j) /\
  (forall k, parseInt id = Some k ->
     match us !! k, users run.2 !! k with
     | Some row, Some row' =>
         User.email row' = User.email row
         /\ User.password row' = User.password row
     | None, None => True
     | _, _ => False
     end) /\
  (parseInt id = None ->
   run.1 = Sent (failure 500 "Internal server error")) /\
  (forall k, parseInt id = Some k -> us !! k = None ->
     run.1 = Sent (failure 404 "User not found")) /\
  (forall k row, parseInt id = Some k -> us !! k = Some row ->
     buildUpdates b = [] ->
     run.1 = Sent (failure 400 "No fields to update")) /\
  (forall r, run.1 = Sent r -> status r <> 200 -> run.2 = fresh us ss).
Proof.
  intros run.
  destruct (updateUser_cases us ss id b)
    as [(k & row & row' & Hk & Hl & Hb & Hs & E)
       |(E2 & [(Hk & E1)
              |[(k & Hk & Hl & E1)
               |[(k & row & Hk & Hl & Hb & E1)
                |(k & row & Hk & Hl & Hb & Hs & E1)]]])];
    fold run in E || fold run in E2, E1.
  - rewrite E. cbn [fst snd fresh users sessions].
    split; [reflexivity|].
    split; [intros j Hj; apply lookup_insert_ne; congruence|].
    split.
    { intros k' Hk'. assert (k' = k) as -> by congruence.
      rewrite Hl, lookup_insert_eq. now apply setFields_keeps in Hs. }
    split; [congruence|]. split; [congruence|]. split; [congruence|].
    intros r [= <-] Hst. now destruct Hst.
  - rewrite E2, E1. cbn [fresh users sessions].
    split; [reflexivity|]. split; [reflexivity|].
    split; [congruence|]. split; [reflexivity|].
    split; [congruence|]. split; [congruence|]. reflexivity.
  - rewrite E2, E1. cbn [fresh users sessions].
    split; [reflexivity|]. split; [reflexivity|].
    split.
    { intros k' Hk'. assert (k' = k) as -> by congruence. now rewrite Hl. }
    split; [congruence|]. split; [reflexivity|]. split; [congruence|].
    reflexivity.
  - rewrite E2, E1. cbn [fresh users sessions].
    split; [reflexivity|]. split; [reflexivity|].
    split.
    { intros k' Hk'. assert (k' = k) as -> by congruence. now rewrite Hl. }
    split; [congruence|]. split; [congruence|]. split; [reflexivity|].
    reflexivity.
  - rewrite E2, E1. cbn [fresh users sessions].
    split; [reflexivity|]. split; [reflexivity|].
    split.
    { intros k' Hk'. assert (k' = k) as -> by congruence. now rewrite Hl. }
    split; [congruence|]. split; [congruence|]. split; [congruence|].
    reflexivity.
Qed.

Lemma updateUser_succeeded us ss id (b : UpdateBody) r :
  (updateUser parseInt userJson id b (fresh us ss)).1 = Sent r ->
  status r = 200 ->
  exists k row row',
    parseInt id = Some k /\ us !! k = Some row /\
    User.setFields (buildUpdates b) row = Some row' /\
    (updateUser parseInt userJson id b (fresh us ss)).2
    = fresh (<[k := row']> us) ss.
Proof.
  intros Hr Hs.
  destruct (updateUser_cases us ss id b)
    as [(k & row & row' & Hk & Hl & Hb & Hf & E)
       |(_ & [(_ & E1)
             |[(k & _ & _ & E1)
              |[(k & row & _ & _ & _ & E1)
               |(k & row & _ & _ & _ & _ & E1)]]])].
  - exists k, row, row'. rewrite E. auto.
  - rewrite E1 in Hr. injection Hr as <-. discriminate.
  - rewrite E1 in Hr. injection Hr as <-. discriminate.
  - rewrite E1 in Hr. injection Hr as <-. discriminate.
  - rewrite E1 in Hr. injection Hr as <-. discriminate.
Qed.

(** X18. Deactivation takes effect at once: after an update with
    [isActive: false] that was answered with 200, every request that comes
    with a token of that identity, however valid, is answered with 403
    "Account has been deactivated". *)
Theorem updateUser_deactivation_revokes_access
    us ss id (b : UpdateBody) r k tokReq c tok cl :
  ub_isActive b = Some (User.VBool false) ->
  (updateUser parseInt userJson id b (fresh us ss)).1 = Sent r ->
  status r = 200 ->
  parseInt id = Some k ->
  tokenOf (authorization tokReq) = Js.Str (String c tok) ->
  jwt_verify (String c tok) = Decoded cl -> claim_userId cl = k ->
  let w := (updateUser parseInt userJson id b (fresh us ss)).2 in
  (authenticateToken jwt_verify clock tokReq (fresh (users w) (sessions w))).1
  = Sent (failure 403 "Account has been deactivated").
Proof.
  intros Hb Hr Hs Hk Ht Hv Hc w.
  destruct (updateUser_succeeded us ss id b r Hr Hs)
    as (k' & row & row' & Hk' & Hl & Hf & E).
  assert (k' = k) as -> by congruence.
  assert (User.isActive row' = false) as Hi.
  { revert Hf. unfold buildUpdates. rewrite Hb, !app_assoc, setFields_app.
    destruct (User.setFields _ row) as [r1|]; [|discriminate].
    simpl. intros [= <-]. reflexivity. }
  unfold w. rewrite E. cbn [fresh users sessions].
  run_handler. rewrite Ht. simpl. unfold bind, emit. simpl.
  rewrite Hv. simpl. rewrite Hc.
  unfold User.findUniqueById. rewrite lookup_insert_eq. simpl.
  rewrite Hi. reflexivity.
Qed.


(** *** Seeding *)

(** X20. [initializeDatabase] seeds only when [SEED_ADMIN] is the string
    "true", never throws, and never changes or removes a stored identity:
    it adds the default administrator when no identity has the email
    admin@fbs.com and does nothing when one has, so a second run changes
    nothing. *)
Theorem initializeDatabase_idempotent us ss (SEED_ADMIN : Js.value) :
  let init := initializeDatabase bcrypt_hash defaultIsActive SEED_ADMIN in
  let run := init (fresh us ss) in
  run.1 = Value tt /\ sessions run.2 = ss /\
  (forall j row, us !! j = Some row -> users run.2 !! j = Some row) /\
  (SEED_ADMIN <> Js.Str "true" -> users run.2 = us) /\
  (User.emailExists "admin@fbs.com" us = true -> users run.2 = us) /\
  (SEED_ADMIN = Js.Str "true" ->
   User.emailExists "admin@fbs.com" us = false ->
   exists id row,
     us !! id = None /\ users run.2 = <[id := row]> us /\
     User.email row = "admin@fbs.com" /\ User.role row = admin /\
     User.password row = bcrypt_hash "admin123") /\
  init (fresh (users run.2) (sessions run.2)) = run.
Proof.
  intros init run.
  assert (forall w, trace w = [] ->
            User.emailExists "admin@fbs.com" (users w) = true ->
            seedAdminUser bcrypt_hash defaultIsActive w
            = (Value tt, fresh (users w) (sessions w))) as Hskip.
  { intros [u s t] Ht He. simpl in Ht. subst t.
    unfold seedAdminUser, bind, getUsers, ret, fresh. cbn [users sessions trace].
    unfold User.emailExists in He. cbn [users] in He.
    destruct (User.findByEmail "admin@fbs.com" u); [reflexivity | discriminate]. }
  set (newRow := registeredRow bcrypt_hash defaultIsActive
                   (mkRegisterBody "Admin User" "admin@fbs.com" "9999999999"
                      "admin123" (Some admin) Js.Undefined Js.Undefined)).
  assert (User.emailExists "admin@fbs.com" us = false ->
          seedAdminUser bcrypt_hash defaultIsActive (fresh us ss)
          = (Value tt, fresh (<[User.nextId us := newRow]> us) ss)) as Hadd.
  { intros He.
    unfold seedAdminUser, bind, getUsers, modifyUsers, orThrow, ret, fresh.
    cbn [users sessions trace].
    assert (User.findByEmail "admin@fbs.com" us = None) as ->.
    { unfold User.emailExists in He.
      destruct (User.findByEmail "admin@fbs.com" us); [discriminate | reflexivity]. }
    cbn [users sessions trace]. unfold User.create. rewrite He. reflexivity. }
  assert (User.emailExists "admin@fbs.com" us = false ->
          User.emailExists "admin@fbs.com" (<[User.nextId us := newRow]> us)
          = true) as Hnow.
  { intros _. apply emailExists_true. exists (User.nextId us), newRow.
    split; [apply lookup_insert_eq | reflexivity]. }
  assert (SEED_ADMIN = Js.Str "true" \/ SEED_ADMIN <> Js.Str "true") as [->|Hne].
  { destruct SEED_ADMIN as [| |s]; try (right; discriminate).
    destruct (String.eqb_spec s "true") as [->|Hs]; [now left | right; congruence]. }
  - unfold run, init, initializeDatabase. simpl.
    destruct (User.emailExists "admin@fbs.com" us) eqn:He.
    + rewrite (Hskip (fresh us ss) eq_refl He). cbn [fst snd fresh users sessions].
      split; [reflexivity|]. split; [reflexivity|]. split; [auto|].
      split; [reflexivity|]. split; [reflexivity|]. split; [discriminate|].
      apply (Hskip (fresh us ss) eq_refl He).
    + rewrite (Hadd eq_refl). cbn [fst snd fresh users sessions].
      split; [reflexivity|]. split; [reflexivity|].
      split.
      { intros j row Hl. rewrite lookup_insert_ne; [exact Hl|].
        intros <-. rewrite user_nextId_fresh in Hl. discriminate. }
      split; [intros H; now destruct H|]. split; [discriminate|].
      split.
      { intros _ _. exists (User.nextId us), newRow.
        split; [apply user_nextId_fresh|]. repeat split. }
      apply (Hskip (fresh (<[User.nextId us := newRow]> us) ss) eq_refl (Hnow eq_refl)).
  - assert (forall w, init w = (Value tt, w)) as Hid.
    { intros w. unfold init, initializeDatabase.
      destruct SEED_ADMIN as [| |s]; try reflexivity.
      destruct (String.eqb_spec s "true") as [->|Hs]; [now destruct Hne | reflexivity]. }
    unfold run. rewrite !Hid. cbn [fst snd fresh users sessions].
    split; [reflexivity|]. split; [reflexivity|]. split; [auto|].
    split; [reflexivity|]. split; [reflexivity|].
    split; [intros H; now destruct Hne | reflexivity].
Qed.

End AccountManagement.

(** *** The examples *)

Lemma uniqueEmails_exampleUsers active : uniqueEmails (exampleUsers active).
Proof.
  unfold exampleUsers.
  apply uniqueEmails_insert_fresh.
  - apply uniqueEmails_insert_fresh.
    + intros i j r1 r2 H. rewrite lookup_empty in H. discriminate.
    + apply lookup_empty.
    + intros j r' H. rewrite lookup_empty in H. discriminate.
  - reflexivity.
  - intros j r'. destruct (decide (j = 1)) as [->|Hj].
    + rewrite lookup_insert_eq. intros [= <-]. discriminate.
    + rewrite lookup_insert_ne by congruence. rewrite lookup_empty. discriminate.
Qed.

(** Three accented letters are six bytes and three code units: too short
    for [resetUserPassword], which takes a word of six letters. *)
Example resetUserPassword_counts_code_units :
  let w := fresh (exampleUsers true) ∅ in
  String.length "ééé" = 6%nat /\ Js.length "ééé" = 3%nat /\
  resetUserPassword exampleHash exampleParseInt "7" (Js.Str "ééé") w
  = (Sent (failure 400 "New password must be at least 6 characters long"), w) /\
  (resetUserPassword exampleHash exampleParseInt "7" (Js.Str "secret") w).1
  = Sent (mkResponse 200
            [("success", JBool true);
             ("message", JString "Password reset successfully")]).
Proof.
  intros w. split; [reflexivity|]. split; [reflexivity|].
  split; vm_compute; reflexivity.
Qed.

Lemma register_contract_witness :
  let b := mkRegisterBody "Ravi" "ravi@fbs.com" "9876543210" "secret1" None
             Js.Undefined Js.Undefined in
  let us := exampleUsers true in
  uniqueEmails us /\
  User.emailExists "ravi@fbs.com" us = false /\
  uniqueEmails (<[User.nextId us := registeredRow exampleHash true b]> us).
Proof.
  intros b us.
  split; [apply uniqueEmails_exampleUsers|].
  split; [vm_compute; reflexivity|].
  destruct (register_contract exampleHash exampleJson true b us ∅
              (uniqueEmails_exampleUsers true)) as [_ H].
  destruct (H ltac:(vm_compute; reflexivity)) as (_ & _ & Hu & _).
  exact Hu.
Defined.

Lemma register_then_login_witness :
  let b := mkRegisterBody "Ravi" "ravi@fbs.com" "9876543210" "secret1" None
             Js.Undefined Js.Undefined in
  let w := (register exampleHash exampleJson true b
              (fresh (exampleUsers true) ∅)).2 in
  exists r,
    (login (fun _ => "jwt") exampleCompare "10:00:00" 0
       (credentials "ravi@fbs.com" "secret1")
       (fresh (users w) (sessions w))).1 = Sent r /\
    status r = 200.
Proof.
  intros b w.
  destruct (register_then_login exampleHash exampleCompare exampleJson true
              (fun _ => "jwt") "10:00:00" 0 b (exampleUsers true) ∅)
    as (r & E & Hs & _).
  - vm_compute. reflexivity.
  - reflexivity.
  - vm_compute. reflexivity.
  - right. vm_compute. reflexivity.
  - exists r. split; [exact E | exact Hs].
Defined.

Lemma login_refuses_deactivated_first_witness :
  (login (fun _ => "jwt") exampleCompare "10:00:00" 0
     (credentials "asha@fbs.com" "hash") (fresh (exampleUsers false) ∅)).1
  = Sent (failure 403 "Account has been deactivated. Please contact admin.").
Proof.
  destruct (login_refuses_deactivated_first exampleCompare (fun _ => "jwt")
              "10:00:00" 0 (exampleUsers false) ∅
              (credentials "asha@fbs.com" "hash") 7 (exampleEmployee false))
    as [E _].
  - vm_compute. reflexivity.
  - reflexivity.
  - now rewrite E.
Defined.

Lemma logout_contract_witness :
  let run := logout 100 (requestOf (FromToken 7 employee))
               (fresh (exampleUsers true) exampleSessions) in
  sessions run.2 = (LoginSession.endSession 100 7 exampleSessions).2 /\
  users run.2 = exampleUsers true.
Proof.
  intros run.
  destruct (logout_contract 100 (exampleUsers true) exampleSessions
              (requestOf (FromToken 7 employee)) 7 eq_refl)
    as (_ & Hu & Hs & _).
  split; [exact Hs | exact Hu].
Defined.

Lemma changePassword_contract_witness :
  let req := requestOf (Loaded (selectAuthUser (7, exampleEmployee true))) in
  (changePassword exampleHash exampleCompare (Js.Str "wrong")
     (Js.Str "newsecret") req (fresh (exampleUsers true) exampleSessions))
  = (Sent (failure 400 "Current password is incorrect"),
     fresh (exampleUsers true) exampleSessions).
Proof.
  intros req.
  destruct (changePassword_contract exampleHash exampleCompare
              (exampleUsers true) exampleSessions req
              (selectAuthUser (7, exampleEmployee true)) (exampleEmployee true)
              "wrong" "newsecret")
    as (_ & H & _).
  - apply uniqueEmails_exampleUsers.
  - reflexivity.
  - reflexivity.
  - reflexivity.
  - apply H. vm_compute. reflexivity.
Defined.

Lemma changePassword_then_login_witness :
  let req := requestOf (Loaded (selectAuthUser (7, exampleEmployee true))) in
  let w := (changePassword exampleHash exampleCompare (Js.Str "hash")
              (Js.Str "newsecret") req
              (fresh (exampleUsers true) exampleSessions)).2 in
  (login (fun _ => "jwt") exampleCompare "10:00:00" 0
     (credentials "asha@fbs.com" "hash") (fresh (users w) (sessions w))).1
  = Sent (failure 401 "Invalid email or password").
Proof.
  intros req w.
  destruct (changePassword_then_login exampleHash exampleCompare
              (fun _ => "jwt") "10:00:00" 0
              (exampleUsers true) exampleSessions req
              (selectAuthUser (7, exampleEmployee true)) (exampleEmployee true)
              "hash" "newsecret" "hash")
    as (H & _).
  - apply uniqueEmails_exampleUsers.
  - reflexivity.
  - reflexivity.
  - reflexivity.
  - vm_compute. reflexivity.
  - reflexivity.
  - apply H. vm_compute. reflexivity.
Defined.

Lemma deleteUser_contract_witness :
  let run := deleteUser exampleParseInt "1" (requestOf (FromToken 1 admin))
               (fresh (exampleUsers true) ∅) in
  run = (Sent (failure 400 "Cannot delete your own account"),
         fresh (exampleUsers true) ∅).
Proof.
  intros run.
  destruct (deleteUser_contract exampleParseInt (exampleUsers true) ∅ "1"
              (requestOf (FromToken 1 admin)) 1 eq_refl)
    as (_ & _ & H & _).
  apply H. vm_compute. reflexivity.
Defined.

Lemma deleteUser_revokes_access_witness :
  let w := (deleteUser exampleParseInt "7" (requestOf (FromToken 1 admin))
              (fresh (exampleUsers true) ∅)).2 in
  (authenticateToken exampleVerify "10:00:00"
     (exampleRequest (Js.Str "Bearer token-of-7"))
     (fresh (users w) (sessions w))).1
  = Sent (failure 401 "User not found").
Proof.
  intros w.
  apply (deleteUser_revokes_access exampleParseInt exampleVerify "10:00:00"
           (exampleUsers true) ∅ "7" (requestOf (FromToken 1 admin)) 1 7
           (exampleEmployee true) (exampleRequest (Js.Str "Bearer token-of-7"))
           "t" "oken-of-7" (mkClaims 7 "asha@fbs.com" employee)).
  - reflexivity.
  - lia.
  - vm_compute. reflexivity.
  - reflexivity.
  - vm_compute. reflexivity.
  - vm_compute. reflexivity.
  - reflexivity.
Defined.

Lemma updateUser_deactivation_revokes_access_witness :
  let b := mkUpdateBody None None None None None (Some (User.VBool false)) in
  let w := (updateUser exampleParseInt exampleJson "7" b
              (fresh (exampleUsers true) ∅)).2 in
  (authenticateToken exampleVerify "10:00:00"
     (exampleRequest (Js.Str "Bearer token-of-7"))
     (fresh (users w) (sessions w))).1
  = Sent (failure 403 "Account has been deactivated").
Proof.
  intros b w.
  eapply (updateUser_deactivation_revokes_access exampleParseInt exampleJson
            exampleVerify "10:00:00" (exampleUsers true) ∅ "7" b _ 7
            (exampleRequest (Js.Str "Bearer token-of-7"))
            "t" "oken-of-7" (mkClaims 7 "asha@fbs.com" employee)).
  - reflexivity.
  - vm_compute. reflexivity.
  - reflexivity.
  - vm_compute. reflexivity.
  - vm_compute. reflexivity.
  - vm_compute. reflexivity.
  - reflexivity.
Defined.


(** ** The guards on the routes *)

Section RouteGuards.

Variable jwt_verify : string -> JwtResult.
Variable clock : string.

Implicit Types (us : gmap Z User.row) (ss : gmap Z LoginSession.row).



(** *** The Authorization header *)

Lemma spaceFree_cons c s :
  spaceFree (String c s) -> c <> " "%char /\ spaceFree s.
Proof.
  intros H. split.
  - intros ->. now apply (H 0%nat).
  - intros i. apply (H (S i)).
Qed.

Lemma split_aux_piece w cur :
  spaceFree w -> Js.split_aux " " cur w = [(cur ++ w)%string].
Proof.
  revert cur. induction w as [|c w IH]; intros cur H; simpl.
  - now rewrite append_nil_r.
  - apply spaceFree_cons in H as [Hc Hw].
    destruct (Ascii.eqb_spec c " ") as [->|_]; [now destruct Hc|].
    rewrite IH by exact Hw. now rewrite append_assoc, append_cons, append_nil_l.
Qed.

Lemma split_aux_first w cur rest :
  spaceFree w ->
  Js.split_aux " " cur (w ++ String " " rest)
  = (cur ++ w)%string :: Js.split_aux " " "" rest.
Proof.
  revert cur. induction w as [|c w IH]; intros cur H.
  - rewrite append_nil_l, append_nil_r. reflexivity.
  - apply spaceFree_cons in H as [Hc Hw].
    rewrite append_cons. simpl.
    destruct (Ascii.eqb_spec c " ") as [->|_]; [now destruct Hc|].
    rewrite IH by exact Hw. now rewrite append_assoc, append_cons, append_nil_l.
Qed.

Lemma prefix_cons a b s1 s2 :
  String.prefix (String a s1) (String b s2)
  = if ascii_dec a b then String.prefix s1 s2 else false.
Proof. reflexivity. Qed.

Lemma prefix_scheme p scheme rest :
  spaceFree p -> spaceFree scheme ->
  String.prefix (p ++ " ") (scheme ++ String " " rest) = true ->
  scheme = p.
Proof.
  revert scheme. induction p as [|a p IH]; intros scheme Hp Hs.
  - rewrite append_nil_l. destruct scheme as [|c scheme]; [reflexivity|].
    apply spaceFree_cons in Hs as [Hc _]. rewrite append_cons, prefix_cons.
    destruct (ascii_dec " " c) as [<-|_]; [now destruct Hc | discriminate].
  - apply spaceFree_cons in Hp as [Ha Hp]. rewrite append_cons.
    destruct scheme as [|c scheme].
    + rewrite append_nil_l, prefix_cons.
      destruct (ascii_dec a " ") as [->|_]; [now destruct Ha | discriminate].
    + apply spaceFree_cons in Hs as [_ Hs]. rewrite append_cons, prefix_cons.
      destruct (ascii_dec a c) as [->|_]; [|discriminate].
      intros H. f_equal. now apply IH.
Qed.

(** X22. How the two guards read the Authorization header.  For a header
    "<scheme> <token>", [authenticateToken] verifies the token whatever the
    scheme word is, and a header without a space gets 401 "Access token
    required" without any verification; [protect] answers 401
    "Unauthorized" for every scheme other than Bearer, and does so without
    verifying the token. *)
Theorem guards_read_authorization_header (scheme tok : string) us ss req :
  spaceFree scheme -> spaceFree tok ->
  let header := Js.Str (scheme ++ String " " tok) in
  tokenOf header = Js.Str tok /\
  (authorization req = header -> tok <> "" ->
   exists rest,
     trace (authenticateToken jwt_verify clock req (fresh us ss)).2
     = JwtVerify tok :: rest) /\
  (authorization req = Js.Str tok ->
   authenticateToken jwt_verify clock req (fresh us ss)
   = (Sent (failure 401 "Access token required"), fresh us ss)) /\
  (authorization req = header -> scheme <> "Bearer" ->
   protect jwt_verify req (fresh us ss)
   = (Sent (mkResponse 401 [("message", JString "Unauthorized")]),
      fresh us ss)).
Proof.
  intros Hs Ht header.
  assert (Js.split " " (scheme ++ String " " tok) = [scheme; tok]) as Hsplit.
  { unfold Js.split. rewrite split_aux_first by exact Hs.
    rewrite split_aux_piece by exact Ht. now rewrite !append_nil_l. }
  assert (tokenOf header = Js.Str tok) as Htok.
  { unfold tokenOf, header.
    assert (Js.truthy (Js.Str (scheme ++ String " " tok)) = true) as ->.
    { destruct scheme; reflexivity. }
    cbn [Js.to_string]. now rewrite Hsplit. }
  split; [exact Htok|]. split; [|split].
  - intros Hh Hne.
    destruct (authenticateToken_steps jwt_verify clock us ss req) as [_ ->].
    unfold authenticateTokenSteps. rewrite Hh. fold header. rewrite Htok.
    destruct tok as [|c tok]; [now destruct Hne|].
    cbn [snd trace].
    destruct (jwt_verify (String c tok)) as [cl|name].
    + destruct (us !! claim_userId cl) as [u|]; [|eexists; reflexivity].
      destruct (negb (User.isActive u)); [eexists; reflexivity|].
      destruct (User.role u); eexists; reflexivity.
    + eexists; reflexivity.
  - intros Hh. unfold authenticateToken, tryCatch, send, fresh. rewrite Hh.
    unfold tokenOf.
    destruct tok as [|c tok]; [reflexivity|].
    cbn [Js.truthy Js.to_string]. unfold Js.split.
    rewrite split_aux_piece by exact Ht. reflexivity.
  - intros Hh Hne. unfold protect, tryCatch, send, fresh. rewrite Hh.
    unfold header. cbn [Js.to_string].
    assert (Js.startsWith "Bearer " (scheme ++ String " " tok) = false) as ->.
    { unfold Js.startsWith.
      destruct (String.prefix "Bearer " (scheme ++ String " " tok)) eqn:E;
        [|reflexivity].
      destruct Hne. apply (prefix_scheme "Bearer" scheme tok); [|exact Hs|exact E].
      intros i. do 7 (destruct i as [|i]; [discriminate|]). discriminate. }
    rewrite orb_true_r. reflexivity.
Qed.

End RouteGuards.


Lemma guards_read_authorization_header_witness :
  tokenOf (Js.Str "Basic token-of-7") = Js.Str "token-of-7" /\
  protect exampleVerify (exampleRequest (Js.Str "Basic token-of-7"))
    (fresh (exampleUsers true) ∅)
  = (Sent (mkResponse 401 [("message", JString "Unauthorized")]),
     fresh (exampleUsers true) ∅).
Proof.
  destruct (guards_read_authorization_header exampleVerify "10:00:00"
              "Basic" "token-of-7" (exampleUsers true) ∅
              (exampleRequest (Js.Str "Basic token-of-7")))
    as (H1 & _ & _ & H4).
  - intros i. do 5 (destruct i as [|i]; [discriminate|]). discriminate.
  - intros i. do 10 (destruct i as [|i]; [discriminate|]). discriminate.
  - split; [exact H1|]. apply H4; [reflexivity | discriminate].
Defined.

(** ** What the validators let through *)

Section ValidatedBounds.

Import Regex.

(** A character of [0-9]: it is no colon and has a decimal value. *)
Lemma digit_char lo hi c :
  in_range lo hi c = true ->
  (48 <= N_of_ascii lo)%N -> (N_of_ascii hi <= 57)%N ->
  Ascii.eqb c ":" = false /\
  exists d, digitValue c = Some d /\
            Z.of_N (N_of_ascii lo) - 48 <= d <= Z.of_N (N_of_ascii hi) - 48.
Proof.
  intros H Hlo Hhi. apply in_range_spec in H as [H1 H2]. split.
  - apply Ascii.eqb_neq. intros ->. cbn in H2. lia.
  - exists (Z.of_N (N_of_ascii c) - 48). split; [|lia].
    unfold digitValue.
    assert (in_range "0" "9" c = true) as ->; [|reflexivity].
    apply in_range_spec. cbn. lia.
Qed.

Lemma split_aux_other c cur rest :
  Ascii.eqb c ":" = false ->
  Js.split_aux ":" cur (String c rest)
  = Js.split_aux ":" (cur ++ String c "") rest.
Proof. intros H. cbn [Js.split_aux]. now rewrite H. Qed.

Lemma split_aux_colon cur rest :
  Js.split_aux ":" cur (String ":" rest) = cur :: Js.split_aux ":" "" rest.
Proof. reflexivity. Qed.

Lemma timeField_one a x :
  digitValue a = Some x -> timeField (String a "") = Some x.
Proof. intros H. unfold timeField, decimal. rewrite H. f_equal; lia. Qed.

Lemma timeField_two a b x y :
  digitValue a = Some x -> digitValue b = Some y ->
  timeField (String a (String b "")) = Some (10 * x + y).
Proof. intros Ha Hb. unfold timeField, decimal. rewrite Ha, Hb. f_equal; lia. Qed.

(** The minutes, with or without seconds behind them. *)
Lemma minutes_and_seconds s :
  lang (Seq (Range "0" "5")
          (Seq (Range "0" "9")
             (Opt (Seq (Chr ":") (Seq (Range "0" "5") (Range "0" "9")))))) s ->
  exists m1 m2 x1 x2,
    Ascii.eqb m1 ":" = false /\ Ascii.eqb m2 ":" = false /\
    digitValue m1 = Some x1 /\ digitValue m2 = Some x2 /\
    0 <= x1 <= 5 /\ 0 <= x2 <= 9 /\
    (s = String m1 (String m2 "")
     \/ exists s1 s2 y1 y2,
          Ascii.eqb s1 ":" = false /\ Ascii.eqb s2 ":" = false /\
          digitValue s1 = Some y1 /\ digitValue s2 = Some y2 /\
          0 <= y1 <= 5 /\ 0 <= y2 <= 9 /\
          s = String m1 (String m2 (String ":" (String s1 (String s2 ""))))).
Proof.
  intros H.
  apply lang_seq_inv in H as (a & r1 & -> & Ha & H).
  apply lang_seq_inv in H as (b & r2 & -> & Hb & H).
  apply lang_range_inv in Ha as (m1 & -> & Ha).
  apply lang_range_inv in Hb as (m2 & -> & Hb).
  destruct (digit_char _ _ _ Ha) as (E1 & x1 & D1 & B1); [cbn; lia..|].
  destruct (digit_char _ _ _ Hb) as (E2 & x2 & D2 & B2); [cbn; lia..|].
  cbn in B1, B2.
  exists m1, m2, x1, x2. repeat (split; [assumption || lia|]).
  apply lang_opt_inv in H as [->|H]; [left; reflexivity|].
  apply lang_seq_inv in H as (c & r3 & -> & Hc & H).
  apply lang_seq_inv in H as (p & q & -> & Hp & Hq).
  apply lang_chr_inv in Hc as ->.
  apply lang_range_inv in Hp as (s1 & -> & Hp).
  apply lang_range_inv in Hq as (s2 & -> & Hq).
  destruct (digit_char _ _ _ Hp) as (E3 & y1 & D3 & B3); [cbn; lia..|].
  destruct (digit_char _ _ _ Hq) as (E4 & y2 & D4 & B4); [cbn; lia..|].
  cbn in B3, B4.
  right. exists s1, s2, y1, y2. repeat (split; [assumption || lia|]).
  reflexivity.
Qed.

(** The hour: one digit, or two digits below 24. *)
Lemma hours s :
  lang (Alt (Seq (Opt (Class ["0"; "1"]%char)) (Range "0" "9"))
            (Seq (Chr "2") (Range "0" "3"))) s ->
  exists h, timeField s = Some h /\ 0 <= h <= 23 /\
            forall cur rest,
              Js.split_aux ":" cur (s ++ String ":" rest)
              = (cur ++ s)%string :: Js.split_aux ":" "" rest.
Proof.
  intros H. apply lang_alt_inv in H as [H|H].
  - apply lang_seq_inv in H as (o & d & -> & Ho & Hd).
    apply lang_range_inv in Hd as (b & -> & Hb).
    destruct (digit_char _ _ _ Hb) as (E & y & D & B); [cbn; lia..|].
    cbn in B.
    apply lang_opt_inv in Ho as [->|Ho].
    + exists y. rewrite append_nil_l.
      split; [now apply timeField_one|]. split; [lia|].
      intros cur rest. rewrite append_cons, append_nil_l.
      now rewrite split_aux_other, split_aux_colon.
    + apply lang_class_inv in Ho as (a & -> & Ha).
      apply in_class_spec in Ha.
      assert (Ascii.eqb a ":" = false /\ exists x, digitValue a = Some x /\ 0 <= x <= 1)
        as (Ea & x & Da & Bx).
      { destruct Ha as [<-|[<-|[]]]; (split; [reflexivity|]);
          [exists 0 | exists 1]; split; try reflexivity; lia. }
      exists (10 * x + y). rewrite append_cons, append_nil_l.
      split; [now apply timeField_two|]. split; [lia|].
      intros cur rest. rewrite !append_cons, append_nil_l.
      rewrite !split_aux_other, split_aux_colon by assumption.
      now rewrite !append_assoc, !append_cons, !append_nil_l.
  - apply lang_seq_inv in H as (o & d & -> & Ho & Hd).
    apply lang_chr_inv in Ho as ->.
    apply lang_range_inv in Hd as (b & -> & Hb).
    destruct (digit_char _ _ _ Hb) as (E & y & D & B); [cbn; lia..|].
    cbn in B.
    exists (10 * 2 + y). rewrite append_cons, append_nil_l.
    split; [now apply timeField_two|]. split; [lia|].
    intros cur rest. rewrite !append_cons, append_nil_l.
    rewrite !split_aux_other, split_aux_colon by (assumption || reflexivity).
    now rewrite !append_assoc, !append_cons, !append_nil_l.
Qed.

Lemma timeFormat_denotes s :
  Regex.test timeFormat s = true ->
  exists n, secondsOfDay s = Some n /\ 0 <= n < 86400.
Proof.
  intros H. apply test_lang in H. unfold timeFormat in H. cbv zeta in H.
  apply lang_seq_inv in H as (hh & r & -> & Hh & H).
  apply lang_seq_inv in H as (c & ms & -> & Hc & Hms).
  apply lang_chr_inv in Hc as ->.
  destruct (hours hh Hh) as (h & Fh & Bh & Hsplit).
  destruct (minutes_and_seconds ms Hms)
    as (m1 & m2 & x1 & x2 & E1 & E2 & D1 & D2 & B1 & B2 & Hshape).
  unfold secondsOfDay, Js.split.
  rewrite append_cons, append_nil_l, Hsplit, append_nil_l.
  destruct Hshape as [->|(s1 & s2 & y1 & y2 & E3 & E4 & D3 & D4 & B3 & B4 & ->)].
  - rewrite !split_aux_other by assumption. cbn [Js.split_aux].
    rewrite !append_assoc, !append_cons, !append_nil_l.
    rewrite Fh, (timeField_two m1 m2 x1 x2 D1 D2).
    eexists. split; [reflexivity | lia].
  - rewrite !split_aux_other, split_aux_colon by assumption.
    rewrite !split_aux_other by assumption. cbn [Js.split_aux].
    rewrite !append_assoc, !append_cons, !append_nil_l.
    rewrite Fh, (timeField_two m1 m2 x1 x2 D1 D2),
      (timeField_two s1 s2 y1 y2 D3 D4).
    eexists. split; [reflexivity | lia].
Qed.

(** X23. Whatever the validators of [register] and [updateUser] let through
    as a time bound is stored either as [null] (no bound) or as a string
    that denotes a time of the day, from 00:00:00 to 23:59:59; and the two
    validators differ only on [null] and the empty string, which
    [updateUser] accepts (to clear a bound) and [register] refuses. *)
Theorem validated_bounds_denote_times (v : Js.value) :
  (registerValidation_time v = true \/ updateUserValidation_time v = true ->
   match storedBound v with
   | None => True
   | Some s => exists n, secondsOfDay s = Some n /\ 0 <= n < 86400
   end) /\
  (registerValidation_time v = true -> updateUserValidation_time v = true) /\
  (updateUserValidation_time v = true -> registerValidation_time v = false ->
   v = Js.Null \/ v = Js.Str "").
Proof.
  split; [|split].
  - destruct v as [| |s]; try exact (fun _ => I).
    destruct s as [|c s]; [exact (fun _ => I)|].
    unfold registerValidation_time, updateUserValidation_time, storedBound.
    cbn [validatorString Js.or_null Js.truthy String.eqb].
    change (Js.or_null (Js.Str (String c s))) with (Some (String c s)).
    intros [H|H]; now apply timeFormat_denotes.
  - destruct v as [| |s]; try reflexivity; try discriminate.
    destruct s as [|c s]; [reflexivity|]. exact (fun H => H).
  - destruct v as [| |s]; try discriminate; [auto|].
    destruct s as [|c s]; [auto|].
    unfold registerValidation_time, updateUserValidation_time.
    cbn [validatorString String.eqb]. congruence.
Qed.

End ValidatedBounds.

(** ** Orders *)

Section Orders.

Variable D : Type.
Variable parseInt : string -> option Z.
Variable column : Js.value -> option string.
Variable orderJson : Z * Order.row D -> Json.
Variable now : Z.
Variable jwt_verify : string -> JwtResult.

Implicit Types (s : Order.store D) (o : Order.row D).



Lemma updateStatus_cases id (newStatus note : Js.value) s :
  (exists k o st,
      parseInt id = Some k /\ Order.orders s !! k = Some o /\
      column newStatus = Some st /\
      Order.updateStatus parseInt column now id newStatus note s
      = (Ok tt,
         Order.mkStore (<[k := Order.withStatus st o]> (Order.orders s))
           (Order.statusLogs s ++ [Order.mkLog k st (Js.or_null note) now])))
  \/ (exists e, Order.updateStatus parseInt column now id newStatus note s
                = (Raise e, s)).
Proof.
  unfold Order.updateStatus.
  destruct (parseInt id) as [k|]; [|right; eexists; reflexivity].
  destruct (column newStatus) as [st|]; [|right; eexists; reflexivity].
  destruct (Order.orders s !! k) as [o|] eqn:Hl; [|right; eexists; reflexivity].
  left. exists k, o, st. auto.
Qed.

(** X25. [updateOrderStatus] writes all or nothing: answered with 200, the
    order has the new status and exactly one row with that status, the
    note (or [null]) and the order's id has been added at the end of the
    status log; handed to the error handler, nothing has been written.  In
    neither case is another order touched, the assignment or the other
    columns of the order changed, or an existing log row changed or
    removed. *)
Theorem updateOrderStatus_contract id (newStatus note : Js.value) req s :
  let run := updateOrderStatus D parseInt column now id newStatus note req s in
  (forall r, run.1 = Sent r ->
     status r = 200 /\
     exists k o st,
       parseInt id = Some k /\ Order.orders s !! k = Some o /\
       column newStatus = Some st /\
       Order.orders run.2 !! k = Some (Order.withStatus st o) /\
       Order.statusLogs run.2
       = (Order.statusLogs s ++ [Order.mkLog k st (Js.or_null note) now])%list) /\
  (forall e, run.1 = Thrown e -> run.2 = s) /\
  (forall j, parseInt id <> Some j ->
             Order.orders run.2 !! j = Order.orders s !! j) /\
  (forall j o', Order.orders run.2 !! j = Some o' ->
     exists o, Order.orders s !! j = Some o /\
               Order.assignedToId o' = Order.assignedToId o /\
               Order.details o' = Order.details o) /\
  (exists added, Order.statusLogs run.2 = (Order.statusLogs s ++ added)%list
                 /\ (length added <= 1)%nat).
Proof.
  intros run. unfold run, updateOrderStatus.
  destruct (updateStatus_cases id newStatus note s)
    as [(k & o & st & Hk & Hl & Hc & E)|(e & E)]; rewrite E; simpl.
  - split.
    { intros r [= <-]. split; [reflexivity|]. exists k, o, st.
      rewrite lookup_insert_eq. auto. }
    split; [discriminate|].
    split; [intros j Hj; apply lookup_insert_ne; congruence|].
    split.
    + intros j o'. destruct (decide (j = k)) as [->|Hne].
      * rewrite lookup_insert_eq. intros [= <-]. exists o. auto.
      * rewrite lookup_insert_ne by congruence. intros H. exists o'. auto.
    + eexists. split; [reflexivity | simpl; lia].
  - split; [discriminate|]. split; [reflexivity|]. split; [reflexivity|].
    split; [intros j o' H; exists o'; auto|].
    exists []. split; [now rewrite app_nil_r | simpl; lia].
Qed.

(** X26. The status of an order can be changed by any caller that got through
    [protect]: [updateOrderStatus] and [markDelivered] do not look at the
    caller, so they answer every caller alike, and an employee to whom
    [getOrderById] refuses an order with 403 still changes its status. *)
Theorem order_status_changes_ignore_caller id (newStatus note : Js.value) req s :
  (forall req2,
     updateOrderStatus D parseInt column now id newStatus note req2 s
     = updateOrderStatus D parseInt column now id newStatus note req s
     /\ markDelivered D parseInt column now id req2 s
        = markDelivered D parseInt column now id req s) /\
  (forall uid k o st,
     req_user req = FromToken uid employee ->
     parseInt id = Some k -> Order.orders s !! k = Some o ->
     Order.assignedToId o <> Some uid ->
     column newStatus = Some st ->
     getOrderById D parseInt orderJson id req s
     = Sent (failure 403 "Access denied") /\
     let run := updateOrderStatus D parseInt column now id newStatus note req s in
     run.1 = Sent (mkResponse 200
                     [("success", JBool true);
                      ("message", JString "Order status updated")]) /\
     Order.status <$> Order.orders run.2 !! k = Some st).
Proof.
  split; [intros req2; split; reflexivity|].
  intros uid k o st Hu Hk Hl Ha Hc. split.
  - unfold getOrderById, Order.findById. rewrite Hk, Hl, Hu. simpl.
    destruct (bool_decide_reflect (Order.assignedToId o = Some uid)) as [H|H];
      [now destruct Ha | reflexivity].
  - unfold updateOrderStatus, Order.updateStatus. rewrite Hk, Hc, Hl. simpl.
    split; [reflexivity|]. now rewrite lookup_insert_eq.
Qed.

End Orders.

